(** * EnergyHub: metering ingest, invoice calculation and reconciliation

    A shallow embedding of the three services of the backend
    ([nem12_service.py], [invoice_calculator.py] together with the part of
    [tariff_fetcher.py] it calls, and [reconciliation_engine.py]) and the
    properties of the written specification checked against them.

    Conventions of the embedding.
    - A [Decimal] and a Python float are embedded as the rational they
      denote ([Q]).
    - [Decimal] arithmetic rounds a result of more than 28 significant digits
      to 28.  The rounding is modelled where a quotient is taken ([dec] in
      [pct_diff_of]) and where it makes the code raise ([quantize]); the
      sums, differences and products of amounts are taken without it, which
      is what the code computes as long as they have at most 28 significant
      digits.
    - binary64 rounding is modelled where a float is made from an exact
      value: [fl] for [float(x)] of a [Decimal] and for the true division of
      two ints; [round(x, 2)] then rounds the value of that float, and its
      result is embedded as the multiple of 0.01 it names.  The additions of
      the readings of a meter are taken as exact sums.  Infinite and NaN
      readings and float overflow are outside the model.
    - A date is its proleptic Gregorian ordinal ([date.toordinal()]).
    - Exceptions are values of [exn]; a fallible computation returns
      [result A].
    - The string functions of the Python runtime that the services call
      ([strip], [isdigit], [int], [float], [strptime], [lower], ...) are an
      interface, [PyRuntime]; every theorem holds for any implementation of
      it, and [ascii_runtime] is the instance used to run the code on
      concrete files.
    - The per-instance registries ([_file_data], [_invoices]) are arguments:
      a function that looks a file id up takes what the registry holds for
      it.  Generated ids and time stamps are left out, and the sentences of
      notes and recommendations are kept by kind with their figures. *)

From Stdlib Require Import ZArith QArith Qround Qabs String Ascii List Sorted Lia Lqa.
From stdpp Require Import gmap strings list.
Import ListNotations.

Set Warnings "-register-all".
Local Open Scope Q_scope.

(** ** Exceptions and results *)

Inductive exn : Type :=
| ValueError (msg : string)
| TypeError
| ZeroDivisionError
| AttributeError
| InvalidOperation.

Inductive result (A : Type) : Type :=
| Ok (a : A)
| Raise (e : exn).
Arguments Ok {A} a.
Arguments Raise {A} e.

Definition rbind {A B : Type} (r : result A) (k : A -> result B) : result B :=
  match r with
  | Ok a => k a
  | Raise e => Raise e
  end.

Notation "x <- r ;; k" := (rbind r (fun x => k))
  (at level 100, r at next level, right associativity).

Definition is_ok {A : Type} (r : result A) : bool :=
  match r with Ok _ => true | Raise _ => false end.

(** ** Numbers *)

Definition Qltb (a b : Q) : bool := negb (Qle_bool b a).

(** [Decimal.quantize(Decimal('0.01'), rounding=ROUND_HALF_UP)]: the nearest
    multiple of 0.01, a tie going away from zero. *)
Definition quantize_cents (q : Q) : Z :=
  let k := Qfloor (Qabs q * 100 + (1 # 2)) in
  if Qle_bool 0 q then k else (- k)%Z.

Definition quantize2 (q : Q) : Q := inject_Z (quantize_cents q) / 100.

(** [quantize] raises [InvalidOperation] when the coefficient of the result,
    here the number of cents, would have more digits than the precision of
    the decimal context, 28. *)
Definition quantize (q : Q) : result Q :=
  if (Z.abs (quantize_cents q) <? 10 ^ 28)%Z then Ok (quantize2 q)
  else Raise InvalidOperation.

(** [round(x, 2)] of a float: the nearest multiple of 0.01, a tie going to
    the even one. *)
Definition round_half_even (q : Q) : Z :=
  let f := Qfloor q in
  let r := q - inject_Z f in
  if Qltb r (1 # 2) then f
  else if Qltb (1 # 2) r then (f + 1)%Z
  else if Z.even f then f else (f + 1)%Z.

Definition round2 (q : Q) : Q := inject_Z (round_half_even (q * 100)) / 100.

(** A Python float is a binary64 number.  [fl q] is the float nearest to
    the real [q], a tie going to the even significand: the value of
    [float(x)] for a [Decimal] [x] and of the true division of two ints.
    The significand has 53 bits and the least exponent is -1074. *)
Definition pow2 (e : Z) : Q :=
  if (0 <=? e)%Z then inject_Z (2 ^ e) else / inject_Z (2 ^ (- e)).

(** [floor(log2 q)] of a positive [q]. *)
Definition ilog2 (q : Q) : Z :=
  let c := (Z.log2 (Qnum q) - Z.log2 (Zpos (Qden q)))%Z in
  if Qle_bool (pow2 c) q then c else (c - 1)%Z.

Definition fl (q : Q) : Q :=
  if Qeq_bool q 0 then 0
  else
    let a := Qabs q in
    let e := Z.max (ilog2 a - 52) (-1074) in
    let r := Qred (inject_Z (round_half_even (a / pow2 e)) * pow2 e) in
    if Qle_bool 0 q then r else - r.

(** The arithmetic of [Decimal] rounds every result to the precision of the
    context, 28 significant digits, a tie going to the even digit
    ([ROUND_HALF_EVEN]).  [dec q] is the real [q] so rounded. *)
Definition pow10 (e : Z) : Q :=
  if (0 <=? e)%Z then inject_Z (10 ^ e) else / inject_Z (10 ^ (- e)).

(** The number of decimal digits of a positive integer; it is at most the
    number of its bits. *)
Fixpoint digits_upto (fuel : nat) (n : Z) : Z :=
  match fuel with
  | O => 1%Z
  | S fuel' => if (n <? 10)%Z then 1%Z else (1 + digits_upto fuel' (n / 10))%Z
  end.

Definition ndigits (n : Z) : Z := digits_upto (Z.to_nat (Z.log2 n)) n.

(** [floor(log10 q)] of a positive [q]. *)
Definition ilog10 (q : Q) : Z :=
  let c := (ndigits (Qnum q) - ndigits (Zpos (Qden q)))%Z in
  if Qle_bool (pow10 c) q then c else (c - 1)%Z.

Definition dec (q : Q) : Q :=
  if Qeq_bool q 0 then 0
  else
    let a := Qabs q in
    let e := (ilog10 a - 27)%Z in
    let r := Qred (inject_Z (round_half_even (a / pow10 e)) * pow10 e) in
    if Qle_bool 0 q then r else - r.

(** ** Line items

    A line item is a dict; every key the services read through [.get] may be
    absent. *)

Record LineItem : Type := mkLineItem {
  description : option string;
  charge_type : option string;
  quantity : option Q;
  item_unit : option string;
  rate : option Q;
  amount : option Q;
  tariff_code : option string;
  period_start : option Z;
  period_end : option Z
}.

(** ** Reconciliation engine: [_reconcile_line_items] *)

Inductive DiscrepancyStatus : Type :=
| MATCH | MINOR | SIGNIFICANT | MISSING_INVOICED | MISSING_CALCULATED.

Definition status_eqb (a b : DiscrepancyStatus) : bool :=
  match a, b with
  | MATCH, MATCH | MINOR, MINOR | SIGNIFICANT, SIGNIFICANT
  | MISSING_INVOICED, MISSING_INVOICED
  | MISSING_CALCULATED, MISSING_CALCULATED => true
  | _, _ => false
  end.

(** The text of a note; the f-string of [_get_discrepancy_note] is kept as
    its three arguments (direction, |diff|, percentage). *)
Inductive Note : Type :=
| NoteText (s : string)
| NoteDiscrepancy (higher : bool) (abs_diff pct : Q).

Record LineItemReconciliation : Type := mkRecon {
  r_description : string;
  r_charge_type : string;
  invoiced_quantity : option Q;
  invoiced_rate : option Q;
  invoiced_amount : Q;
  calculated_quantity : option Q;
  calculated_rate : option Q;
  calculated_amount : Q;
  amount_difference : Q;
  percentage_difference : option Q;
  status : DiscrepancyStatus;
  notes : option Note
}.

(** [item.get('charge_type', 'other')], [Decimal(str(item.get('amount', 0)))]
    and [item.get('description', '')]. *)
Definition get_charge_type (it : LineItem) : string := default "other"%string (charge_type it).
Definition get_amount (it : LineItem) : Q := default 0 (amount it).
Definition get_description (it : LineItem) : string := default ""%string (description it).

(** [calc_by_type]: a dict from charge type to the list of calculated items
    of that type; Python dicts iterate in insertion order. *)
Fixpoint bucket_append (ct : string) (it : LineItem)
    (d : list (string * list LineItem)) : list (string * list LineItem) :=
  match d with
  | [] => [(ct, [it])]
  | (k, items) :: rest =>
      if String.eqb k ct then (k, items ++ [it]) :: rest
      else (k, items) :: bucket_append ct it rest
  end.

Definition build_calc_by_type (calculated_items : list LineItem)
    : list (string * list LineItem) :=
  fold_left (fun d it => bucket_append (get_charge_type it) it d) calculated_items [].

Fixpoint bucket_get (ct : string) (d : list (string * list LineItem)) : list LineItem :=
  match d with
  | [] => []
  | (k, items) :: rest => if String.eqb k ct then items else bucket_get ct rest
  end.

Definition enumerate {A : Type} (l : list A) : list (nat * A) :=
  combine (seq 0 (length l)) l.

(** The inner loop: the unmatched item of the bucket with the least absolute
    difference, the first one on a tie.  [calculated_matched] holds indices
    [j] into the bucket being searched. *)
Definition best_step (calculated_matched : gset nat) (inv_amount : Q)
    (best : option (nat * LineItem * Q)) (jc : nat * LineItem)
    : option (nat * LineItem * Q) :=
  let '(j, calc_item) := jc in
  if bool_decide (j ∈ calculated_matched) then best
  else
    let diff := inv_amount - get_amount calc_item in
    match best with
    | None => Some (j, calc_item, diff)
    | Some (_, _, best_diff) =>
        if Qltb (Qabs diff) (Qabs best_diff) then Some (j, calc_item, diff) else best
    end.

Definition find_best (calculated_matched : gset nat) (inv_amount : Q)
    (bucket : list LineItem) : option (nat * LineItem * Q) :=
  fold_left (best_step calculated_matched inv_amount) (enumerate bucket) None.

(** [float(abs(diff) / calc_amount * 100)], and [100.0] or [0.0] when the
    calculated amount is not positive.  [abs], the division and the
    multiplication are those of [Decimal]; [float] takes the float nearest to
    their result. *)
Definition pct_diff_of (diff calc_amount : Q) : Q :=
  if Qltb 0 calc_amount
  then fl (dec (dec (dec (Qabs diff) / calc_amount) * 100))
  else if Qeq_bool diff 0 then 0 else 100.

Definition classify (pct_diff tolerance_percent : Q) : DiscrepancyStatus :=
  if Qle_bool pct_diff tolerance_percent then MATCH
  else if Qle_bool pct_diff 5 then MINOR
  else SIGNIFICANT.

Definition _get_discrepancy_note (st : DiscrepancyStatus) (diff pct_diff : Q)
    : option Note :=
  if status_eqb st MATCH then None
  else Some (NoteDiscrepancy (Qltb 0 diff) (Qabs diff) pct_diff).

Definition matched_record (inv_item calc_item : LineItem) (tolerance_percent : Q)
    : LineItemReconciliation :=
  let inv_amount := get_amount inv_item in
  let calc_amount := get_amount calc_item in
  let diff := inv_amount - calc_amount in
  let pct_diff := pct_diff_of diff calc_amount in
  let st := classify pct_diff tolerance_percent in
  {| r_description := get_description inv_item;
     r_charge_type := get_charge_type inv_item;
     invoiced_quantity := quantity inv_item;
     invoiced_rate := rate inv_item;
     invoiced_amount := inv_amount;
     calculated_quantity := quantity calc_item;
     calculated_rate := rate calc_item;
     calculated_amount := calc_amount;
     amount_difference := diff;
     percentage_difference := Some (round2 pct_diff);
     status := st;
     notes := _get_discrepancy_note st diff pct_diff |}.

Definition missing_calculated_record (inv_item : LineItem) : LineItemReconciliation :=
  {| r_description := get_description inv_item;
     r_charge_type := get_charge_type inv_item;
     invoiced_quantity := quantity inv_item;
     invoiced_rate := rate inv_item;
     invoiced_amount := get_amount inv_item;
     calculated_quantity := None;
     calculated_rate := None;
     calculated_amount := 0;
     amount_difference := get_amount inv_item;
     percentage_difference := None;
     status := MISSING_CALCULATED;
     notes := Some (NoteText "Item on invoice but not in calculated values") |}.

Definition missing_invoiced_record (ct : string) (calc_item : LineItem)
    : LineItemReconciliation :=
  {| r_description := get_description calc_item;
     r_charge_type := ct;
     invoiced_quantity := None;
     invoiced_rate := None;
     invoiced_amount := 0;
     calculated_quantity := quantity calc_item;
     calculated_rate := rate calc_item;
     calculated_amount := get_amount calc_item;
     amount_difference := - get_amount calc_item;
     percentage_difference := None;
     status := MISSING_INVOICED;
     notes := Some (NoteText "Calculated item not found on invoice") |}.

(** The state of the first loop: the records so far and the two sets. *)
Record MatchState : Type := mkMatchState {
  reconciled : list LineItemReconciliation;
  invoiced_matched : gset nat;
  calculated_matched : gset nat
}.

Definition match_step (calc_by_type : list (string * list LineItem))
    (tolerance_percent : Q) (st : MatchState) (ii : nat * LineItem) : MatchState :=
  let '(i, inv_item) := ii in
  let ct := get_charge_type inv_item in
  match find_best (calculated_matched st) (get_amount inv_item) (bucket_get ct calc_by_type) with
  | Some (j, calc_item, _) =>
      {| reconciled := reconciled st ++ [matched_record inv_item calc_item tolerance_percent];
         invoiced_matched := {[ i ]} ∪ invoiced_matched st;
         calculated_matched := {[ j ]} ∪ calculated_matched st |}
  | None =>
      {| reconciled := reconciled st ++ [missing_calculated_record inv_item];
         invoiced_matched := invoiced_matched st;
         calculated_matched := calculated_matched st |}
  end.

(** The second loop: the calculated items whose bucket index is not in
    [calculated_matched]. *)
Definition leftover_bucket (calculated_matched : gset nat)
    (b : string * list LineItem) : list LineItemReconciliation :=
  let '(ct, items) := b in
  flat_map (fun jc : nat * LineItem =>
              if bool_decide (fst jc ∈ calculated_matched) then []
              else [missing_invoiced_record ct (snd jc)])
           (enumerate items).

Definition _reconcile_line_items (invoiced_items calculated_items : list LineItem)
    (tolerance_percent : Q) : list LineItemReconciliation :=
  let calc_by_type := build_calc_by_type calculated_items in
  let st := fold_left (match_step calc_by_type tolerance_percent)
                      (enumerate invoiced_items)
                      (mkMatchState [] ∅ ∅) in
  reconciled st ++ flat_map (leftover_bucket (calculated_matched st)) calc_by_type.

(** The four counters of [reconcile]. *)
Definition count_status (p : DiscrepancyStatus -> bool)
    (rs : list LineItemReconciliation) : nat :=
  length (List.filter (fun r => p (status r)) rs).

Definition is_missing (s : DiscrepancyStatus) : bool :=
  status_eqb s MISSING_INVOICED || status_eqb s MISSING_CALCULATED.

(** ** The Python runtime

    The library functions the services call on strings.  [None] stands for
    the [ValueError] the Python function raises. *)

Class PyRuntime : Type := {
  strip : string -> string;                 (* str.strip() *)
  lower : string -> string;                 (* str.lower() *)
  isdigit : string -> bool;                 (* str.isdigit() *)
  int_of_str : string -> option Z;          (* int(s) *)
  float_of_str : string -> option Q;        (* float(s) *)
  decimal_of_str : string -> option Q;      (* Decimal(s); None: InvalidOperation *)
  strptime_Ymd : string -> option Z;        (* datetime.strptime(s, '%Y%m%d').date() *)
  strptime_iso : string -> option Z;        (* datetime.strptime(s, '%Y-%m-%d').date() *)
  isoformat : Z -> string                   (* date.isoformat() *)
}.

(** [str.split(sep)] for a one-character separator: never the empty list. *)
Fixpoint split_on (sep : ascii) (s : string) : list string :=
  match s with
  | EmptyString => [EmptyString]
  | String c rest =>
      if Ascii.eqb c sep then EmptyString :: split_on sep rest
      else match split_on sep rest with
           | [] => [String c EmptyString]
           | w :: ws => String c w :: ws
           end
  end.

Definition comma : ascii := ","%char.
Definition newline : ascii := ascii_of_nat 10.

(** [date.weekday()]: Monday is 0; ordinal 1 is a Monday. *)
Definition weekday (d : Z) : Z := ((d + 6) mod 7)%Z.

(** ** NEM12 service *)

Record Meter : Type := mkMeter {
  nmi : string;
  nmi_configuration : string;
  register_id : string;
  nmi_suffix : string;
  meter_serial : option string;
  unit_of_measure : string;
  interval_length : Z;
  start_date : option Z;
  end_date : option Z;
  total_consumption : Q;
  total_generation : option Q;
  interval_count : option nat
}.

Record Interval : Type := mkInterval {
  i_date : Z;
  i_interval : Z;
  i_value : Q;
  i_unit : string
}.

(** What [process_nem12] stores under the file id. *)
Record FileData : Type := mkFileData {
  fd_meters : list Meter;
  fd_intervals : gmap string (list Interval)
}.

Record ConsumptionSummary : Type := mkSummary {
  s_nmi : string;
  s_period_start : option Z;
  s_period_end : option Z;
  total_kwh : Q;
  peak_kwh : Q;
  off_peak_kwh : Q
}.

(** The meter dicts are mutable and shared between [current_meter] and the
    list [meters]: the loop keeps them in a store, [heap], and both hold
    references (positions in the store). *)
Record ParseState : Type := mkParseState {
  heap : list Meter;
  meters : list nat;
  current_meter : option nat;
  interval_data : gmap string (list Interval)
}.

Definition set_interval_count (n : nat) (m : Meter) : Meter :=
  mkMeter (nmi m) (nmi_configuration m) (register_id m) (nmi_suffix m)
          (meter_serial m) (unit_of_measure m) (interval_length m)
          (start_date m) (end_date m) (total_consumption m)
          (total_generation m) (Some n).

Definition set_dates_total (sd ed : option Z) (t : Q) (m : Meter) : Meter :=
  mkMeter (nmi m) (nmi_configuration m) (register_id m) (nmi_suffix m)
          (meter_serial m) (unit_of_measure m) (interval_length m)
          sd ed t (total_generation m) (interval_count m).

Section NEM12.
Context `{PyRuntime}.

Definition field_or (fields : list string) (i : nat) (d : string) : string :=
  default d (fields !! i).

Definition _parse_200_record (fields : list string) : result Meter :=
  il <- match fields !! 8%nat with
        | Some f8 =>
            if isdigit f8 then
              match int_of_str f8 with
              | Some n => Ok n
              | None => Raise (ValueError "invalid literal for int()")
              end
            else Ok 30%Z
        | None => Ok 30%Z
        end ;;
  Ok {| nmi := field_or fields 1 "";
        nmi_configuration := field_or fields 2 "";
        register_id := field_or fields 3 "";
        nmi_suffix := field_or fields 4 "";
        meter_serial := fields !! 6%nat;
        unit_of_measure := field_or fields 7 "kWh";
        interval_length := il;
        start_date := None;
        end_date := None;
        total_consumption := 0;
        total_generation := None;
        interval_count := None |}.

(** One turn of the loop over [range(intervals_per_day)]: the accumulator is
    the list [intervals] and the running [meter['total_consumption']].  The
    float addition [+= value] is taken as the exact sum. *)
Definition reading_step (fields : list string) (interval_date : Z) (u : string)
    (acc : list Interval * Q) (i : nat) : list Interval * Q :=
  match fields !! (2 + i)%nat with
  | Some f =>
      match float_of_str f with
      | Some v => (fst acc ++ [mkInterval interval_date (Z.of_nat i + 1) v u], snd acc + v)
      | None => acc
      end
  | None => acc
  end.

Definition update_start (d : Z) (sd : option Z) : option Z :=
  match sd with
  | None => Some d
  | Some s => if (d <? s)%Z then Some d else Some s
  end.

Definition update_end (d : Z) (ed : option Z) : option Z :=
  match ed with
  | None => Some d
  | Some e => if (e <? d)%Z then Some d else Some e
  end.

(** Returns the list of readings and the meter dict as the call leaves it. *)
Definition _parse_300_record (fields : list string) (meter : Meter)
    : result (list Interval * Meter) :=
  if (interval_length meter =? 0)%Z then Raise ZeroDivisionError
  else
    let intervals_per_day := (1440 / interval_length meter)%Z in
    match strptime_Ymd (field_or fields 1 "") with
    | None => Ok ([], meter)
    | Some interval_date =>
        let sd := update_start interval_date (start_date meter) in
        let ed := update_end interval_date (end_date meter) in
        let '(intervals, total) :=
          fold_left (reading_step fields interval_date (unit_of_measure meter))
                    (seq 0 (Z.to_nat intervals_per_day))
                    ([], total_consumption meter) in
        Ok (intervals, set_dates_total sd ed total meter)
    end.

(** [current_meter['interval_count'] = len(...)] and [meters.append(current_meter)]. *)
Definition finalize (st : ParseState) : ParseState :=
  match current_meter st with
  | None => st
  | Some c =>
      match heap st !! c with
      | None => st
      | Some m =>
          let n := length (default [] (interval_data st !! nmi m)) in
          {| heap := <[ c := set_interval_count n m ]> (heap st);
             meters := meters st ++ [c];
             current_meter := current_meter st;
             interval_data := interval_data st |}
      end
  end.

Definition process_fields (st : ParseState) (fields : list string) : result ParseState :=
  let record_type := field_or fields 0 "" in
  if String.eqb record_type "100" then Ok st
  else if String.eqb record_type "200" then
    let st1 := finalize st in
    m <- _parse_200_record fields ;;
    Ok {| heap := heap st1 ++ [m];
          meters := meters st1;
          current_meter := Some (length (heap st1));
          interval_data := <[ nmi m := [] ]> (interval_data st1) |}
  else if String.eqb record_type "300" then
    match current_meter st with
    | None => Ok st
    | Some c =>
        match heap st !! c with
        | None => Ok st
        | Some m =>
            im <- _parse_300_record fields m ;;
            Ok {| heap := <[ c := snd im ]> (heap st);
                  meters := meters st;
                  current_meter := current_meter st;
                  interval_data :=
                    <[ nmi m := default [] (interval_data st !! nmi m) ++ fst im ]>
                      (interval_data st) |}
        end
    end
  else if String.eqb record_type "400" then Ok st
  else if String.eqb record_type "900" then Ok (finalize st)
  else Ok st.

Fixpoint process_rows (st : ParseState) (rows : list (list string)) : result ParseState :=
  match rows with
  | [] => Ok st
  | fields :: rest => st' <- process_fields st fields ;; process_rows st' rest
  end.

Definition initial_state : ParseState := mkParseState [] [] None ∅.

Definition file_data_of (st : ParseState) : FileData :=
  {| fd_meters := omap (fun r => heap st !! r) (meters st);
     fd_intervals := interval_data st |}.

(** [content.strip().split('\n')], each line then [line.strip().split(',')]. *)
Definition tokenize (content : string) : list (list string) :=
  map (fun line => split_on comma (strip line)) (split_on newline (strip content)).

(** The file data stored under [file_id]; the list returned is its
    [fd_meters]. *)
Definition process_nem12 (content : string) : result FileData :=
  st <- process_rows initial_state (tokenize content) ;; Ok (file_data_of st).

Definition is_peak (interval_date : Z) (interval_num : Z) (il : Z) : bool :=
  let minutes := ((interval_num - 1) * il)%Z in
  let hour := (minutes / 60)%Z in
  let is_weekday := (weekday interval_date <? 5)%Z in
  is_weekday && ((7 <=? hour)%Z && (hour <? 22)%Z).

(** One turn of the loop of [get_consumption_summary] over the readings of
    an NMI: [peak_kwh += value] or [off_peak_kwh += value], the float
    additions taken as exact sums. *)
Definition bucket_step (il : Z) (acc : Q * Q) (iv : Interval) : Q * Q :=
  if is_peak (i_date iv) (i_interval iv) il
  then (fst acc + i_value iv, snd acc)
  else (fst acc, snd acc + i_value iv).

Definition summary_of (intervals_of : gmap string (list Interval)) (meter : Meter)
    : ConsumptionSummary :=
  let intervals := default [] (intervals_of !! nmi meter) in
  let '(peak, off_peak) := fold_left (bucket_step (interval_length meter)) intervals (0, 0) in
  {| s_nmi := nmi meter;
     s_period_start := start_date meter;
     s_period_end := end_date meter;
     total_kwh := total_consumption meter;
     peak_kwh := peak;
     off_peak_kwh := off_peak |}.

(** [data] is [self._file_data.get(file_id)]. *)
Definition get_consumption_summary (data : option FileData) : list ConsumptionSummary :=
  match data with
  | None => []
  | Some d => map (summary_of (fd_intervals d)) (fd_meters d)
  end.

End NEM12.

(** ** An instance of the runtime for ASCII text

    It agrees with CPython on the inputs it accepts: ASCII whitespace and
    letters, unsigned digit strings, decimal literals such as [-12.50], and
    dates written with exactly four, two and two digits.  Spellings that
    CPython also accepts (exponents, [inf], digits outside ASCII, ...) are
    outside its domain. *)

Definition is_space (c : ascii) : bool :=
  let n := nat_of_ascii c in
  (n =? 32)%nat || ((9 <=? n)%nat && (n <=? 13)%nat) || ((28 <=? n)%nat && (n <=? 31)%nat).

Fixpoint lstrip (s : string) : string :=
  match s with
  | EmptyString => EmptyString
  | String c rest => if is_space c then lstrip rest else s
  end.

Fixpoint rstrip (s : string) : string :=
  match s with
  | EmptyString => EmptyString
  | String c rest =>
      match rstrip rest with
      | EmptyString => if is_space c then EmptyString else String c EmptyString
      | r => String c r
      end
  end.

Definition ascii_strip (s : string) : string := rstrip (lstrip s).

Definition lower_char (c : ascii) : ascii :=
  let n := nat_of_ascii c in
  if ((65 <=? n)%nat && (n <=? 90)%nat) then ascii_of_nat (n + 32) else c.

Fixpoint ascii_lower (s : string) : string :=
  match s with
  | EmptyString => EmptyString
  | String c rest => String (lower_char c) (ascii_lower rest)
  end.

Definition digit_of (c : ascii) : option Z :=
  let n := nat_of_ascii c in
  if ((48 <=? n)%nat && (n <=? 57)%nat) then Some (Z.of_nat (n - 48)) else None.

(** The value of a non-empty list of digits. *)
Fixpoint digits_value (acc : Z) (cs : list ascii) : option Z :=
  match cs with
  | [] => Some acc
  | c :: rest =>
      match digit_of c with
      | Some d => digits_value (acc * 10 + d)%Z rest
      | None => None
      end
  end.

Definition number_of (cs : list ascii) : option Z :=
  match cs with
  | [] => None
  | _ => digits_value 0 cs
  end.

Definition ascii_int (s : string) : option Z := number_of (list_ascii_of_string s).

Definition ascii_isdigit (s : string) : bool :=
  match ascii_int s with Some _ => true | None => false end.

Fixpoint span_digits (cs : list ascii) : list ascii * list ascii :=
  match cs with
  | [] => ([], [])
  | c :: rest =>
      match digit_of c with
      | Some _ => let '(ds, tl) := span_digits rest in (c :: ds, tl)
      | None => ([], cs)
      end
  end.

Definition unsigned_decimal (cs : list ascii) : option Q :=
  let '(ip, tl) := span_digits cs in
  match number_of ip, tl with
  | Some n, [] => Some (inject_Z n)
  | Some n, dot :: fp =>
      if Ascii.eqb dot "."%char then
        match fp with
        | [] => Some (inject_Z n)
        | _ =>
            match digits_value 0 fp with
            | Some f => Some (inject_Z n + inject_Z f / inject_Z (10 ^ Z.of_nat (length fp)))
            | None => None
            end
        end
      else None
  | None, _ => None
  end.

Definition ascii_float (s : string) : option Q :=
  match list_ascii_of_string s with
  | c :: rest =>
      if Ascii.eqb c "-"%char then
        match unsigned_decimal rest with Some q => Some (- q) | None => None end
      else unsigned_decimal (c :: rest)
  | [] => None
  end.

(** [_ymd2ord] of CPython's [datetime]. *)
Definition is_leap (y : Z) : bool :=
  ((y mod 4 =? 0) && (negb (y mod 100 =? 0) || (y mod 400 =? 0)))%Z.

Definition days_before_year (y : Z) : Z :=
  let p := (y - 1)%Z in (p * 365 + p / 4 - p / 100 + p / 400)%Z.

Definition days_in_month (y m : Z) : Z :=
  if (m =? 2)%Z then (if is_leap y then 29 else 28)%Z
  else if ((m =? 4) || (m =? 6) || (m =? 9) || (m =? 11))%Z then 30%Z
  else 31%Z.

Definition days_before_month (y m : Z) : Z :=
  fold_left (fun acc k => (acc + days_in_month y (Z.of_nat k))%Z)
            (seq 1 (Z.to_nat (m - 1))) 0%Z.

Definition ymd2ord (y m d : Z) : option Z :=
  if ((1 <=? y) && (1 <=? m) && (m <=? 12) && (1 <=? d) && (d <=? days_in_month y m))%Z
  then Some (days_before_year y + days_before_month y m + d)%Z
  else None.

Definition ymd_of_digits (ys ms ds : list ascii) : option Z :=
  match number_of ys, number_of ms, number_of ds with
  | Some y, Some m, Some d => ymd2ord y m d
  | _, _, _ => None
  end.

Definition ascii_strptime_Ymd (s : string) : option Z :=
  match list_ascii_of_string s with
  | [y1; y2; y3; y4; m1; m2; d1; d2] => ymd_of_digits [y1; y2; y3; y4] [m1; m2] [d1; d2]
  | _ => None
  end.

Definition ascii_strptime_iso (s : string) : option Z :=
  match list_ascii_of_string s with
  | [y1; y2; y3; y4; h1; m1; m2; h2; d1; d2] =>
      if Ascii.eqb h1 "-"%char && Ascii.eqb h2 "-"%char
      then ymd_of_digits [y1; y2; y3; y4] [m1; m2] [d1; d2]
      else None
  | _ => None
  end.

(** The inverse of [ymd2ord], for ordinals of the years 1 to 9999. *)
Fixpoint find_year (fuel : nat) (y d : Z) : Z :=
  match fuel with
  | O => y
  | S fuel' => if (days_before_year (y + 1) <? d)%Z then find_year fuel' (y + 1)%Z d else y
  end.

Fixpoint find_month (fuel : nat) (y m doy : Z) : Z :=
  match fuel with
  | O => m
  | S fuel' => if (days_before_month y (m + 1) <? doy)%Z then find_month fuel' y (m + 1)%Z doy else m
  end.

Definition digit_char (n : Z) : ascii := ascii_of_nat (48 + Z.to_nat (n mod 10)).

Definition pad2 (n : Z) : string :=
  String (digit_char (n / 10)) (String (digit_char n) EmptyString).

Definition ascii_isoformat (d : Z) : string :=
  let y := find_year 64 ((d - 1) / 366 + 1)%Z d in
  let doy := (d - days_before_year y)%Z in
  let m := find_month 11 y 1 doy in
  let dd := (doy - days_before_month y m)%Z in
  (pad2 (y / 100) ++ pad2 y ++ "-" ++ pad2 m ++ "-" ++ pad2 dd)%string.

#[export] Instance ascii_runtime : PyRuntime := {|
  strip := ascii_strip;
  lower := ascii_lower;
  isdigit := ascii_isdigit;
  int_of_str := ascii_int;
  float_of_str := ascii_float;
  decimal_of_str := ascii_float;
  strptime_Ymd := ascii_strptime_Ymd;
  strptime_iso := ascii_strptime_iso;
  isoformat := ascii_isoformat
|}.

(** ** Tariff fetcher

    Tariffs are plain dicts; a dict is a list of key-value pairs in insertion
    order without repeated keys. *)

Inductive value : Type :=
| VNone
| VNum (q : Q)
| VStr (s : string)
| VList (l : list value)
| VDict (d : list (string * value)).

Definition dict : Type := list (string * value).

Fixpoint dict_get (k : string) (d : dict) : option value :=
  match d with
  | [] => None
  | (k', v) :: rest => if String.eqb k' k then Some v else dict_get k rest
  end.

(** Truth value of a Python object. *)
Definition truthy (v : value) : bool :=
  match v with
  | VNone => false
  | VNum q => negb (Qeq_bool q 0)
  | VStr s => negb (String.eqb s "")
  | VList l => match l with [] => false | _ => true end
  | VDict d => match d with [] => false | _ => true end
  end.

Inductive NetworkProvider : Type :=
| EVOENERGY | ERGON_ENERGY | ENERGEX | AUSGRID | ESSENTIAL_ENERGY
| ENDEAVOUR_ENERGY | AUSNET_SERVICES | POWERCOR | JEMENA | CITIPOWER
| UNITED_ENERGY | TASNETWORKS.

(** [list(NetworkProvider)]: the members in definition order. *)
Definition all_providers : list NetworkProvider :=
  [EVOENERGY; ERGON_ENERGY; ENERGEX; AUSGRID; ESSENTIAL_ENERGY;
   ENDEAVOUR_ENERGY; AUSNET_SERVICES; POWERCOR; JEMENA; CITIPOWER;
   UNITED_ENERGY; TASNETWORKS].

Definition provider_value (p : NetworkProvider) : string :=
  match p with
  | EVOENERGY => "evoenergy" | ERGON_ENERGY => "ergon_energy"
  | ENERGEX => "energex" | AUSGRID => "ausgrid"
  | ESSENTIAL_ENERGY => "essential_energy"
  | ENDEAVOUR_ENERGY => "endeavour_energy"
  | AUSNET_SERVICES => "ausnet_services" | POWERCOR => "powercor"
  | JEMENA => "jemena" | CITIPOWER => "citipower"
  | UNITED_ENERGY => "united_energy" | TASNETWORKS => "tasnetworks"
  end.

Definition days_list (ds : list Z) : value := VList (map (fun d => VNum (inject_Z d)) ds).
Definition weekdays : list Z := [0; 1; 2; 3; 4]%Z.
Definition all_days : list Z := [0; 1; 2; 3; 4; 5; 6]%Z.

Definition time_period (name start_time end_time : string) (days : list Z) (r : Q) : value :=
  VDict [("name", VStr name); ("start_time", VStr start_time);
         ("end_time", VStr end_time); ("days", days_list days);
         ("rate_cents_per_kwh", VNum r)]%string.

Definition tou_tariff (code name provider effective_from : string) (supply : Q)
    (periods : list value) : dict :=
  [("tariff_code", VStr code); ("tariff_name", VStr name);
   ("network_provider", VStr provider); ("tariff_type", VStr "tou");
   ("effective_from", VStr effective_from);
   ("daily_supply_charge_cents", VNum supply);
   ("time_periods", VList periods)]%string.

Definition flat_tariff (code name provider effective_from : string) (supply usage : Q) : dict :=
  [("tariff_code", VStr code); ("tariff_name", VStr name);
   ("network_provider", VStr provider); ("tariff_type", VStr "flat");
   ("effective_from", VStr effective_from);
   ("daily_supply_charge_cents", VNum supply);
   ("usage_rate_cents_per_kwh", VNum usage)]%string.

(** [_init_sample_tariffs]. *)
Definition _sample_tariffs (p : NetworkProvider) : list dict :=
  match p with
  | AUSGRID =>
      [tou_tariff "EA010" "Residential Time of Use" "ausgrid" "2024-07-01" (9837 # 100)
         [time_period "peak" "14:00" "20:00" weekdays (3564 # 100);
          time_period "shoulder" "07:00" "14:00" weekdays (1287 # 100);
          time_period "shoulder" "20:00" "22:00" weekdays (1287 # 100);
          time_period "off_peak" "22:00" "07:00" all_days (814 # 100);
          time_period "off_peak" "00:00" "24:00" [5; 6]%Z (814 # 100)];
       flat_tariff "EA025" "Residential Flat Rate" "ausgrid" "2024-07-01"
         (9837 # 100) (1845 # 100)]
  | ENDEAVOUR_ENERGY =>
      [tou_tariff "N70" "Residential Time of Use" "endeavour_energy" "2024-07-01" (8950 # 100)
         [time_period "peak" "13:00" "20:00" weekdays (2982 # 100);
          time_period "shoulder" "07:00" "13:00" weekdays (1143 # 100);
          time_period "off_peak" "20:00" "07:00" all_days (789 # 100)]]
  | ESSENTIAL_ENERGY =>
      [flat_tariff "BLNN2AU" "Residential Single Rate" "essential_energy" "2024-07-01"
         (11520 # 100) (1485 # 100)]
  | AUSNET_SERVICES =>
      [tou_tariff "NAST11" "Small Residential TOU Weekday" "ausnet_services" "2024-01-01" (4160 # 100)
         [time_period "peak" "15:00" "21:00" weekdays (1814 # 100);
          time_period "off_peak" "00:00" "15:00" all_days (683 # 100);
          time_period "off_peak" "21:00" "24:00" all_days (683 # 100)]]
  | CITIPOWER =>
      [flat_tariff "C1R" "Residential Single Rate" "citipower" "2024-01-01"
         (3190 # 100) (875 # 100)]
  | POWERCOR =>
      [flat_tariff "D1" "Residential Single Rate" "powercor" "2024-01-01"
         (5520 # 100) (985 # 100)]
  | JEMENA =>
      [flat_tariff "A100" "Residential Anytime" "jemena" "2024-01-01"
         (3670 # 100) (825 # 100)]
  | UNITED_ENERGY =>
      [flat_tariff "LVS1R" "Residential Single Rate" "united_energy" "2024-01-01"
         (3450 # 100) (845 # 100)]
  | ENERGEX =>
      [flat_tariff "8400" "Residential Flat" "energex" "2024-07-01"
         (5580 # 100) (1123 # 100)]
  | ERGON_ENERGY =>
      [flat_tariff "8400" "Residential Flat" "ergon_energy" "2024-07-01"
         (10250 # 100) (1245 # 100)]
  | EVOENERGY =>
      [tou_tariff "RES-TOU" "Residential Time of Use" "evoenergy" "2024-07-01" (5230 # 100)
         [time_period "peak" "17:00" "20:00" weekdays (2450 # 100);
          time_period "off_peak" "00:00" "17:00" all_days (890 # 100);
          time_period "off_peak" "20:00" "24:00" all_days (890 # 100)]]
  | TASNETWORKS =>
      [flat_tariff "TAS31" "Residential Light and Power" "tasnetworks" "2024-07-01"
         (4250 # 100) (1280 # 100)]
  end.

Fixpoint remove_underscores (s : string) : string :=
  match s with
  | EmptyString => EmptyString
  | String c rest =>
      if Ascii.eqb c "_"%char then remove_underscores rest
      else String c (remove_underscores rest)
  end.

Definition get_or (k : string) (d : dict) (dflt : value) : value :=
  default dflt (dict_get k d).

(** The dict [get_tariff_by_code] returns for the tariff [t] of provider
    [p]: the tariff sits under the key ['network_tariff']. *)
Definition tariff_response (today : string) (p : NetworkProvider) (t : dict) : dict :=
  [("network_tariff",
    VDict [("tariff_code", get_or "tariff_code" t VNone);
           ("tariff_name", get_or "tariff_name" t VNone);
           ("network_provider", VStr (provider_value p));
           ("tariff_type", get_or "tariff_type" t VNone);
           ("effective_from", get_or "effective_from" t VNone);
           ("daily_supply_charge_cents", get_or "daily_supply_charge_cents" t VNone);
           ("usage_rate_cents_per_kwh", get_or "usage_rate_cents_per_kwh" t (VNum 0));
           ("time_periods", get_or "time_periods" t (VList []))]);
   ("last_updated", VStr today);
   ("source_url",
    VStr ("https://" ++ remove_underscores (provider_value p) ++ ".com.au/tariffs"))]%string.

Definition code_matches (tariff_code : string) (t : dict) : bool :=
  match dict_get "tariff_code" t with
  | Some (VStr c) => String.eqb c tariff_code
  | _ => false
  end.

Fixpoint search_providers (today : string) (providers : list NetworkProvider)
    (tariff_code : string) : option dict :=
  match providers with
  | [] => None
  | p :: rest =>
      match List.find (code_matches tariff_code) (_sample_tariffs p) with
      | Some t => Some (tariff_response today p t)
      | None => search_providers today rest tariff_code
      end
  end.

(** [today] is [date.today().isoformat()]. *)
Definition get_tariff_by_code (today : string) (provider : option NetworkProvider)
    (tariff_code : string) : option dict :=
  let providers := match provider with Some p => [p] | None => all_providers end in
  search_providers today providers tariff_code.

Inductive TariffType : Type := FLAT | TOU | DEMAND | CONTROLLED_LOAD.

Definition tariff_type_value (ty : TariffType) : string :=
  match ty with
  | FLAT => "flat" | TOU => "tou" | DEMAND => "demand"
  | CONTROLLED_LOAD => "controlled_load"
  end.

(** [t.get('tariff_type') == tariff_type.value]. *)
Definition type_matches (ty : TariffType) (t : dict) : bool :=
  match dict_get "tariff_type" t with
  | Some (VStr s) => String.eqb s (tariff_type_value ty)
  | _ => false
  end.

(** The dict [get_network_tariffs] builds for the tariff [t]: the tariff's
    own keys at the top level, the two optional ones only when their value
    is true.  Every sample tariff has the keys that are read with [t[...]]. *)
Definition tariff_data (provider : NetworkProvider) (t : dict) : dict :=
  [("tariff_code", get_or "tariff_code" t VNone);
   ("tariff_name", get_or "tariff_name" t VNone);
   ("network_provider", VStr (provider_value provider));
   ("tariff_type", get_or "tariff_type" t VNone);
   ("effective_from", get_or "effective_from" t VNone);
   ("effective_to", VNone);
   ("daily_supply_charge_cents", get_or "daily_supply_charge_cents" t VNone)]%string
  ++ (if truthy (get_or "usage_rate_cents_per_kwh" t VNone)
      then [("usage_rate_cents_per_kwh"%string, get_or "usage_rate_cents_per_kwh" t VNone)]
      else [])
  ++ (if truthy (get_or "time_periods" t VNone)
      then [("time_periods"%string, get_or "time_periods" t VNone)]
      else []).

(** Every member of [TariffType] is a non-empty string, so [if tariff_type:]
    holds whenever one is given; [effective_date] is not read. *)
Definition get_network_tariffs (provider : NetworkProvider)
    (tariff_type : option TariffType) : list dict :=
  let tariffs := _sample_tariffs provider in
  let tariffs :=
    match tariff_type with
    | Some ty => List.filter (type_matches ty) tariffs
    | None => tariffs
    end in
  map (tariff_data provider) tariffs.

(** ** Invoice calculator *)

Record CalculatedInvoice : Type := mkCalculated {
  c_nmi : string;
  c_billing_period_start : Z;
  c_billing_period_end : Z;
  c_line_items : list LineItem;
  subtotal : Q;
  gst : Q;
  total : Q;
  calculation_notes : string
}.

(** [sum(item['amount'] for item in line_items)]. *)
Definition sum_amounts (items : list LineItem) : Q :=
  fold_left (fun acc it => acc + get_amount it) items 0.

(** [if network_tariff:] holds for a dict that is not empty. *)
Definition if_tariff (network_tariff : option dict) : option dict :=
  match network_tariff with
  | Some (kv :: d) => Some (kv :: d)
  | _ => None
  end.

Definition nonempty (s : option string) : option string :=
  match s with
  | Some s' => if String.eqb s' "" then None else Some s'
  | None => None
  end.

Definition default_rate (period_name : string) : Q :=
  if String.eqb period_name "peak" then 35
  else if String.eqb period_name "off_peak" then 18
  else if String.eqb period_name "shoulder" then 25
  else 25.

Section Calculator.
Context `{PyRuntime}.

(** [Decimal(str(v))]. *)
Definition to_decimal (v : value) : result Q :=
  match v with
  | VNum q => Ok q
  | VStr s =>
      match decimal_of_str s with
      | Some q => Ok q
      | None => Raise InvalidOperation
      end
  | _ => Raise InvalidOperation
  end.

(** The loop of [_get_period_rate]: the rate of the first period whose
    lower-cased name is the lower-cased [period_name]. *)
Fixpoint find_period_rate (periods : list value) (period_name : string)
    : result (option Q) :=
  match periods with
  | [] => Ok None
  | VDict period :: rest =>
      match get_or "name" period (VStr "") with
      | VStr n =>
          if String.eqb (lower n) (lower period_name)
          then r <- to_decimal (get_or "rate_cents_per_kwh" period (VNum 25)) ;; Ok (Some r)
          else find_period_rate rest period_name
      | _ => Raise AttributeError
      end
  | _ :: _ => Raise AttributeError
  end.

(** What iterating over [tariff.get('time_periods', [])] yields. *)
Definition iterate (v : value) : result (list value) :=
  match v with
  | VList l => Ok l
  | VStr s => Ok (map (fun c => VStr (String c EmptyString)) (list_ascii_of_string s))
  | VDict d => Ok (map (fun kv => VStr (fst kv)) d)
  | VNone | VNum _ => Raise TypeError
  end.

Definition _get_period_rate (tariff : dict) (period_name : string) : result Q :=
  periods <- iterate (get_or "time_periods" tariff (VList [])) ;;
  found <- find_period_rate periods period_name ;;
  match found with
  | Some r => Ok r
  | None => Ok (default_rate period_name)
  end.

Definition usage_item (descr : string) (kwh rate_cents : Q) (code : string) : LineItem :=
  {| description := Some descr;
     charge_type := Some "usage"%string;
     quantity := Some kwh;
     item_unit := Some "kWh"%string;
     rate := Some (rate_cents / 100);
     amount := Some (quantize2 (kwh * rate_cents / 100));
     tariff_code := Some code;
     period_start := None;
     period_end := None |}.

(** A usage line item: its amount is quantized first. *)
Definition usage_line (descr : string) (kwh rate_cents : Q) (code : string)
    : result LineItem :=
  usage_amount <- quantize (kwh * rate_cents / 100) ;;
  Ok {| description := Some descr;
        charge_type := Some "usage"%string;
        quantity := Some kwh;
        item_unit := Some "kWh"%string;
        rate := Some (rate_cents / 100);
        amount := Some usage_amount;
        tariff_code := Some code;
        period_start := None;
        period_end := None |}.

(** The body of [calculate] once the consumption summary and the value
    returned by the tariff fetcher are at hand. *)
Definition calculate_body (summary : ConsumptionSummary) (network_tariff : option dict)
    (network_tariff_code : string) (billing_start billing_end : option string)
    : result CalculatedInvoice :=
  period <-
    match nonempty billing_start, nonempty billing_end with
    | Some bs, Some be =>
        match strptime_iso bs with
        | None => Raise (ValueError "time data does not match format")
        | Some ps =>
            match strptime_iso be with
            | None => Raise (ValueError "time data does not match format")
            | Some pe => Ok (Some ps, Some pe)
            end
        end
    | _, _ => Ok (s_period_start summary, s_period_end summary)
    end ;;
  se <- match period with
        | (Some ps, Some pe) => Ok (ps, pe)
        | _ => Raise TypeError
        end ;;
  let period_start := fst se in
  let period_end := snd se in
  let billing_days := (period_end - period_start + 1)%Z in
  supply_items <-
    match if_tariff network_tariff with
    | Some t =>
        cents <- to_decimal (get_or "daily_supply_charge_cents" t (VNum 100)) ;;
        let daily_supply := cents / 100 in
        supply_amount <- quantize (daily_supply * inject_Z billing_days) ;;
        Ok [ {| description := Some "Daily Supply Charge"%string;
                charge_type := Some "supply"%string;
                quantity := Some (inject_Z billing_days);
                item_unit := Some "day"%string;
                rate := Some daily_supply;
                amount := Some supply_amount;
                tariff_code := Some network_tariff_code;
                period_start := Some period_start;
                period_end := Some period_end |} ]
    | None => Ok []
    end ;;
  let total_kwh := total_kwh summary in
  let peak_kwh := peak_kwh summary in
  let off_peak_kwh := off_peak_kwh summary in
  usage_items <-
    match if_tariff network_tariff with
    | Some t =>
        if truthy (get_or "time_periods" t VNone) then
          peak_rate <- _get_period_rate t "peak" ;;
          off_peak_rate <- _get_period_rate t "off_peak" ;;
          peak_items <-
            (if Qltb 0 peak_kwh
             then it <- usage_line "Peak Energy Usage" peak_kwh peak_rate
                                   network_tariff_code ;; Ok [it]
             else Ok []) ;;
          off_peak_items <-
            (if Qltb 0 off_peak_kwh
             then it <- usage_line "Off-Peak Energy Usage" off_peak_kwh off_peak_rate
                                   network_tariff_code ;; Ok [it]
             else Ok []) ;;
          Ok (peak_items ++ off_peak_items)
        else
          flat_rate <- to_decimal (get_or "usage_rate_cents_per_kwh" t (VNum 25)) ;;
          it <- usage_line "Energy Usage" total_kwh flat_rate network_tariff_code ;;
          Ok [it]
    | None =>
        it <- usage_line "Energy Usage" total_kwh 25 network_tariff_code ;; Ok [it]
    end ;;
  let network_rate := 8 # 100 in
  network_amount <- quantize (total_kwh * network_rate) ;;
  let network_item :=
    {| description := Some "Network Charges"%string;
       charge_type := Some "network"%string;
       quantity := Some total_kwh;
       item_unit := Some "kWh"%string;
       rate := Some network_rate;
       amount := Some network_amount;
       tariff_code := None;
       period_start := None;
       period_end := None |} in
  let line_items := supply_items ++ usage_items ++ [network_item] in
  let subtotal := sum_amounts line_items in
  gst <- quantize (subtotal * (10 # 100)) ;;
  Ok {| c_nmi := s_nmi summary;
        c_billing_period_start := period_start;
        c_billing_period_end := period_end;
        c_line_items := line_items;
        subtotal := subtotal;
        gst := gst;
        total := subtotal + gst;
        calculation_notes := ("Calculated using tariff " ++ network_tariff_code)%string |}.

(** [data] is what the calculator's NEM12 service holds for [nem12_file_id],
    [today] the day of the call. *)
Definition calculate (data : option FileData) (today : string)
    (network_tariff_code : string) (billing_start billing_end : option string)
    : result CalculatedInvoice :=
  match get_consumption_summary data with
  | [] => Raise (ValueError "No consumption data found for file ID")
  | summary :: _ =>
      calculate_body summary (get_tariff_by_code today None network_tariff_code)
                     network_tariff_code billing_start billing_end
  end.

End Calculator.

(** ** Reconciliation engine: [reconcile] *)

(** The dict built by [_parse_invoice_text]; all its keys are present, some
    values may be [None]. *)
Record ParsedInvoice : Type := mkParsed {
  p_invoice_number : string;
  p_nmi : option string;
  p_billing_period_start : option Z;
  p_billing_period_end : option Z;
  p_line_items : list LineItem;
  p_total : Q
}.

(** The sentences of [_generate_recommendations], kept by kind. *)
Inductive Recommendation : Type :=
| TotalHigher (diff pct : Q)
| TotalLower (abs_diff pct : Q)
| UnmatchedInvoiceItems (n : nat)
| UnmatchedCalculatedItems (n : nat)
| UsageDiscrepancy
| WithinTolerance.

Record ReconciliationSummary : Type := mkReconciliation {
  rs_nmi : option string;
  rs_invoice_number : string;
  rs_billing_period_start : option Z;
  rs_billing_period_end : option Z;
  invoiced_total : Q;
  calculated_total : Q;
  total_difference : Q;
  total_percentage_difference : Q;
  rs_line_items : list LineItemReconciliation;
  matched_items : nat;
  minor_discrepancies : nat;
  significant_discrepancies : nat;
  missing_items : nat;
  overall_status : DiscrepancyStatus;
  confidence_score : Q;
  recommendations : list Recommendation
}.

Definition _generate_recommendations (reconciliations : list LineItemReconciliation)
    (total_diff total_pct : Q) : list Recommendation :=
  let r1 :=
    if Qltb 5 (Qabs total_pct) then
      (if Qltb 0 total_diff then [TotalHigher total_diff total_pct]
       else [TotalLower (Qabs total_diff) total_pct])
    else [] in
  let missing_inv := count_status (fun s => status_eqb s MISSING_INVOICED) reconciliations in
  let missing_calc := count_status (fun s => status_eqb s MISSING_CALCULATED) reconciliations in
  let r2 := if (0 <? missing_calc)%nat then [UnmatchedInvoiceItems missing_calc] else [] in
  let r3 := if (0 <? missing_inv)%nat then [UnmatchedCalculatedItems missing_inv] else [] in
  let usage_items :=
    List.filter (fun r => String.eqb (r_charge_type r) "usage" && status_eqb (status r) SIGNIFICANT)
           reconciliations in
  let r4 := match usage_items with [] => [] | _ => [UsageDiscrepancy] end in
  match r1 ++ r2 ++ r3 ++ r4 with
  | [] => [WithinTolerance]
  | rs => rs
  end.

Definition overall_status_of (significant minor missing : nat)
    (total_percentage tolerance_percent : Q) : DiscrepancyStatus :=
  if (0 <? significant)%nat || Qltb 5 (Qabs total_percentage) then SIGNIFICANT
  else if (0 <? minor)%nat || (0 <? missing)%nat
          || Qltb tolerance_percent (Qabs total_percentage) then MINOR
  else MATCH.

(** [matched / total_items if total_items > 0 else 0.0]: the true division
    of two ints is the float nearest to the quotient. *)
Definition confidence_of (matched total_items : nat) : Q :=
  if (0 <? total_items)%nat
  then fl (inject_Z (Z.of_nat matched) / inject_Z (Z.of_nat total_items))
  else 0.

Section Reconcile.
Context `{PyRuntime}.

(** [parsed] is what the engine's invoice parser holds for
    [invoice_file_id], [data] what its calculator's NEM12 service holds for
    [nem12_file_id]. *)
Definition reconcile (parsed : option ParsedInvoice) (data : option FileData)
    (today : string) (network_tariff_code : option string)
    (tolerance_percent : Q) : result ReconciliationSummary :=
  match parsed with
  | None => Raise (ValueError "Parsed invoice not found")
  | Some parsed =>
      calculated <-
        calculate data today
          (default "EA010"%string (nonempty network_tariff_code))
          (option_map isoformat (p_billing_period_start parsed))
          (option_map isoformat (p_billing_period_end parsed)) ;;
      let line_reconciliations :=
        _reconcile_line_items (p_line_items parsed) (c_line_items calculated)
                              tolerance_percent in
      let invoiced_total := p_total parsed in
      let calculated_total := total calculated in
      let total_difference := invoiced_total - calculated_total in
      let total_percentage := pct_diff_of total_difference calculated_total in
      let matched := count_status (fun s => status_eqb s MATCH) line_reconciliations in
      let minor := count_status (fun s => status_eqb s MINOR) line_reconciliations in
      let significant := count_status (fun s => status_eqb s SIGNIFICANT) line_reconciliations in
      let missing := count_status is_missing line_reconciliations in
      let total_items := length line_reconciliations in
      let confidence := confidence_of matched total_items in
      Ok {| rs_nmi := p_nmi parsed;
            rs_invoice_number := p_invoice_number parsed;
            rs_billing_period_start := p_billing_period_start parsed;
            rs_billing_period_end := p_billing_period_end parsed;
            invoiced_total := invoiced_total;
            calculated_total := calculated_total;
            total_difference := total_difference;
            total_percentage_difference := round2 total_percentage;
            rs_line_items := line_reconciliations;
            matched_items := matched;
            minor_discrepancies := minor;
            significant_discrepancies := significant;
            missing_items := missing;
            overall_status :=
              overall_status_of significant minor missing total_percentage tolerance_percent;
            confidence_score := round2 confidence;
            recommendations :=
              _generate_recommendations line_reconciliations total_difference total_percentage |}
  end.

End Reconcile.

(** ** NEM12 service: [get_interval_data] *)

Section IntervalData.
Context `{PyRuntime}.

(** The date of a reading as the dict holds it, an ISO string. *)
Definition date_str (iv : Interval) : string := isoformat (i_date iv).

(** [key(a) <= key(b)] for the key [(x['date'], x['interval'])]: tuples
    compare by their first components that differ, strings by code point. *)
Definition row_leb (a b : Interval * string) : bool :=
  if String.eqb (date_str (fst a)) (date_str (fst b))
  then (i_interval (fst a) <=? i_interval (fst b))%Z
  else String.ltb (date_str (fst a)) (date_str (fst b)).

(** [sorted] is stable: a row is put before the first row that is not
    smaller, and rows are inserted from the last to the first. *)
Fixpoint insert_row (x : Interval * string) (l : list (Interval * string))
    : list (Interval * string) :=
  match l with
  | [] => [x]
  | y :: l' => if row_leb x y then x :: y :: l' else y :: insert_row x l'
  end.

Definition sorted_rows (l : list (Interval * string)) : list (Interval * string) :=
  fold_right insert_row [] l.

(** [data['intervals'].items()].  A dict yields its entries in the order in
    which its keys were first inserted.  The map of the model does not keep
    that order, so it is passed along: [keys] lists the keys of the dict in
    the order of the dict. *)
Definition dict_items (keys : list string) (m : gmap string (list Interval))
    : list (string * list Interval) :=
  omap (fun k => option_map (pair k) (m !! k)) keys.

(** A row is the reading with the NMI it is stored under.  The stored dict
    has three entries, so [not data] holds of an unknown file only; a
    meter is skipped when an NMI is named ([nmi] is neither [None] nor
    empty) and is not the meter's. *)
Definition get_interval_data (data : option FileData) (keys : list string)
    (nmi start_date end_date : option string) : list (Interval * string) :=
  match data with
  | None => []
  | Some d =>
      let result :=
        flat_map
          (fun entry =>
             let meter_nmi := fst entry in
             let intervals := snd entry in
             if match nonempty nmi with
                | Some n => negb (String.eqb meter_nmi n)
                | None => false
                end
             then []
             else
               let filtered :=
                 match nonempty start_date with
                 | Some s => List.filter (fun i => String.leb s (date_str i)) intervals
                 | None => intervals
                 end in
               let filtered :=
                 match nonempty end_date with
                 | Some e => List.filter (fun i => String.leb (date_str i) e) filtered
                 | None => filtered
                 end in
               map (fun i => (i, meter_nmi)) filtered)
          (dict_items keys (fd_intervals d)) in
      sorted_rows result
  end.

End IntervalData.

(** ** Invoice parser: confidence of an extraction *)

(** [invoice_data.get(f)] for the five required fields: a string counts
    when it is not empty, a date whenever it is there, the total when it is
    not zero. *)
Definition required_fields (invoice_data : ParsedInvoice) : list bool :=
  [ match nonempty (p_nmi invoice_data) with Some _ => true | None => false end;
    negb (String.eqb (p_invoice_number invoice_data) "");
    match p_billing_period_start invoice_data with Some _ => true | None => false end;
    match p_billing_period_end invoice_data with Some _ => true | None => false end;
    negb (Qeq_bool (p_total invoice_data) 0) ].

Definition _calculate_confidence (invoice_data : ParsedInvoice) : Q :=
  let found := length (List.filter (fun b : bool => b) (required_fields invoice_data)) in
  let confidence := inject_Z (Z.of_nat found) / 5 in
  let confidence :=
    match p_line_items invoice_data with
    | [] => confidence
    | _ :: _ =>
        let boosted :=
          confidence + (1 # 10) * inject_Z (Z.of_nat (length (p_line_items invoice_data))) in
        if Qltb boosted 1 then boosted else 1
    end in
  round2 confidence.

(** The warnings [parse_invoice] attaches to an extraction. *)
Inductive Warning : Type :=
| LowConfidence
| NmiNotFound.

Definition extraction_warnings (invoice_data : ParsedInvoice) : list Warning :=
  (if Qltb (_calculate_confidence invoice_data) (7 # 10) then [LowConfidence] else [])
  ++ (match nonempty (p_nmi invoice_data) with Some _ => [] | None => [NmiNotFound] end).

(** * Terms of the properties

    The notions in which the properties below are stated, and the files,
    invoices and tariffs on which the code is run. *)

Section PropertyTerms.
Context {rt : PyRuntime}.

(** The fields of a 300 row that hold the readings of the day. *)
Definition day_window (il : Z) (fields : list string) : list string :=
  take (Z.to_nat (1440 / il)) (drop 2 fields).

Definition fails_float (f : string) : bool :=
  match float_of_str f with Some _ => false | None => true end.

(** The readings of a window whose first field has position [k]. *)
Fixpoint window_readings (d : Z) (u : string) (k : nat) (w : list string) : list Interval :=
  match w with
  | [] => []
  | f :: w' =>
      match float_of_str f with
      | Some v => mkInterval d (Z.of_nat k + 1) v u :: window_readings d u (S k) w'
      | None => window_readings d u (S k) w'
      end
  end.

Definition add_values (t : Q) (ivs : list Interval) : Q :=
  fold_left (fun acc iv => acc + i_value iv) ivs t.

(** A channel row is usable when its interval length converts to an integer
    other than zero; rows of other types are always usable. *)
Definition usable_channel_row (fields : list string) : bool :=
  if String.eqb (field_or fields 0 "") "200" then
    match _parse_200_record fields with
    | Ok m => negb (interval_length m =? 0)%Z
    | Raise _ => false
    end
  else true.

Definition heap_ok (st : ParseState) : Prop :=
  Forall (fun m => interval_length m <> 0%Z) (heap st).

(** The references held by [meters] point into the store. *)
Definition refs_ok (st : ParseState) : Prop :=
  Forall (fun r => (r < length (heap st))%nat) (meters st).

(** A row that neither opens nor closes a channel. *)
Definition keeps_channel_open (fields : list string) : bool :=
  negb (String.eqb (field_or fields 0 "") "200")
  && negb (String.eqb (field_or fields 0 "") "900").

(** Such rows leave [meters] as it is and touch the store at the current
    meter only. *)
Definition same_but_current (st st' : ParseState) : Prop :=
  meters st' = meters st /\
  current_meter st' = current_meter st /\
  forall r, current_meter st <> Some r -> heap st' !! r = heap st !! r.

(** The NMIs of the channel rows of a file, in order. *)
Definition channel_nmis (rows : list (list string)) : list string :=
  map (fun fields => field_or fields 1 "")
      (List.filter (fun fields => String.eqb (field_or fields 0 "") "200") rows).

(** Every meter of the store totals the readings kept under its NMI, and no
    NMI is or will be that of two meters. *)
Definition sums_ok (st : ParseState) (rest : list (list string)) : Prop :=
  NoDup ((nmi <$> heap st) ++ channel_nmis rest) /\
  forall i m, heap st !! i = Some m ->
    total_consumption m == add_values 0 (default [] (interval_data st !! nmi m)).

Definition flat_lines (summary : ConsumptionSummary) (code : string)
    (supply : list LineItem) : list LineItem :=
  supply ++
  [usage_item "Energy Usage" (total_kwh summary) 25 code;
   {| description := Some "Network Charges"%string;
      charge_type := Some "network"%string;
      quantity := Some (total_kwh summary);
      item_unit := Some "kWh"%string;
      rate := Some (8 # 100);
      amount := Some (quantize2 (total_kwh summary * (8 # 100)));
      tariff_code := None; period_start := None; period_end := None |}].

Definition name_matches (name : string) (e : string * Q) : bool :=
  String.eqb (lower (fst e)) (lower name).

(** The rate of a bucket: that of the first period of the tariff whose name
    is the bucket's up to case, and the default of the bucket when there is
    none. *)
Definition rate_for (entries : list (string * Q)) (name : string) : Q :=
  match List.find (name_matches name) entries with
  | Some e => snd e
  | None => default_rate name
  end.

End PropertyTerms.

Definition nl : string := String newline EmptyString.

Definition item (ct : string) (a : Q) : LineItem :=
  {| description := Some ct; charge_type := Some ct; quantity := None;
     item_unit := None; rate := None; amount := Some a; tariff_code := None;
     period_start := None; period_end := None |}.

Definition has_invoiced (r : LineItemReconciliation) : bool :=
  negb (status_eqb (status r) MISSING_INVOICED).

Definition has_calculated (r : LineItemReconciliation) : bool :=
  negb (status_eqb (status r) MISSING_CALCULATED).

(** What a record keeps of the invoiced item, and the same of an item. *)
Definition invoiced_view (r : LineItemReconciliation) :=
  (r_description r, r_charge_type r, invoiced_quantity r, invoiced_rate r, invoiced_amount r).

Definition item_view (it : LineItem) :=
  (get_description it, get_charge_type it, quantity it, rate it, get_amount it).

(** Every record of the first loop is a matched pair or an unmatched
    invoiced item, one per invoiced item and in their order. *)
Inductive loop_record (tol : Q) (it : LineItem) : LineItemReconciliation -> Prop :=
| loop_matched (c : LineItem) : loop_record tol it (matched_record it c tol)
| loop_missing : loop_record tol it (missing_calculated_record it).

(** The percentage difference in the words of the specification: relative
    to the calculated amount, with the special case at zero only. *)
Definition spec_percentage (invoiced calculated : Q) : Q :=
  if Qeq_bool calculated 0
  then (if Qeq_bool invoiced calculated then 0 else 100)
  else Qabs (invoiced - calculated) / calculated * 100.

Definition sample_meter : Meter :=
  {| nmi := "NMI1"; nmi_configuration := "E1"; register_id := "E1";
     nmi_suffix := "E1"; meter_serial := Some "M1"%string;
     unit_of_measure := "kWh"; interval_length := 30; start_date := None;
     end_date := None; total_consumption := 0; total_generation := None;
     interval_count := None |}.

Definition one_channel_file : string :=
  ("100,NEM12,202401150000,ENERGYCO,RETAILER" ++ nl ++
   "200,1234567890,E1,E1,E1,N1,METSER01,kWh,30," ++ nl ++
   "300,20240101,1.5,oops,2.5,A" ++ nl ++
   "garbage" ++ nl ++
   "900")%string.

(** A file whose two channels (registers E1 and B1) belong to one NMI. *)
Definition shared_nmi_file : string :=
  ("200,NMI1,E1,E1,E1,N1,M1,kWh,30" ++ nl ++
   "300,20240101,1.0" ++ nl ++
   "200,NMI1,B1,B1,B1,N1,M1,kWh,30" ++ nl ++
   "300,20240101,5.0" ++ nl ++
   "900")%string.

(** A file of a channel closed by no terminator, sharing its NMI with the
    channel before it. *)
Definition unterminated_shared_nmi_file : string :=
  ("200,NMI1,E1,E1,E1,N1,M1,kWh,30" ++ nl ++
   "300,20240101,1.0" ++ nl ++
   "200,NMI1,B1,B1,B1,N1,M1,kWh,30" ++ nl ++
   "300,20240101,5.0")%string.

(** What the NEM12 service holds for a file id after [process_nem12] ran on
    [content] under that id: nothing if the run raised. *)
Definition stored_after (content : string) : option FileData :=
  match process_nem12 content with
  | Ok fd => Some fd
  | Raise _ => None
  end.

(** One channel, one day (Monday 2024-01-01) of 48 readings of 1 kWh. *)
Definition one_day_file : string :=
  ("200,1234567890,E1,E1,E1,N1,METSER01,kWh,30," ++ nl ++
   "300,20240101,1,1,1,1,1,1,1,1,1,1,1,1,1,1,1,1,1,1,1,1,1,1,1,1,1,1,1,1,1,1,1,1,1,1,1,1,1,1,1,1,1,1,1,1,1,1,1,1,A" ++ nl ++
   "900")%string.

(** The readings of the channel that [calculate] bills that fall on a day
    of the period. *)
Definition readings_in_period (data : option FileData) (ps pe : Z) : list Interval :=
  match data with
  | Some fd =>
      match fd_meters fd with
      | m :: _ =>
          List.filter (fun iv => (ps <=? i_date iv)%Z && (i_date iv <=? pe)%Z)
                      (default [] (fd_intervals fd !! nmi m))
      | [] => []
      end
  | None => []
  end.

Ltac bind_inv H :=
  match type of H with
  | rbind ?r _ = Ok _ =>
      let E := fresh "E" in
      destruct r eqn:E; cbn [rbind] in H; [| discriminate H]
  end.

Definition is_usage (it : LineItem) : bool := String.eqb (get_charge_type it) "usage".

(** A time period of a tariff that has a name and a rate. *)
Definition period_entry (v : value) : option (string * Q) :=
  match v with
  | VDict period =>
      match dict_get "name" period, dict_get "rate_cents_per_kwh" period with
      | Some (VStr n), Some (VNum r) => Some (n, r)
      | _, _ => None
      end
  | _ => None
  end.

(** A time-of-use tariff handed to the calculation as it stands: a peak
    period spelled in capitals and no off-peak period. *)
Definition capital_peak_tariff : dict :=
  [("tariff_code", VStr "T1"); ("daily_supply_charge_cents", VNum 100);
   ("time_periods",
    VList [time_period "shoulder" "07:00" "14:00" weekdays 20;
           time_period "PEAK" "14:00" "20:00" weekdays 30])]%string.

Definition summary_of_kwh (peak off_peak : Q) : ConsumptionSummary :=
  {| s_nmi := "NMI1"; s_period_start := None; s_period_end := None;
     total_kwh := peak + off_peak; peak_kwh := peak; off_peak_kwh := off_peak |}.

(** An invoice of three items for the file [one_day_file], billed for its
    single day. *)
Definition three_item_invoice : ParsedInvoice :=
  {| p_invoice_number := "INV-2024-001234";
     p_nmi := Some "1234567890"%string;
     p_billing_period_start := Some 738886%Z;
     p_billing_period_end := Some 738886%Z;
     p_line_items := [item "supply" 1; item "metering" 5; item "other" 7];
     p_total := 13 |}.

(** One channel with a single reading of 10^27 kWh, and one channel
    without any day row. *)
Definition huge_reading_file : string :=
  ("200,1234567890,E1,E1,E1,N1,METSER01,kWh,30" ++ nl ++
   "300,20240101,1000000000000000000000000000" ++ nl ++
   "900")%string.

Definition no_day_file : string :=
  ("200,1234567890,E1,E1,E1,N1,METSER01,kWh,30" ++ nl ++
   "900")%string.

(** Two more invoices for [one_day_file] and its single day: one whose only
    line is the usage charge that the calculator bills, 12.00, and one whose
    only line is a network charge of 5.00; both total 18.52, the total of
    the calculated invoice. *)
Definition usage_only_invoice : ParsedInvoice :=
  {| p_invoice_number := "INV-2024-001235";
     p_nmi := Some "1234567890"%string;
     p_billing_period_start := Some 738886%Z;
     p_billing_period_end := Some 738886%Z;
     p_line_items := [item "usage" 12];
     p_total := 1852 # 100 |}.

Definition network_only_invoice : ParsedInvoice :=
  {| p_invoice_number := "INV-2024-001236";
     p_nmi := Some "1234567890"%string;
     p_billing_period_start := Some 738886%Z;
     p_billing_period_end := Some 738886%Z;
     p_line_items := [item "network" 5];
     p_total := 1852 # 100 |}.

(** What every record with a calculated side keeps of the calculated item,
    and the same of an item. *)
Definition calculated_view (r : LineItemReconciliation) :=
  (r_charge_type r, calculated_quantity r, calculated_rate r, calculated_amount r).

Definition item_calculated_view (it : LineItem) :=
  (get_charge_type it, quantity it, rate it, get_amount it).

Definition untaken (cm : gset nat) (jc : nat * LineItem) : bool :=
  negb (bool_decide (fst jc ∈ cm)).

(** The buckets hold items of [calc], each under its own charge type. *)
Definition buckets_of (calc : list LineItem) (d : list (string * list LineItem)) : Prop :=
  Forall (fun b => Forall (fun c => get_charge_type c = fst b /\ In c calc) (snd b)) d.

(** Where a record comes from. *)
Definition record_origin (inv calc : list LineItem) (tol : Q)
    (r : LineItemReconciliation) : Prop :=
  (exists i c, In i inv /\ In c calc /\ get_charge_type c = get_charge_type i /\
               r = matched_record i c tol) \/
  (exists i, In i inv /\ r = missing_calculated_record i) \/
  (exists c, In c calc /\ r = missing_invoiced_record (get_charge_type c) c).

(** The dates span a list of days: nothing when there is none, otherwise the
    earliest and the latest of them. *)
Definition spans (sd ed : option Z) (days : list Z) : Prop :=
  match days with
  | [] => sd = None /\ ed = None
  | _ =>
      exists s e, sd = Some s /\ ed = Some e /\ In s days /\ In e days /\
                  forall d, In d days -> (s <= d <= e)%Z
  end.

Definition is_day_row (fields : list string) : bool :=
  String.eqb (field_or fields 0 "") "300".

Definition is_channel_row (fields : list string) : bool :=
  String.eqb (field_or fields 0 "") "200".

Definition channel_row_e1 : list string :=
  ["200"; "NMI1"; "E1"; "E1"; "E1"; "N1"; "M1"; "kWh"; "30"]%string.

Definition channel_row_b1 : list string :=
  ["200"; "NMI2"; "B1"; "B1"; "B1"; "N1"; "M1"; "kWh"; "30"]%string.

Definition three_day_rows : list (list string) :=
  [["300"; "20240103"; "1.0"]; ["300"; "not a date"; "9.0"];
   ["300"; "20240101"; "2.0"]]%string.

(** The supply line item at the default of 100 cents a day. *)
Definition default_supply_item (code : string) (ps pe : Z) : LineItem :=
  {| description := Some "Daily Supply Charge"%string;
     charge_type := Some "supply"%string;
     quantity := Some (inject_Z (pe - ps + 1));
     item_unit := Some "day"%string;
     rate := Some (100 / 100);
     amount := Some (quantize2 (100 / 100 * inject_Z (pe - ps + 1)));
     tariff_code := Some code;
     period_start := Some ps;
     period_end := Some pe |}.

(** A sum of money that is a whole number of cents. *)
Definition whole_cents (q : Q) : Prop := exists n : Z, q == inject_Z n / 100.

Definition dated_summary : ConsumptionSummary :=
  {| s_nmi := "NMI1"; s_period_start := Some 738886%Z; s_period_end := Some 738916%Z;
     total_kwh := 1234 # 10; peak_kwh := 1000 # 10; off_peak_kwh := 234 # 10 |}.

(** The providers [get_tariff_by_code] searches. *)
Definition searched (provider : option NetworkProvider) (p : NetworkProvider) : Prop :=
  forall q, provider = Some q -> p = q.

Definition network_tariff_keys : list string :=
  ["tariff_code"; "tariff_name"; "network_provider"; "tariff_type"; "effective_from";
   "daily_supply_charge_cents"; "usage_rate_cents_per_kwh"; "time_periods"]%string.

(** A record that pairs an invoiced item with a calculated one. *)
Definition is_paired (s : DiscrepancyStatus) : bool := negb (is_missing s).

(** The bucket a calculated item has to itself. *)
Definition single_bucket (c : LineItem) : string * list LineItem :=
  (get_charge_type c, [c]).

Definition short_bucket (b : string * list LineItem) : Prop :=
  (length (snd b) <= 1)%nat.

Definition is_end_row (fields : list string) : bool :=
  String.eqb (field_or fields 0 "") "900".

(** The count of a meter is the number of readings kept under its NMI. *)
Definition counted (data : gmap string (list Interval)) (m : Meter) : Prop :=
  interval_count m = Some (length (default [] (data !! nmi m))).

(** The current meter is in the store, and every listed meter other than
    the current one is counted. *)
Definition counts_ok (st : ParseState) : Prop :=
  (forall c, current_meter st = Some c -> (c < length (heap st))%nat) /\
  forall r m, r ∈ meters st -> current_meter st <> Some r ->
              heap st !! r = Some m -> counted (interval_data st) m.

(** The number of required fields that were found. *)
Definition found_fields (invoice_data : ParsedInvoice) : nat :=
  length (List.filter (fun b : bool => b) (required_fields invoice_data)).

(** Tenths of confidence: two for each required field found, one for each
    line item. *)
Definition confidence_tenths (invoice_data : ParsedInvoice) : Z :=
  (2 * Z.of_nat (found_fields invoice_data)
   + Z.of_nat (length (p_line_items invoice_data)))%Z.

(** The date of a reading is within the bounds that are given. *)
Definition in_date_range {rt : PyRuntime} (start_date end_date : option string)
    (iv : Interval) : bool :=
  match nonempty start_date with
  | Some s => String.leb s (date_str iv)
  | None => true
  end
  && match nonempty end_date with
     | Some e => String.leb (date_str iv) e
     | None => true
     end.

(** The readings stored under an NMI. *)
Definition stored_readings (data : option FileData) (nmi : string) : list Interval :=
  match data with
  | Some d => default [] (fd_intervals d !! nmi)
  | None => []
  end.

(** [keys] is an order of the keys of the stored dict of readings. *)
Definition dict_order (keys : list string) (data : option FileData) : Prop :=
  match data with
  | Some d => NoDup keys /\ list_to_set keys = dom (fd_intervals d)
  | None => True
  end.

(** The readings of a list that are within the bounds, each with [nmi]. *)
Definition rows_in_range {rt : PyRuntime} (start_date end_date : option string)
    (nmi : string) (intervals : list Interval) : list (Interval * string) :=
  map (fun i => (i, nmi)) (List.filter (in_date_range start_date end_date) intervals).

(** All stored readings within the bounds, each with the NMI it is stored
    under. *)
Definition all_stored_rows {rt : PyRuntime} (data : option FileData)
    (start_date end_date : option string) : list (Interval * string) :=
  match data with
  | Some d =>
      flat_map (fun entry => rows_in_range start_date end_date (fst entry) (snd entry))
               (map_to_list (fd_intervals d))
  | None => []
  end.

(** Two meters, the second NMI of the alphabet first; both have a first
    reading on 2024-01-02. *)
Definition two_meter_file : string :=
  ("200,NMI2,B1,B1,B1,N1,M2,kWh,30" ++ nl ++
   "300,20240102,3.0,4.0" ++ nl ++
   "200,NMI1,E1,E1,E1,N1,M1,kWh,30" ++ nl ++
   "300,20240101,1.0,2.0" ++ nl ++
   "300,20240102,5.0" ++ nl ++
   "900")%string.

(** The rows that [process_nem12] acts on: channel, day and end rows. *)
Definition is_data_row (fields : list string) : bool :=
  is_channel_row fields || is_day_row fields || is_end_row fields.

(** The billing period [calculate] settles on: the two dates given, or the
    date range of the summary. *)
Definition resolved_period {rt : PyRuntime} (summary : ConsumptionSummary)
    (billing_start billing_end : option string) : result (option Z * option Z) :=
  match nonempty billing_start, nonempty billing_end with
  | Some bs, Some be =>
      match strptime_iso bs with
      | None => Raise (ValueError "time data does not match format")
      | Some ps =>
          match strptime_iso be with
          | None => Raise (ValueError "time data does not match format")
          | Some pe => Ok (Some ps, Some pe)
          end
      end
  | _, _ => Ok (s_period_start summary, s_period_end summary)
  end.

(** The ordinal of a [date]: from 0001-01-01 to 9999-12-31. *)
Definition date_ordinal (d : Z) : Prop := (1 <= d <= 3652059)%Z.

(** A consumption of at most 10^20 kWh in absolute value. *)
Definition moderate_kwh (q : Q) : Prop := Qabs q <= inject_Z (10 ^ 20).

(** The line items of an invoice computed with the value of the tariff
    fetcher: a supply item when the code was found, then the flat usage and
    the network item. *)
Definition fetched_lines (summary : ConsumptionSummary) (today code : string)
    (ps pe : Z) : list LineItem :=
  flat_lines summary code
    (match get_tariff_by_code today None code with
     | Some _ => [default_supply_item code ps pe]
     | None => []
     end).

(** * Properties *)

(** ** Reconciliation matcher *)

Lemma classify_cases (p tol : Q) :
  classify p tol = MATCH \/ classify p tol = MINOR \/ classify p tol = SIGNIFICANT.
Proof.
  unfold classify. destruct (Qle_bool p tol); [now left|].
  destruct (Qle_bool p 5); [right; now left | right; now right].
Qed.

Lemma matched_record_has_invoiced (i c : LineItem) (tol : Q) :
  has_invoiced (matched_record i c tol) = true /\
  is_missing (status (matched_record i c tol)) = false.
Proof.
  unfold has_invoiced, is_missing. cbn [status matched_record].
  destruct (classify_cases (pct_diff_of (get_amount i - get_amount c) (get_amount c)) tol)
    as [E | [E | E]]; rewrite E; now split.
Qed.

Lemma leftover_bucket_status (cm : gset nat) (b : string * list LineItem) :
  Forall (fun r => status r = MISSING_INVOICED) (leftover_bucket cm b).
Proof.
  destruct b as [ct items]. unfold leftover_bucket.
  induction (enumerate items) as [| [j c] l IH]; cbn [flat_map]; [constructor|].
  cbn [fst snd]. destruct (bool_decide (j ∈ cm)); cbn [app]; [exact IH|].
  constructor; [reflexivity | exact IH].
Qed.

Lemma leftover_status (cm : gset nat) (d : list (string * list LineItem)) :
  Forall (fun r => status r = MISSING_INVOICED) (flat_map (leftover_bucket cm) d).
Proof.
  induction d as [| b d IH]; cbn [flat_map]; [constructor|].
  apply Forall_app; split; [apply leftover_bucket_status | exact IH].
Qed.

Lemma match_loop_records (d : list (string * list LineItem)) (tol : Q)
    (l : list (nat * LineItem)) (st : MatchState) (done : list LineItem) :
  Forall2 (loop_record tol) done (reconciled st) ->
  Forall2 (loop_record tol) (done ++ map snd l)
          (reconciled (fold_left (match_step d tol) l st)).
Proof.
  revert st done. induction l as [| [i it] l IH]; intros st done Hst; cbn [fold_left map].
  - now rewrite app_nil_r.
  - replace (done ++ snd (i, it) :: map snd l) with ((done ++ [it]) ++ map snd l)
      by (now rewrite <- app_assoc).
    apply IH. unfold match_step.
    destruct (find_best _ _ _) as [[[j c] df] |]; cbn [reconciled];
      (apply Forall2_app; [exact Hst | constructor; [constructor | constructor]]).
Qed.

Lemma map_snd_enumerate {A : Type} (l : list A) : map snd (enumerate l) = l.
Proof.
  unfold enumerate. generalize 0%nat. induction l as [| a l IH]; intros n; [reflexivity|].
  cbn. now rewrite IH.
Qed.

Lemma first_loop_records (inv calc : list LineItem) (tol : Q) :
  Forall2 (loop_record tol) inv
    (reconciled (fold_left (match_step (build_calc_by_type calc) tol)
                           (enumerate inv) (mkMatchState [] ∅ ∅))).
Proof.
  assert (H0 : Forall2 (loop_record tol) [] (reconciled (mkMatchState [] ∅ ∅)))
    by constructor.
  pose proof (match_loop_records (build_calc_by_type calc) tol (enumerate inv)
                (mkMatchState [] ∅ ∅) [] H0) as Hl.
  cbn [app] in Hl. now rewrite map_snd_enumerate in Hl.
Qed.

(** Every invoiced item is in exactly one record: the records that carry an
    invoiced item are, in order, the invoiced items. *)
Lemma invoiced_items_each_in_one_record (inv calc : list LineItem) (tol : Q) :
  map invoiced_view (List.filter has_invoiced (_reconcile_line_items inv calc tol))
  = map item_view inv.
Proof.
  unfold _reconcile_line_items. cbv zeta.
  pose proof (first_loop_records inv calc tol) as Hl.
  set (st := fold_left _ _ _) in *.
  rewrite List.filter_app, map_app.
  assert (Hleft : List.filter has_invoiced
            (flat_map (leftover_bucket (calculated_matched st)) (build_calc_by_type calc)) = []).
  { pose proof (leftover_status (calculated_matched st) (build_calc_by_type calc)) as Hs.
    induction Hs as [| r l Hr _ IH]; [reflexivity|].
    cbn [List.filter]. unfold has_invoiced at 1. now rewrite Hr. }
  rewrite Hleft, app_nil_r. clear Hleft.
  induction Hl as [| it r its rs Hr _ IH]; [reflexivity|].
  cbn [List.filter].
  assert (Hh : has_invoiced r = true /\ invoiced_view r = item_view it).
  { destruct Hr as [c |]; split; try reflexivity.
    apply matched_record_has_invoiced. }
  destruct Hh as [Hh Hv]. rewrite Hh. cbn [map]. now rewrite Hv, IH.
Qed.

(** The four counters of the summary add up to the number of records. *)
Lemma status_counts_partition (rs : list LineItemReconciliation) :
  (count_status (fun s => status_eqb s MATCH) rs
   + count_status (fun s => status_eqb s MINOR) rs
   + count_status (fun s => status_eqb s SIGNIFICANT) rs
   + count_status is_missing rs = length rs)%nat.
Proof.
  unfold count_status. induction rs as [| r rs IH]; [reflexivity|].
  cbn [List.filter length]. unfold is_missing at 1.
  destruct (status r); cbn [status_eqb orb length]; lia.
Qed.

(** C1 (the code loses a calculated item).  [calculated_matched] holds
    positions inside a bucket, yet one set serves all buckets: once position
    0 of the usage bucket is taken, position 0 of the supply bucket counts as
    taken too.  With one usage and one supply item on each side the supply
    items are not paired, the invoiced one is reported as missing its
    counterpart, and the calculated one is in no record at all. *)
Theorem reconcile_line_items_loses_calculated_item :
  let invoiced := [item "usage" 10; item "supply" 5] in
  let calculated := [item "usage" 10; item "supply" 5] in
  let rs := _reconcile_line_items invoiced calculated 1 in
  map status rs = [MATCH; MISSING_CALCULATED] /\
  map calculated_amount (List.filter has_calculated rs) = [10] /\
  length (List.filter has_calculated rs) <> length calculated.
Proof.
  vm_compute. repeat split; try reflexivity. discriminate.
Qed.

Lemma Qltb_true (a b : Q) : Qltb a b = true <-> a < b.
Proof.
  unfold Qltb. rewrite negb_true_iff. split.
  - intros Hb. apply Qnot_le_lt. intros Hle.
    apply Qle_bool_iff in Hle. congruence.
  - intros Hlt. destruct (Qle_bool b a) eqn:E; [|reflexivity].
    apply Qle_bool_iff in E. exfalso. apply (Qlt_not_le _ _ Hlt E).
Qed.

Lemma Qltb_false (a b : Q) : Qltb a b = false <-> b <= a.
Proof.
  unfold Qltb. rewrite negb_false_iff. apply Qle_bool_iff.
Qed.

Lemma Qle_bool_false (a b : Q) : Qle_bool a b = false <-> b < a.
Proof.
  rewrite <- (negb_true_iff (Qle_bool a b)). apply (Qltb_true b a).
Qed.

Lemma records_matched_or_missing (inv calc : list LineItem) (tol : Q)
    (r : LineItemReconciliation) :
  In r (_reconcile_line_items inv calc tol) ->
  is_missing (status r) = false ->
  exists i c, In i inv /\ r = matched_record i c tol.
Proof.
  unfold _reconcile_line_items. cbv zeta.
  pose proof (first_loop_records inv calc tol) as Hl.
  set (st := fold_left _ _ _) in *.
  intros Hin Hm. apply in_app_or in Hin. destruct Hin as [Hin | Hin].
  - clear - Hl Hin Hm. induction Hl as [| it r' its rs Hr _ IH]; [destruct Hin|].
    destruct Hin as [-> | Hin].
    + destruct Hr as [c |]; [exists it, c; split; [now left | reflexivity] | discriminate Hm].
    + destruct (IH Hin) as (i & c & Hi & E). exists i, c. split; [now right | exact E].
  - pose proof (leftover_status (calculated_matched st) (build_calc_by_type calc)) as Hs.
    rewrite List.Forall_forall in Hs. specialize (Hs r Hin).
    unfold is_missing in Hm. rewrite Hs in Hm. discriminate Hm.
Qed.

(** C2 fails as stated: for a calculated amount below zero the code does not
    divide; an invoiced 5.00 against a calculated -10.00 is taken as a
    difference of 100% and is SIGNIFICANT at a tolerance of 1%, where the
    stated formula gives -150% and so MATCH. *)
Lemma negative_calculated_amount_is_significant :
  map status (_reconcile_line_items [item "usage" 5] [item "usage" (-10)] 1)
    = [SIGNIFICANT] /\
  classify (spec_percentage 5 (-10)) 1 = MATCH /\
  ~ pct_diff_of (5 - (-10)) (-10) == spec_percentage 5 (-10).
Proof.
  split; [vm_compute; reflexivity|]. split; [vm_compute; reflexivity|].
  vm_compute. discriminate.
Qed.

(** C2 (amended).  For every record of a matched pair there is a
    percentage [p], a float, whose rounding to two decimals ([round(p, 2)])
    the record stores, such that: when the calculated amount is positive,
    [p] is the float nearest to the [Decimal]
    |invoiced - calculated| / calculated * 100, whose operations round to
    28 significant digits, and otherwise [p] is 0 when the amounts are equal
    and 100 when they differ; the status is MATCH when [p <= tolerance],
    MINOR when [tolerance < p <= 5] and SIGNIFICANT beyond; and with a
    tolerance above 5 the status is never MINOR. *)
Theorem matched_record_classification (inv calc : list LineItem) (tol : Q)
    (r : LineItemReconciliation) :
  In r (_reconcile_line_items inv calc tol) ->
  is_missing (status r) = false ->
  exists p : Q,
    amount_difference r = invoiced_amount r - calculated_amount r /\
    (0 < calculated_amount r ->
       p = fl (dec (dec (dec (Qabs (invoiced_amount r - calculated_amount r))
                           / calculated_amount r) * 100))) /\
    (calculated_amount r <= 0 ->
       (invoiced_amount r == calculated_amount r -> p == 0) /\
       (~ invoiced_amount r == calculated_amount r -> p == 100)) /\
    percentage_difference r = Some (round2 p) /\
    (p <= tol -> status r = MATCH) /\
    (tol < p -> p <= 5 -> status r = MINOR) /\
    (tol < p -> 5 < p -> status r = SIGNIFICANT) /\
    (5 < tol -> status r <> MINOR).
Proof.
  intros Hin Hm.
  destruct (records_matched_or_missing inv calc tol r Hin Hm) as (i & c & _ & ->).
  set (ia := get_amount i). set (ca := get_amount c).
  exists (pct_diff_of (ia - ca) ca).
  cbn [amount_difference invoiced_amount calculated_amount percentage_difference
       status matched_record].
  fold ia ca.
  split; [reflexivity|]. split.
  { intros Hpos. unfold pct_diff_of.
    apply Qltb_true in Hpos. rewrite Hpos. reflexivity. }
  split.
  { intros Hle. unfold pct_diff_of.
    apply Qltb_false in Hle. rewrite Hle.
    destruct (Qeq_bool (ia - ca) 0) eqn:E.
    - apply Qeq_bool_iff in E. split; [reflexivity|].
      intros Hne. exfalso. apply Hne. lra.
    - split; [|reflexivity]. intros Heq. exfalso.
      assert (E' : Qeq_bool (ia - ca) 0 = true) by (apply Qeq_bool_iff; lra).
      congruence. }
  split; [reflexivity|].
  set (p := pct_diff_of (ia - ca) ca).
  unfold classify.
  split.
  { intros Hp. apply Qle_bool_iff in Hp. now rewrite Hp. }
  split.
  { intros Ht H5. apply Qle_bool_false in Ht. rewrite Ht.
    apply Qle_bool_iff in H5. now rewrite H5. }
  split.
  { intros Ht H5. apply Qle_bool_false in Ht. rewrite Ht.
    apply Qle_bool_false in H5. now rewrite H5. }
  intros Htol.
  destruct (Qle_bool p tol) eqn:E1; [discriminate|].
  destruct (Qle_bool p 5) eqn:E2; [|discriminate].
  apply Qle_bool_false in E1. apply Qle_bool_iff in E2. exfalso. lra.
Qed.

Lemma matched_record_classification_witness :
  let r := matched_record (item "usage" (102675 # 100)) (item "usage" 1000) 1 in
  status r = MINOR /\
  option_map Qred (percentage_difference r) = Some (267 # 100) /\
  exists p : Q,
    amount_difference r = invoiced_amount r - calculated_amount r /\
    (0 < calculated_amount r ->
       p = fl (dec (dec (dec (Qabs (invoiced_amount r - calculated_amount r))
                           / calculated_amount r) * 100))) /\
    (calculated_amount r <= 0 ->
       (invoiced_amount r == calculated_amount r -> p == 0) /\
       (~ invoiced_amount r == calculated_amount r -> p == 100)) /\
    percentage_difference r = Some (round2 p) /\
    (p <= 1 -> status r = MATCH) /\
    (1 < p -> p <= 5 -> status r = MINOR) /\
    (1 < p -> 5 < p -> status r = SIGNIFICANT) /\
    (5 < 1 -> status r <> MINOR).
Proof.
  intro r.
  split; [vm_compute; reflexivity|]. split; [vm_compute; reflexivity|].
  apply (matched_record_classification
           [item "usage" (102675 # 100)] [item "usage" 1000] 1 r).
  - vm_compute. left. reflexivity.
  - reflexivity.
Defined.

(** The pair of 1026.75 against 1000.00: the quotient, 2.675, is not a
    float; the float nearest to it lies below it and the record stores
    2.67. *)
Lemma percentage_rounds_the_float :
  option_map Qred
    (percentage_difference
       (matched_record (item "usage" (102675 # 100)) (item "usage" 1000) 1))
  = Some (267 # 100).
Proof. vm_compute. reflexivity. Qed.

(** ** Interval store: one day block *)

Section DayBlock.
Context {rt : PyRuntime}.

Lemma add_values_app (t : Q) (a b : list Interval) :
  add_values t (a ++ b) = add_values (add_values t a) b.
Proof. unfold add_values. apply fold_left_app. Qed.

Lemma take_drop_step {A : Type} (l : list A) (k n : nat) :
  take (S n) (drop k l) =
  match l !! k with
  | Some x => x :: take n (drop (S k) l)
  | None => []
  end.
Proof.
  destruct (l !! k) as [x |] eqn:E.
  - rewrite (drop_S l x k E). reflexivity.
  - apply lookup_ge_None in E. rewrite drop_ge by lia. reflexivity.
Qed.

Lemma reading_loop (fields : list string) (d : Z) (u : string) (n k : nat)
    (acc : list Interval * Q) :
  fold_left (reading_step fields d u) (seq k n) acc =
  let rs := window_readings d u k (take n (drop k (drop 2 fields))) in
  (fst acc ++ rs, add_values (snd acc) rs).
Proof.
  revert k acc. induction n as [| n IH]; intros k acc.
  - cbn. rewrite app_nil_r. now destruct acc.
  - cbn [seq fold_left]. rewrite IH. cbv zeta.
    rewrite take_drop_step. unfold reading_step at 1 2.
    rewrite lookup_drop.
    destruct (fields !! (2 + k)%nat) as [f |] eqn:E.
    + cbn [window_readings]. destruct (float_of_str f) as [v |]; [|reflexivity].
      cbn [fst snd]. rewrite <- app_assoc. reflexivity.
    + apply lookup_ge_None in E.
      rewrite (drop_ge (drop 2 fields)) by (rewrite length_drop; lia).
      rewrite take_nil. reflexivity.
Qed.

Lemma window_readings_values (d : Z) (u : string) (k : nat) (w : list string) :
  map i_value (window_readings d u k w) = omap float_of_str w.
Proof.
  revert k. induction w as [| f w IH]; intros k; [reflexivity|].
  cbn [window_readings omap list_omap]. destruct (float_of_str f); cbn; now rewrite IH.
Qed.

Lemma window_readings_count (d : Z) (u : string) (k : nat) (w : list string) :
  (length (window_readings d u k w) + length (List.filter fails_float w) = length w)%nat.
Proof.
  revert k. induction w as [| f w IH]; intros k; [reflexivity|].
  cbn [window_readings List.filter]. unfold fails_float at 1.
  specialize (IH (S k)). destruct (float_of_str f); cbn [length]; lia.
Qed.

Lemma parse_300_ok (fields : list string) (meter : Meter) (d : Z) :
  interval_length meter <> 0%Z ->
  strptime_Ymd (field_or fields 1 "") = Some d ->
  let rs := window_readings d (unit_of_measure meter) 0
              (day_window (interval_length meter) fields) in
  _parse_300_record fields meter =
  Ok (rs, set_dates_total (update_start d (start_date meter))
                          (update_end d (end_date meter))
                          (add_values (total_consumption meter) rs) meter).
Proof.
  intros Hil Hd. unfold _parse_300_record.
  apply Z.eqb_neq in Hil. rewrite Hil, Hd.
  rewrite reading_loop. cbv zeta. cbn [fst snd app]. rewrite drop_0. reflexivity.
Qed.

(** C7.  A day block of a channel with a positive interval length and a
    date that parses never raises; it yields at most 1440 / interval_length
    readings, namely the values of the fields of the day's window that parse,
    in their order: every field of the window that fails to parse lowers the
    count by one and nothing else is lost. *)
Theorem day_block_readings (fields : list string) (meter : Meter) (d : Z) :
  (0 < interval_length meter)%Z ->
  strptime_Ymd (field_or fields 1 "") = Some d ->
  exists (intervals : list Interval) (meter' : Meter),
    _parse_300_record fields meter = Ok (intervals, meter') /\
    (Z.of_nat (length intervals) <= 1440 / interval_length meter)%Z /\
    map i_value intervals = omap float_of_str (day_window (interval_length meter) fields) /\
    (length intervals
       + length (List.filter fails_float (day_window (interval_length meter) fields))
     = length (day_window (interval_length meter) fields))%nat.
Proof.
  intros Hpos Hd.
  assert (Hne : interval_length meter <> 0%Z) by lia.
  pose proof (parse_300_ok fields meter d Hne Hd) as Hok. cbv zeta in Hok.
  eexists. eexists. split; [exact Hok|].
  set (w := day_window (interval_length meter) fields).
  pose proof (window_readings_count d (unit_of_measure meter) 0 w) as Hc.
  assert (Hw : (length w <= Z.to_nat (1440 / interval_length meter))%nat).
  { unfold w, day_window. rewrite length_take. lia. }
  assert (Hq : (0 <= 1440 / interval_length meter)%Z)
    by (apply Z.div_pos; lia).
  split; [lia|]. split; [apply window_readings_values | exact Hc].
Qed.

End DayBlock.

Lemma day_block_readings_witness :
  let fields := ["300"; "20240101"; "1.5"; "bad"; ""; "2.25"]%string in
  exists (intervals : list Interval) (meter' : Meter),
    _parse_300_record fields sample_meter = Ok (intervals, meter') /\
    (Z.of_nat (length intervals) <= 1440 / interval_length sample_meter)%Z /\
    map i_value intervals
      = omap float_of_str (day_window (interval_length sample_meter) fields) /\
    (length intervals
       + length (List.filter fails_float (day_window (interval_length sample_meter) fields))
     = length (day_window (interval_length sample_meter) fields))%nat.
Proof.
  intro fields.
  apply (day_block_readings fields sample_meter 738886%Z).
  - reflexivity.
  - reflexivity.
Defined.

(** ** Interval store: whole files *)

Section Ingest.
Context {rt : PyRuntime}.

Lemma split_on_nonempty (sep : ascii) (s : string) : split_on sep s <> [].
Proof.
  destruct s as [| c s]; cbn; [discriminate|].
  destruct (Ascii.eqb c sep); [discriminate|].
  destruct (split_on sep s); discriminate.
Qed.

Lemma tokenize_nonempty (content : string) : tokenize content <> [].
Proof.
  unfold tokenize. intros E. apply map_eq_nil in E.
  exact (split_on_nonempty _ _ E).
Qed.

Lemma finalize_heap_ok (st : ParseState) : heap_ok st -> heap_ok (finalize st).
Proof.
  unfold heap_ok, finalize. intros Hh.
  destruct (current_meter st) as [c |]; [|exact Hh].
  destruct (heap st !! c) as [m |] eqn:E; [|exact Hh].
  cbn [heap]. apply Forall_insert; [exact Hh|].
  cbn [interval_length set_interval_count].
  exact (Forall_lookup_1 _ _ _ _ Hh E).
Qed.

Lemma parse_300_total (fields : list string) (m : Meter) :
  interval_length m <> 0%Z ->
  exists im, _parse_300_record fields m = Ok im /\
             interval_length (snd im) = interval_length m /\
             nmi (snd im) = nmi m.
Proof.
  intros Hil. destruct (strptime_Ymd (field_or fields 1 "")) as [d |] eqn:Hd.
  - rewrite (parse_300_ok fields m d Hil Hd). cbv zeta.
    eexists. split; [reflexivity|]. split; reflexivity.
  - unfold _parse_300_record. apply Z.eqb_neq in Hil. rewrite Hil, Hd.
    eexists. split; [reflexivity|]. split; reflexivity.
Qed.

Lemma process_fields_total (st : ParseState) (fields : list string) :
  heap_ok st -> usable_channel_row fields = true ->
  exists st', process_fields st fields = Ok st' /\ heap_ok st'.
Proof.
  intros Hh Hu. unfold process_fields, usable_channel_row in *.
  destruct (String.eqb (field_or fields 0 "") "100"); [now exists st|].
  destruct (String.eqb (field_or fields 0 "") "200").
  { destruct (_parse_200_record fields) as [m | e]; [|discriminate].
    cbn [rbind]. eexists. split; [reflexivity|].
    unfold heap_ok. cbn [heap]. apply Forall_app. split.
    - apply finalize_heap_ok, Hh.
    - constructor; [|constructor]. apply negb_true_iff, Z.eqb_neq in Hu. exact Hu. }
  destruct (String.eqb (field_or fields 0 "") "300").
  { destruct (current_meter st) as [c |]; [|now exists st].
    destruct (heap st !! c) as [m |] eqn:E; [|now exists st].
    pose proof (Forall_lookup_1 _ _ _ _ Hh E) as Hm.
    destruct (parse_300_total fields m Hm) as (im & -> & Hil & _).
    cbn [rbind]. eexists. split; [reflexivity|].
    unfold heap_ok. cbn [heap]. apply Forall_insert; [exact Hh|]. now rewrite Hil. }
  destruct (String.eqb (field_or fields 0 "") "400"); [now exists st|].
  destruct (String.eqb (field_or fields 0 "") "900"); [|now exists st].
  eexists. split; [reflexivity|]. apply finalize_heap_ok, Hh.
Qed.

Lemma process_rows_total (rows : list (list string)) (st : ParseState) :
  heap_ok st -> forallb usable_channel_row rows = true ->
  exists st', process_rows st rows = Ok st' /\ heap_ok st'.
Proof.
  revert st. induction rows as [| fields rows IH]; intros st Hh Hu.
  - now exists st.
  - cbn [forallb] in Hu. apply andb_true_iff in Hu. destruct Hu as [Hf Hr].
    destruct (process_fields_total st fields Hh Hf) as (st1 & E1 & H1).
    cbn [process_rows]. rewrite E1. cbn [rbind]. exact (IH st1 H1 Hr).
Qed.

(** C9 (amended).  Every content tokenizes into at least one row, so no
    content is rejected as a whole; and when every channel row of the content
    carries an interval length that converts to an integer other than zero,
    [process_nem12] returns its file data, whatever the other rows hold. *)
Theorem process_nem12_returns (content : string) :
  tokenize content <> [] /\
  (forallb usable_channel_row (tokenize content) = true ->
   exists fd, process_nem12 content = Ok fd).
Proof.
  split; [apply tokenize_nonempty|]. intros Hu.
  assert (H0 : heap_ok initial_state) by constructor.
  destruct (process_rows_total (tokenize content) initial_state H0 Hu) as (st & E & _).
  unfold process_nem12. rewrite E. cbn [rbind]. now eexists.
Qed.

(** The two buckets of a summary split the sum of the readings they are
    computed from. *)
Lemma bucket_sum (il : Z) (ivs : list Interval) (a : Q * Q) :
  let r := fold_left (bucket_step il) ivs a in
  fst r + snd r == add_values (fst a + snd a) ivs.
Proof.
  revert a. induction ivs as [| iv ivs IH]; intros a; cbn [fold_left].
  - unfold add_values. cbn. reflexivity.
  - cbv zeta in *. rewrite IH. unfold add_values. cbn [fold_left].
    assert (E : fst (bucket_step il a iv) + snd (bucket_step il a iv)
                == fst a + snd a + i_value iv).
    { unfold bucket_step. destruct (is_peak _ _ _); cbn [fst snd]; ring. }
    clear IH. generalize dependent (fst (bucket_step il a iv) + snd (bucket_step il a iv)).
    generalize (fst a + snd a + i_value iv).
    induction ivs as [| iv' ivs IH]; intros x y Hxy; cbn [fold_left]; [exact Hxy|].
    apply IH. now rewrite Hxy.
Qed.

End Ingest.

Section BucketTotals.
Context {rt : PyRuntime}.

Lemma add_values_compat (l : list Interval) (a b : Q) :
  a == b -> add_values a l == add_values b l.
Proof.
  revert a b. induction l as [| iv l IH]; intros a b Hab; [exact Hab|].
  unfold add_values. cbn [fold_left]. apply IH. now rewrite Hab.
Qed.

Lemma parse_300_shape (fields : list string) (m : Meter) (im : list Interval * Meter) :
  _parse_300_record fields m = Ok im ->
  nmi (snd im) = nmi m /\
  total_consumption (snd im) = add_values (total_consumption m) (fst im).
Proof.
  unfold _parse_300_record.
  destruct (interval_length m =? 0)%Z; [discriminate|].
  destruct (strptime_Ymd (field_or fields 1 "")) as [d |].
  - rewrite reading_loop. cbv zeta. cbn [fst snd app].
    intros [= <-]. split; reflexivity.
  - intros [= <-]. split; reflexivity.
Qed.

Lemma parse_200_nmi (fields : list string) (m : Meter) :
  _parse_200_record fields = Ok m ->
  nmi m = field_or fields 1 "" /\ total_consumption m = 0.
Proof.
  unfold _parse_200_record. intros Hm. bind_inv Hm.
  injection Hm as <-. split; reflexivity.
Qed.

Lemma fmap_insert_same {A B : Type} (f : A -> B) (l : list A) (i : nat) (x y : A) :
  l !! i = Some x -> f y = f x -> f <$> <[i := y]> l = f <$> l.
Proof.
  intros Hl Hf. rewrite list_fmap_insert, Hf.
  apply list_insert_id. rewrite list_lookup_fmap, Hl. reflexivity.
Qed.

Lemma finalize_sums_ok (st : ParseState) (rest : list (list string)) :
  sums_ok st rest -> sums_ok (finalize st) rest.
Proof.
  unfold finalize. intros [Hnd Hs].
  destruct (current_meter st) as [c |]; [|now split].
  destruct (heap st !! c) as [m |] eqn:E; [|now split].
  split; cbn [heap interval_data].
  - rewrite (fmap_insert_same nmi (heap st) c m _ E); [exact Hnd | reflexivity].
  - intros i m0 Hi. apply list_lookup_insert_Some in Hi.
    destruct Hi as [(Hci & <- & _) | (_ & Hi)]; [|exact (Hs i m0 Hi)].
    exact (Hs c m E).
Qed.

Lemma process_fields_sums_ok (st st' : ParseState) (fields : list string)
    (rest : list (list string)) :
  sums_ok st (fields :: rest) -> process_fields st fields = Ok st' -> sums_ok st' rest.
Proof.
  intros Hs. unfold process_fields.
  assert (Hother : String.eqb (field_or fields 0 "") "200" = false ->
                   sums_ok st rest).
  { intros H2. destruct Hs as [Hnd Hs]. split; [|exact Hs].
    unfold channel_nmis in Hnd. cbn [List.filter] in Hnd. now rewrite H2 in Hnd. }
  destruct (String.eqb (field_or fields 0 "") "100") eqn:H1.
  { intros [= <-]. apply Hother. apply String.eqb_eq in H1. now rewrite H1. }
  destruct (String.eqb (field_or fields 0 "") "200") eqn:H2.
  { clear Hother. destruct (_parse_200_record fields) as [m | e] eqn:Em;
      cbn [rbind]; [|discriminate].
    intros [= <-]. destruct (parse_200_nmi fields m Em) as [Hn Ht].
    apply (finalize_sums_ok st (fields :: rest)) in Hs. destruct Hs as [Hnd Hs].
    unfold channel_nmis in Hnd. cbn [List.filter map] in Hnd. rewrite H2 in Hnd.
    cbn [map] in Hnd. fold (channel_nmis rest) in Hnd. rewrite <- Hn in Hnd.
    split; cbn [heap interval_data].
    - rewrite fmap_app. cbn [fmap list_fmap]. rewrite <- app_assoc. exact Hnd.
    - intros i m0 Hi. apply lookup_app_Some in Hi.
      destruct Hi as [Hi | [_ Hi]].
      + assert (Hne : nmi m <> nmi m0).
        { intros Heq. apply NoDup_app in Hnd. destruct Hnd as (_ & Hd & _).
          apply (Hd (nmi m0)).
          - apply list_elem_of_fmap_2. exact (list_elem_of_lookup_2 _ _ _ Hi).
          - rewrite <- Heq. left. }
        rewrite lookup_insert_ne by exact Hne. exact (Hs i m0 Hi).
      + destruct (i - length (heap (finalize st)))%nat; [|discriminate Hi].
        injection Hi as <-. rewrite lookup_insert_eq, Ht. reflexivity. }
  specialize (Hother eq_refl).
  destruct (String.eqb (field_or fields 0 "") "300").
  { destruct (current_meter st) as [c |]; [|now intros [= <-]].
    destruct (heap st !! c) as [m |] eqn:E; [|now intros [= <-]].
    destruct (_parse_300_record fields m) as [im | e] eqn:Ep; cbn [rbind]; [|discriminate].
    intros [= <-]. destruct (parse_300_shape fields m im Ep) as [Hn Ht].
    clear Hs. destruct Hother as [Hnd Hs]. split; cbn [heap interval_data].
    - rewrite (fmap_insert_same nmi (heap st) c m _ E); [exact Hnd | exact Hn].
    - intros i m0 Hi. apply list_lookup_insert_Some in Hi.
      destruct Hi as [(Hci & <- & _) | (Hne & Hi)].
      + rewrite Hn, lookup_insert_eq. cbn [default from_option id].
        rewrite Ht, add_values_app. apply add_values_compat. exact (Hs c m E).
      + assert (Hnm : nmi m <> nmi m0).
        { intros Heq. apply Hne. apply NoDup_app in Hnd. destruct Hnd as (Hnd & _).
          apply (NoDup_lookup (nmi <$> heap st) c i (nmi m) Hnd).
          - rewrite list_lookup_fmap, E. reflexivity.
          - rewrite list_lookup_fmap, Hi, Heq. reflexivity. }
        rewrite lookup_insert_ne by exact Hnm. exact (Hs i m0 Hi). }
  destruct (String.eqb (field_or fields 0 "") "400"); [now intros [= <-]|].
  destruct (String.eqb (field_or fields 0 "") "900"); [|now intros [= <-]].
  intros [= <-]. apply finalize_sums_ok, Hother.
Qed.

Lemma process_rows_sums_ok (rows : list (list string)) (st st' : ParseState) :
  sums_ok st rows -> process_rows st rows = Ok st' -> sums_ok st' [].
Proof.
  revert st. induction rows as [| f rows IH]; intros st Hs; cbn [process_rows].
  - now intros [= <-].
  - destruct (process_fields st f) as [st1 | e] eqn:E; cbn [rbind]; [|discriminate].
    apply IH. exact (process_fields_sums_ok st st1 f rows Hs E).
Qed.

(** The fixed rule of the buckets: peak on a weekday at an hour from 7 to
    21, the hour being that of minute (interval - 1) * interval_length. *)
Lemma is_peak_rule (d i il : Z) :
  is_peak d i il = true <->
  (weekday d < 5 /\ 7 <= (i - 1) * il / 60 < 22)%Z.
Proof.
  unfold is_peak. rewrite !andb_true_iff, Z.ltb_lt, Z.leb_le, Z.ltb_lt. tauto.
Qed.

(** In exact arithmetic, and for a file no two channel rows of which name
    the same NMI, the buckets of every summary add up to its total. *)
Lemma buckets_add_up_for_distinct_nmis (content : string) (fd : FileData) :
  NoDup (channel_nmis (tokenize content)) ->
  process_nem12 content = Ok fd ->
  Forall (fun s => peak_kwh s + off_peak_kwh s == total_kwh s)
         (get_consumption_summary (Some fd)).
Proof.
  intros Hnd. unfold process_nem12.
  destruct (process_rows initial_state (tokenize content)) as [st | e] eqn:E;
    cbn [rbind]; [|discriminate].
  intros [= <-].
  assert (H0 : sums_ok initial_state (tokenize content)).
  { split; [exact Hnd|]. intros i m Hi. discriminate Hi. }
  destruct (process_rows_sums_ok _ _ _ H0 E) as [_ Hs].
  cbn [get_consumption_summary file_data_of fd_meters fd_intervals].
  apply List.Forall_forall. intros s Hin. apply in_map_iff in Hin.
  destruct Hin as (m & <- & Hm).
  apply list_elem_of_In, list_elem_of_omap in Hm. destruct Hm as (r & _ & Hr).
  specialize (Hs r m Hr). unfold summary_of.
  pose proof (bucket_sum (interval_length m)
                (default [] (interval_data st !! nmi m)) (0, 0)) as Hb.
  cbv zeta in Hb.
  destruct (fold_left _ _ _) as [pk op]. cbn [peak_kwh off_peak_kwh total_kwh fst snd] in *.
  rewrite Hb, Hs. apply add_values_compat. reflexivity.
Qed.

End BucketTotals.

(** C9 fails as stated: the empty content is not rejected; it is one empty
    row, of no known record type, and the result is the empty channel list. *)
Lemma empty_content_is_not_an_error :
  tokenize "" = [[""%string]] /\
  exists fd, process_nem12 "" = Ok fd /\ fd_meters fd = [].
Proof.
  split; [reflexivity|]. eexists. split; [vm_compute; reflexivity | reflexivity].
Qed.

Lemma process_nem12_returns_witness :
  exists fd, process_nem12 one_channel_file = Ok fd.
Proof.
  apply (proj2 (process_nem12_returns one_channel_file)).
  vm_compute. reflexivity.
Defined.

(** C6 (the code breaks the sum).  Readings are stored under the NMI, and a
    channel row empties the list of its NMI: the readings of channel E1 are
    gone when B1 opens, and both summaries are computed from the readings of
    B1.  The summary of E1 has a total of 1 kWh and buckets adding up to
    5 kWh.  When no two channel rows name the same NMI the sum holds
    ([buckets_add_up_for_distinct_nmis]). *)
Theorem shared_nmi_buckets_differ_from_total :
  match process_nem12 shared_nmi_file with
  | Ok fd =>
      map (fun s => (Qred (total_kwh s), Qred (peak_kwh s + off_peak_kwh s)))
          (get_consumption_summary (Some fd)) = [(1, 5); (5, 5)]
  | Raise _ => False
  end.
Proof.
  vm_compute. reflexivity.
Qed.

(** ** Interval store: a channel that is never closed *)

Section Unterminated.
Context {rt : PyRuntime}.

Lemma process_rows_app (a b : list (list string)) (st : ParseState) :
  process_rows st (a ++ b) = (st' <- process_rows st a ;; process_rows st' b).
Proof.
  revert st. induction a as [| f a IH]; intros st; cbn [app process_rows rbind].
  - reflexivity.
  - destruct (process_fields st f) as [st1 | e]; cbn [rbind]; [apply IH | reflexivity].
Qed.

Lemma finalize_shape (st : ParseState) :
  length (heap (finalize st)) = length (heap st) /\
  current_meter (finalize st) = current_meter st /\
  (refs_ok st -> refs_ok (finalize st)).
Proof.
  unfold finalize, refs_ok.
  destruct (current_meter st) as [c |] eqn:Ec; [|now rewrite ?Ec].
  destruct (heap st !! c) as [m |] eqn:E; [|now rewrite ?Ec].
  cbn [heap meters current_meter]. rewrite length_insert.
  split; [reflexivity|]. split; [now rewrite ?Ec|]. intros Hr.
  apply Forall_app. split; [exact Hr|]. constructor; [|constructor].
  exact (lookup_lt_Some _ _ _ E).
Qed.

Lemma process_fields_refs_ok (st st' : ParseState) (fields : list string) :
  refs_ok st -> process_fields st fields = Ok st' -> refs_ok st'.
Proof.
  intros Hr. unfold process_fields.
  destruct (String.eqb (field_or fields 0 "") "100"); [now intros [= <-]|].
  destruct (String.eqb (field_or fields 0 "") "200").
  { destruct (_parse_200_record fields) as [m | e]; cbn [rbind]; [|discriminate].
    intros [= <-]. unfold refs_ok. cbn [heap meters]. rewrite length_app.
    destruct (finalize_shape st) as (_ & _ & Hf). specialize (Hf Hr).
    unfold refs_ok in Hf. eapply Forall_impl; [exact Hf|]. cbn. intros; lia. }
  destruct (String.eqb (field_or fields 0 "") "300").
  { destruct (current_meter st) as [c |]; [|now intros [= <-]].
    destruct (heap st !! c) as [m |]; [|now intros [= <-]].
    destruct (_parse_300_record fields m) as [im | e]; cbn [rbind]; [|discriminate].
    intros [= <-]. unfold refs_ok. cbn [heap meters]. now rewrite length_insert. }
  destruct (String.eqb (field_or fields 0 "") "400"); [now intros [= <-]|].
  destruct (String.eqb (field_or fields 0 "") "900"); [|now intros [= <-]].
  intros [= <-]. now apply finalize_shape.
Qed.

Lemma process_rows_refs_ok (rows : list (list string)) (st st' : ParseState) :
  refs_ok st -> process_rows st rows = Ok st' -> refs_ok st'.
Proof.
  revert st. induction rows as [| f rows IH]; intros st Hr; cbn [process_rows].
  - now intros [= <-].
  - destruct (process_fields st f) as [st1 | e] eqn:E; cbn [rbind]; [|discriminate].
    apply IH. exact (process_fields_refs_ok st st1 f Hr E).
Qed.

Lemma omap_agree {A B : Type} (f g : A -> option B) (l : list A) :
  Forall (fun x => f x = g x) l -> omap f l = omap g l.
Proof.
  induction 1 as [| x l Hx _ IH]; [reflexivity|].
  cbn [omap list_omap]. rewrite Hx. fold (omap f l) (omap g l). now rewrite IH.
Qed.

Lemma open_row_step (st st' : ParseState) (fields : list string) :
  keeps_channel_open fields = true ->
  process_fields st fields = Ok st' -> same_but_current st st'.
Proof.
  unfold keeps_channel_open, process_fields, same_but_current.
  intros Hk. apply andb_true_iff in Hk. destruct Hk as [H2 H9].
  apply negb_true_iff in H2. apply negb_true_iff in H9. rewrite H2, H9.
  destruct (String.eqb (field_or fields 0 "") "100"); [now intros [= <-]|].
  destruct (String.eqb (field_or fields 0 "") "300").
  { destruct (current_meter st) as [c |] eqn:Ec; [|intros [= <-]; now rewrite ?Ec].
    destruct (heap st !! c) as [m |]; [|intros [= <-]; now rewrite ?Ec].
    destruct (_parse_300_record fields m) as [im | e]; cbn [rbind]; [|discriminate].
    intros [= <-]. cbn [heap meters current_meter].
    split; [reflexivity|]. split; [now rewrite ?Ec|].
    intros r Hr. apply list_lookup_insert_ne. congruence. }
  destruct (String.eqb (field_or fields 0 "") "400"); now intros [= <-].
Qed.

Lemma open_rows_steps (rows : list (list string)) (st st' : ParseState) :
  forallb keeps_channel_open rows = true ->
  process_rows st rows = Ok st' -> same_but_current st st'.
Proof.
  revert st. induction rows as [| f rows IH]; intros st Hk; cbn [process_rows].
  - intros [= <-]. now repeat split.
  - cbn [forallb] in Hk. apply andb_true_iff in Hk. destruct Hk as [Hf Hr].
    destruct (process_fields st f) as [st1 | e] eqn:E; cbn [rbind]; [|discriminate].
    intros E'. destruct (open_row_step st st1 f Hf E) as (M1 & C1 & L1).
    destruct (IH st1 Hr E') as (M2 & C2 & L2).
    split; [congruence|]. split; [congruence|].
    intros r Hne. rewrite L2 by congruence. now apply L1.
Qed.

(** A channel row after which the file neither opens another channel nor
    ends with a terminator: the list of meters returned is the one a
    terminator in place of that row would have given, so the channel is not
    in it. *)
Lemma unterminated_channel_omitted (pre post : list (list string))
    (row : list string) (st : ParseState) :
  String.eqb (field_or row 0 "") "200" = true ->
  forallb keeps_channel_open post = true ->
  process_rows initial_state (pre ++ row :: post) = Ok st ->
  exists st_pre,
    process_rows initial_state pre = Ok st_pre /\
    meters st = meters (finalize st_pre) /\
    ~ In (length (heap st_pre)) (meters st) /\
    fd_meters (file_data_of st) = fd_meters (file_data_of (finalize st_pre)).
Proof.
  intros H200 Hpost. rewrite process_rows_app.
  destruct (process_rows initial_state pre) as [st_pre | e] eqn:Epre;
    cbn [rbind process_rows]; [|discriminate].
  unfold process_fields at 1. rewrite H200.
  assert (H100 : String.eqb (field_or row 0 "") "100" = false).
  { apply String.eqb_eq in H200. now rewrite H200. }
  rewrite H100.
  destruct (_parse_200_record row) as [m | e]; cbn [rbind]; [|discriminate].
  set (st1 := {| heap := heap (finalize st_pre) ++ [m];
                 meters := meters (finalize st_pre);
                 current_meter := Some (length (heap (finalize st_pre)));
                 interval_data := <[nmi m := []]> (interval_data (finalize st_pre)) |}).
  intros Epost. exists st_pre. split; [reflexivity|].
  destruct (open_rows_steps post st1 st Hpost Epost) as (M & _ & L).
  cbn [meters current_meter heap] in M, L.
  assert (R0 : refs_ok initial_state) by constructor.
  pose proof (process_rows_refs_ok pre initial_state st_pre R0 Epre) as Rpre.
  destruct (finalize_shape st_pre) as (Hlen & _ & Hf). specialize (Hf Rpre).
  unfold refs_ok in Hf. rewrite List.Forall_forall in Hf.
  split; [exact M|]. split.
  { rewrite M. intros Hin. specialize (Hf _ Hin). lia. }
  unfold file_data_of. cbn [fd_meters]. rewrite M.
  apply omap_agree. apply List.Forall_forall. intros r Hin.
  specialize (Hf r Hin).
  rewrite L by (intros [= E]; lia).
  unfold st1. cbn [heap]. apply lookup_app_l. exact Hf.
Qed.

End Unterminated.

(** C10 (the readings of the omitted channel leak).  The channel B1 is
    not in the list of meters, as [unterminated_channel_omitted] shows in
    general; but its readings are stored under the NMI it shares with E1, so
    the summary of E1, whose own total is 1 kWh, has an off-peak bucket of
    5 kWh made of the reading of B1. *)
Theorem unterminated_channel_readings_leak :
  match process_nem12 unterminated_shared_nmi_file with
  | Ok fd =>
      map register_id (fd_meters fd) = ["E1"%string] /\
      map (fun s => (Qred (total_kwh s), Qred (peak_kwh s), Qred (off_peak_kwh s)))
          (get_consumption_summary (Some fd)) = [(1, 0, 5)]
  | Raise _ => False
  end.
Proof.
  vm_compute. split; reflexivity.
Qed.

(** ** Tariff calculator *)

(** ** Rounding to cents *)

Lemma quantize_cents_bounds (q : Q) :
  let k := Qfloor (Qabs q * 100 + (1 # 2)) in
  Qabs q * 100 - (1 # 2) < inject_Z k /\ inject_Z k <= Qabs q * 100 + (1 # 2).
Proof.
  cbv zeta. set (x := Qabs q * 100 + (1 # 2)).
  pose proof (Qfloor_le x) as Hle. pose proof (Qlt_floor x) as Hlt.
  rewrite inject_Z_plus in Hlt. change (inject_Z 1) with 1 in Hlt.
  split; [|exact Hle].
  generalize dependent (inject_Z (Qfloor x)). intros y _ Hlt.
  unfold x in Hlt. lra.
Qed.

(** [quantize2] is a multiple of 0.01 within half a cent of its argument. *)
Lemma quantize2_error (q : Q) : Qabs (quantize2 q - q) <= 1 # 200.
Proof.
  unfold quantize2, quantize_cents.
  destruct (quantize_cents_bounds q) as [Hlo Hhi]. cbv zeta in Hlo, Hhi.
  set (k := Qfloor (Qabs q * 100 + (1 # 2))) in *.
  apply Qabs_Qle_condition.
  destruct (Qle_bool 0 q) eqn:E.
  - apply Qle_bool_iff in E. rewrite (Qabs_pos q E) in Hlo, Hhi.
    generalize dependent (inject_Z k). intros y Hlo Hhi.
    unfold Qdiv. change (/ 100) with (1 # 100). split; lra.
  - apply Qle_bool_false in E.
    assert (Hn : Qabs q == - q) by (apply Qabs_neg; lra).
    rewrite Hn in Hlo, Hhi. rewrite inject_Z_opp.
    generalize dependent (inject_Z k). intros y Hlo Hhi.
    unfold Qdiv. change (/ 100) with (1 # 100). split; lra.
Qed.

(** On a tie the cent further from zero is taken. *)
Lemma quantize2_tie (q : Q) (n : Z) :
  Qabs q * 100 == inject_Z n + (1 # 2) ->
  Qabs (quantize2 q) == (inject_Z n + 1) / 100.
Proof.
  intros Htie. unfold quantize2, quantize_cents.
  assert (Hk : Qfloor (Qabs q * 100 + (1 # 2)) = (n + 1)%Z).
  { assert (E : Qabs q * 100 + (1 # 2) == inject_Z (n + 1)).
    { rewrite Htie, inject_Z_plus. change (inject_Z 1) with 1. ring. }
    rewrite (Qfloor_comp _ _ E). apply Qfloor_Z. }
  rewrite Hk.
  assert (Hy : inject_Z (n + 1) == inject_Z n + 1).
  { rewrite inject_Z_plus. reflexivity. }
  assert (Hn : 0 <= inject_Z (n + 1)).
  { pose proof (Qabs_nonneg q) as Hq. rewrite Hy.
    generalize dependent (Qabs q). intros a Ha _. lra. }
  unfold Qdiv. change (/ 100) with (1 # 100).
  destruct (Qle_bool 0 q); rewrite ?inject_Z_opp;
    generalize dependent (inject_Z (n + 1)); intros y Hy Hn.
  - rewrite Qabs_pos; [|lra]. rewrite <- Hy. reflexivity.
  - rewrite Qabs_neg; [|lra]. rewrite <- Hy. ring.
Qed.

Lemma round_half_even_error (q : Q) :
  Qabs (inject_Z (round_half_even q) - q) <= 1 # 2.
Proof.
  unfold round_half_even.
  pose proof (Qfloor_le q) as Hle. pose proof (Qlt_floor q) as Hlt.
  rewrite inject_Z_plus in Hlt. change (inject_Z 1) with 1 in Hlt.
  apply Qabs_Qle_condition.
  destruct (Qltb (q - inject_Z (Qfloor q)) (1 # 2)) eqn:E1.
  { apply Qltb_true in E1. generalize dependent (inject_Z (Qfloor q)).
    intros; split; lra. }
  apply Qltb_false in E1.
  assert (Hup : - (1 # 2) <= inject_Z (Qfloor q + 1) - q /\
                inject_Z (Qfloor q + 1) - q <= 1 # 2).
  { rewrite inject_Z_plus. change (inject_Z 1) with 1.
    generalize dependent (inject_Z (Qfloor q)). intros; split; lra. }
  destruct (Qltb (1 # 2) (q - inject_Z (Qfloor q))) eqn:E2; [exact Hup|].
  apply Qltb_false in E2.
  destruct (Z.even (Qfloor q)); [|exact Hup].
  clear Hup. generalize dependent (inject_Z (Qfloor q)). intros; split; lra.
Qed.

(** [round2] is a multiple of 0.01 within half a hundredth of its
    argument. *)
Lemma round2_error (q : Q) : Qabs (round2 q - q) <= 1 # 200.
Proof.
  unfold round2. pose proof (round_half_even_error (q * 100)) as H.
  apply Qabs_Qle_condition in H. apply Qabs_Qle_condition.
  generalize dependent (inject_Z (round_half_even (q * 100))). intros y H.
  unfold Qdiv. change (/ 100) with (1 # 100). split; lra.
Qed.

(** ** The error of [quantize] *)

Lemma quantize_ok (q a : Q) : quantize q = Ok a -> a = quantize2 q.
Proof.
  unfold quantize. destruct (_ <? _)%Z; [|discriminate]. now intros [= <-].
Qed.

Lemma quantize_cases (q : Q) :
  quantize q = Ok (quantize2 q) \/ quantize q = Raise InvalidOperation.
Proof.
  unfold quantize. destruct (_ <? _)%Z; [now left | now right].
Qed.

Lemma quantize_cents_abs (q : Q) :
  Z.abs (quantize_cents q) = Qfloor (Qabs q * 100 + (1 # 2)).
Proof.
  unfold quantize_cents. cbv zeta.
  assert (H0 : (0 <= Qfloor (Qabs q * 100 + (1 # 2)))%Z).
  { change 0%Z with (Qfloor 0). apply Qfloor_resp_le.
    pose proof (Qabs_nonneg q) as Hq. lra. }
  destruct (Qle_bool 0 q); lia.
Qed.

(** Amounts up to 10^25 are quantized; amounts from 10^26 on are not. *)
Lemma quantize_small (q : Q) :
  Qabs q <= inject_Z (10 ^ 25) -> quantize q = Ok (quantize2 q).
Proof.
  intros Hq. unfold quantize. rewrite quantize_cents_abs.
  assert (Hlt : (Qfloor (Qabs q * 100 + (1 # 2)) < 10 ^ 28)%Z).
  { apply Z.le_lt_trans with (Qfloor (inject_Z (10 ^ 27) + (1 # 2))).
    - apply Qfloor_resp_le.
      change (inject_Z (10 ^ 27)) with (inject_Z (10 ^ 25) * 100).
      generalize dependent (inject_Z (10 ^ 25)). intros b Hb.
      generalize dependent (Qabs q). intros a Ha. lra.
    - vm_compute. reflexivity. }
  apply Z.ltb_lt in Hlt. now rewrite Hlt.
Qed.

Lemma quantize_large (q : Q) :
  inject_Z (10 ^ 26) <= Qabs q -> quantize q = Raise InvalidOperation.
Proof.
  intros Hq. unfold quantize. rewrite quantize_cents_abs.
  assert (Hge : (10 ^ 28 <= Qfloor (Qabs q * 100 + (1 # 2)))%Z).
  { change (10 ^ 28)%Z with (Qfloor (inject_Z (10 ^ 28))). apply Qfloor_resp_le.
    change (inject_Z (10 ^ 28)) with (inject_Z (10 ^ 26) * 100).
    generalize dependent (inject_Z (10 ^ 26)). intros b Hb.
    generalize dependent (Qabs q). intros a Ha. lra. }
  apply Z.ltb_ge in Hge. now rewrite Hge.
Qed.

Section CalculatorProperties.
Context {rt : PyRuntime}.

Lemma search_providers_shape (today : string) (ps : list NetworkProvider)
    (code : string) (d : dict) :
  search_providers today ps code = Some d ->
  exists p t, d = tariff_response today p t.
Proof.
  induction ps as [| p ps IH]; cbn [search_providers]; [discriminate|].
  destruct (List.find _ _) as [t |]; [|exact IH].
  intros [= <-]. now exists p, t.
Qed.

Lemma fetched_tariff_shape (today : string) (prov : option NetworkProvider)
    (code : string) (d : dict) :
  get_tariff_by_code today prov code = Some d ->
  exists p t, d = tariff_response today p t.
Proof. unfold get_tariff_by_code. apply search_providers_shape. Qed.

(** The calculator reads its keys at the top level of the value the fetcher
    returns; none of them is there. *)
Lemma tariff_response_keys (today : string) (p : NetworkProvider) (t : dict) :
  dict_get "daily_supply_charge_cents" (tariff_response today p t) = None /\
  dict_get "usage_rate_cents_per_kwh" (tariff_response today p t) = None /\
  dict_get "time_periods" (tariff_response today p t) = None.
Proof. repeat split. Qed.

Ltac quantize_split :=
  match goal with
  | |- context [quantize ?q] =>
      let Eq := fresh "Eq" in
      destruct (quantize_cases q) as [Eq | Eq]; rewrite Eq; cbn [rbind]
  end.

(** What the body of [calculate] does with the value of the tariff fetcher
    once the billing period is settled: it raises [InvalidOperation] or
    returns the invoice of the flat lines. *)
Lemma fetched_outcome (summary : ConsumptionSummary) (today code : string)
    (bs be : option string) (ps pe : Z) :
  resolved_period summary bs be = Ok (Some ps, Some pe) ->
  calculate_body summary (get_tariff_by_code today None code) code bs be
    = Raise InvalidOperation \/
  exists inv,
    calculate_body summary (get_tariff_by_code today None code) code bs be = Ok inv /\
    c_nmi inv = s_nmi summary /\
    c_billing_period_start inv = ps /\ c_billing_period_end inv = pe /\
    c_line_items inv = fetched_lines summary today code ps pe.
Proof.
  intros Hres. unfold calculate_body, fetched_lines.
  unfold resolved_period in Hres. rewrite Hres. cbn [rbind fst snd].
  destruct (get_tariff_by_code today None code) as [d |] eqn:Et.
  - destruct (fetched_tariff_shape today None code d Et) as (p & t & ->).
    cbn -[quantize quantize2 sum_amounts Qmult Qdiv Qplus inject_Z Z.sub Z.add].
    unfold usage_line.
    quantize_split; [|now left]. quantize_split; [|now left].
    quantize_split; [|now left]. quantize_split; [|now left].
    right. eexists. split; [reflexivity|]. repeat split.
  - cbn -[quantize quantize2 sum_amounts Qmult Qdiv Qplus inject_Z Z.sub Z.add].
    unfold usage_line.
    quantize_split; [|now left]. quantize_split; [|now left].
    quantize_split; [|now left].
    right. eexists. split; [reflexivity|]. repeat split.
Qed.

Lemma quantize2_abs (q b : Q) : Qabs q <= b -> Qabs (quantize2 q) <= b + (1 # 200).
Proof.
  intros Hq. pose proof (quantize2_error q) as He.
  apply Qabs_Qle_condition in Hq, He. apply Qabs_Qle_condition.
  generalize dependent (quantize2 q). intros y He. split; lra.
Qed.

Ltac quantize_fits :=
  match goal with
  | |- context [quantize ?q] =>
      rewrite (quantize_small q); [cbn [rbind]|]
  end.

Lemma fetched_returns (summary : ConsumptionSummary) (today code : string)
    (bs be : option string) (ps pe : Z) :
  resolved_period summary bs be = Ok (Some ps, Some pe) ->
  moderate_kwh (total_kwh summary) -> date_ordinal ps -> date_ordinal pe ->
  exists inv,
    calculate_body summary (get_tariff_by_code today None code) code bs be = Ok inv.
Proof.
  intros Hres Hk Hps Hpe. unfold calculate_body.
  unfold resolved_period in Hres. rewrite Hres. cbn [rbind fst snd].
  unfold moderate_kwh in Hk. change (inject_Z (10 ^ 20)) with 100000000000000000000 in Hk.
  unfold date_ordinal in Hps, Hpe.
  assert (Hd : Qabs (inject_Z (pe - ps + 1)) <= 3652059).
  { apply Qabs_Qle_condition. change 3652059 with (inject_Z 3652059).
    change (- inject_Z 3652059) with (inject_Z (-3652059)).
    rewrite <- !Zle_Qle. lia. }
  set (days := inject_Z (pe - ps + 1)) in *.
  set (kwh := total_kwh summary) in *.
  assert (B1 : Qabs (100 / 100 * days) <= inject_Z (10 ^ 25)).
  { change (inject_Z (10 ^ 25)) with 10000000000000000000000000.
    apply Qabs_Qle_condition in Hd. apply Qabs_Qle_condition.
    unfold Qdiv. change (/ 100) with (1 # 100). split; lra. }
  assert (B2 : Qabs (kwh * 25 / 100) <= inject_Z (10 ^ 25)).
  { change (inject_Z (10 ^ 25)) with 10000000000000000000000000.
    apply Qabs_Qle_condition in Hk. apply Qabs_Qle_condition.
    unfold Qdiv. change (/ 100) with (1 # 100). split; lra. }
  assert (B3 : Qabs (kwh * (8 # 100)) <= inject_Z (10 ^ 25)).
  { change (inject_Z (10 ^ 25)) with 10000000000000000000000000.
    apply Qabs_Qle_condition in Hk. apply Qabs_Qle_condition. split; lra. }
  pose proof (quantize2_abs _ _ B1) as A1.
  pose proof (quantize2_abs _ _ B2) as A2.
  pose proof (quantize2_abs _ _ B3) as A3.
  change (inject_Z (10 ^ 25)) with 10000000000000000000000000 in A1, A2, A3.
  apply Qabs_Qle_condition in A1, A2, A3.
  destruct (get_tariff_by_code today None code) as [d |] eqn:Et.
  - destruct (fetched_tariff_shape today None code d Et) as (p & t & ->).
    cbn -[quantize quantize2 sum_amounts Qmult Qdiv Qplus inject_Z Z.sub Z.add].
    unfold usage_line. fold days kwh.
    quantize_fits; [|exact B1]. quantize_fits; [|exact B2].
    quantize_fits; [|exact B3]. quantize_fits; [eexists; reflexivity|].
    unfold sum_amounts. cbn [app fold_left get_amount amount default from_option id].
    change (inject_Z (10 ^ 25)) with 10000000000000000000000000.
    generalize dependent (quantize2 (100 / 100 * days)). intros y1 A1.
    generalize dependent (quantize2 (kwh * 25 / 100)). intros y2 A2.
    generalize dependent (quantize2 (kwh * (8 # 100))). intros y3 A3.
    apply Qabs_Qle_condition. split; lra.
  - cbn -[quantize quantize2 sum_amounts Qmult Qdiv Qplus inject_Z Z.sub Z.add].
    unfold usage_line. fold kwh.
    quantize_fits; [|exact B2].
    quantize_fits; [|exact B3]. quantize_fits; [eexists; reflexivity|].
    unfold sum_amounts. cbn [app fold_left get_amount amount default from_option id].
    change (inject_Z (10 ^ 25)) with 10000000000000000000000000.
    generalize dependent (quantize2 (kwh * 25 / 100)). intros y2 A2.
    generalize dependent (quantize2 (kwh * (8 # 100))). intros y3 A3.
    apply Qabs_Qle_condition. split; lra.
Qed.

Lemma fetched_raises (summary : ConsumptionSummary) (today code : string)
    (bs be : option string) (ps pe : Z) :
  resolved_period summary bs be = Ok (Some ps, Some pe) ->
  inject_Z (4 * 10 ^ 26) <= Qabs (total_kwh summary) ->
  calculate_body summary (get_tariff_by_code today None code) code bs be
    = Raise InvalidOperation.
Proof.
  intros Hres Hk. unfold calculate_body.
  unfold resolved_period in Hres. rewrite Hres. cbn [rbind fst snd].
  assert (B2 : quantize (total_kwh summary * 25 / 100) = Raise InvalidOperation).
  { apply quantize_large.
    change (inject_Z (4 * 10 ^ 26)) with 400000000000000000000000000 in Hk.
    change (inject_Z (10 ^ 26)) with 100000000000000000000000000.
    assert (E : Qabs (total_kwh summary * 25 / 100) == Qabs (total_kwh summary) * (25 # 100)).
    { unfold Qdiv. rewrite <- Qmult_assoc, Qabs_Qmult. reflexivity. }
    rewrite E. generalize dependent (Qabs (total_kwh summary)). intros a Ha. lra. }
  destruct (get_tariff_by_code today None code) as [d |] eqn:Et.
  - destruct (fetched_tariff_shape today None code d Et) as (p & t & ->).
    cbn -[quantize quantize2 sum_amounts Qmult Qdiv Qplus inject_Z Z.sub Z.add].
    unfold usage_line. rewrite B2.
    quantize_split; reflexivity.
  - cbn -[quantize quantize2 sum_amounts Qmult Qdiv Qplus inject_Z Z.sub Z.add].
    unfold usage_line. rewrite B2. reflexivity.
Qed.

Lemma resolved_parsed (summary : ConsumptionSummary) (bs be : string) (ps pe : Z) :
  bs <> ""%string -> be <> ""%string ->
  strptime_iso bs = Some ps -> strptime_iso be = Some pe ->
  resolved_period summary (Some bs) (Some be) = Ok (Some ps, Some pe).
Proof.
  intros Hbs Hbe Hps Hpe. unfold resolved_period. cbn [nonempty].
  apply String.eqb_neq in Hbs, Hbe. now rewrite Hbs, Hbe, Hps, Hpe.
Qed.

(** C4 (amended).  With a billing period whose two dates parse,
    [calculate] raises its [ValueError] exactly when the file has no
    consumption summary.  When it has one, where the readings lie plays no
    part: the call returns an invoice whenever the total of the first
    channel is at most 10^20 kWh in absolute value, and it raises the
    [InvalidOperation] of [quantize] when that total is 4 * 10^26 kWh or
    more. *)
Theorem calculate_fails_without_summary (data : option FileData)
    (today code bs be : string) (ps pe : Z) :
  bs <> ""%string -> be <> ""%string ->
  strptime_iso bs = Some ps -> strptime_iso be = Some pe ->
  date_ordinal ps -> date_ordinal pe ->
  (get_consumption_summary data = [] <->
   calculate data today code (Some bs) (Some be)
     = Raise (ValueError "No consumption data found for file ID")) /\
  (forall s rest, get_consumption_summary data = s :: rest ->
     (moderate_kwh (total_kwh s) ->
      exists inv, calculate data today code (Some bs) (Some be) = Ok inv) /\
     (inject_Z (4 * 10 ^ 26) <= Qabs (total_kwh s) ->
      calculate data today code (Some bs) (Some be) = Raise InvalidOperation)).
Proof.
  intros Hbs Hbe Hps Hpe Dps Dpe. unfold calculate.
  destruct (get_consumption_summary data) as [| s rest].
  - split; [split; reflexivity|]. intros s rest E. discriminate E.
  - pose proof (resolved_parsed s bs be ps pe Hbs Hbe Hps Hpe) as Hres.
    split.
    + split; [discriminate|]. intros E. exfalso.
      destruct (fetched_outcome s today code (Some bs) (Some be) ps pe Hres)
        as [Hr | (inv & Hr & _)]; rewrite Hr in E; discriminate E.
    + intros s' rest' [= <- <-]. split.
      * intros Hk. exact (fetched_returns s today code _ _ ps pe Hres Hk Dps Dpe).
      * intros Hk. exact (fetched_raises s today code _ _ ps pe Hres Hk).
Qed.

End CalculatorProperties.

(** C4 fails as stated: the readings of the file are of 2024-01-01, the
    billing period is January 2025, and [calculate] returns an invoice. *)
Lemma calculate_returns_without_readings_in_period :
  readings_in_period (stored_after one_day_file) 739252 739282 = [] /\
  strptime_iso "2025-01-01" = Some 739252%Z /\
  strptime_iso "2025-01-31" = Some 739282%Z /\
  is_ok (calculate (stored_after one_day_file) "2025-02-01" "EA025"
                   (Some "2025-01-01"%string) (Some "2025-01-31"%string)) = true.
Proof.
  repeat split; vm_compute; reflexivity.
Qed.

Lemma calculate_fails_without_summary_witness :
  ((get_consumption_summary (stored_after one_day_file) = [] <->
    calculate (stored_after one_day_file) "2025-02-01" "EA025"
              (Some "2025-01-01"%string) (Some "2025-01-31"%string)
      = Raise (ValueError "No consumption data found for file ID")) /\
   exists inv, calculate (stored_after one_day_file) "2025-02-01" "EA025"
                         (Some "2025-01-01"%string) (Some "2025-01-31"%string) = Ok inv) /\
  calculate None "2025-02-01" "EA025"
            (Some "2025-01-01"%string) (Some "2025-01-31"%string)
    = Raise (ValueError "No consumption data found for file ID") /\
  calculate (stored_after huge_reading_file) "2025-02-01" "EA025"
            (Some "2025-01-01"%string) (Some "2025-01-31"%string)
    = Raise InvalidOperation.
Proof.
  assert (D1 : date_ordinal 739252) by (unfold date_ordinal; lia).
  assert (D2 : date_ordinal 739282) by (unfold date_ordinal; lia).
  assert (N1 : "2025-01-01"%string <> ""%string) by discriminate.
  assert (N2 : "2025-01-31"%string <> ""%string) by discriminate.
  assert (P1 : strptime_iso (PyRuntime := ascii_runtime) "2025-01-01" = Some 739252%Z)
    by reflexivity.
  assert (P2 : strptime_iso (PyRuntime := ascii_runtime) "2025-01-31" = Some 739282%Z)
    by reflexivity.
  split; [|split].
  - destruct (calculate_fails_without_summary (rt := ascii_runtime) (stored_after one_day_file)
                "2025-02-01" "EA025" "2025-01-01" "2025-01-31" 739252 739282
                N1 N2 P1 P2 D1 D2)
      as [H1 H2].
    split; [exact H1|].
    apply (H2 {| s_nmi := "1234567890"; s_period_start := Some 738886%Z;
                 s_period_end := Some 738886%Z; total_kwh := 48;
                 peak_kwh := 30; off_peak_kwh := 18 |} []).
    + vm_compute. reflexivity.
    + unfold moderate_kwh. vm_compute. discriminate.
  - apply (proj1 (calculate_fails_without_summary (rt := ascii_runtime) None
                    "2025-02-01" "EA025" "2025-01-01" "2025-01-31" 739252 739282
                    N1 N2 P1 P2 D1 D2)).
    reflexivity.
  - refine (proj2 (proj2 (calculate_fails_without_summary (rt := ascii_runtime) (stored_after huge_reading_file)
                    "2025-02-01" "EA025" "2025-01-01" "2025-01-31" 739252 739282
                    N1 N2 P1 P2 D1 D2)
                   {| s_nmi := "1234567890"; s_period_start := Some 738886%Z;
                      s_period_end := Some 738886%Z;
                      total_kwh := 1000000000000000000000000000;
                      peak_kwh := 0;
                      off_peak_kwh := 1000000000000000000000000000 |} [] _) _).
    + vm_compute. reflexivity.
    + vm_compute. discriminate.
Defined.

(** ** Tariff calculator: line items and totals *)

Section Totals.
Context {rt : PyRuntime}.

Lemma usage_line_ok (descr : string) (kwh rate_cents : Q) (code : string) (it : LineItem) :
  usage_line descr kwh rate_cents code = Ok it -> it = usage_item descr kwh rate_cents code.
Proof.
  unfold usage_line. intros H. bind_inv H. apply quantize_ok in E.
  injection H as <-. now subst.
Qed.

Lemma guarded_usage_line (b : bool) (descr : string) (kwh rate_cents : Q) (code : string)
    (items : list LineItem) :
  (if b then it <- usage_line descr kwh rate_cents code ;; Ok [it] else Ok []) = Ok items ->
  items = if b then [usage_item descr kwh rate_cents code] else [].
Proof.
  destruct b; [|now intros [= <-]]. intros H. bind_inv H.
  apply usage_line_ok in E. injection H as <-. now subst.
Qed.

Ltac inv_binds :=
  repeat match goal with
  | H : rbind _ _ = Ok _ |- _ => bind_inv H
  | H : Ok _ = Ok _ |- _ => injection H as H; subst
  | H : quantize _ = Ok _ |- _ => apply quantize_ok in H; subst
  | H : usage_line _ _ _ _ = Ok _ |- _ => apply usage_line_ok in H; subst
  | H : (if _ then _ else _) = Ok _ |- _ => apply guarded_usage_line in H; subst
  end.

(** Whatever tariff value the body of [calculate] is given: every amount is
    a rounded one, the supply charge is the rounded product of the daily
    rate it read and the days of the period, the subtotal is the sum of the
    rounded amounts, the tax a tenth of it, rounded, and the total their
    sum. *)
Lemma calculate_body_totals (summary : ConsumptionSummary) (nt : option dict)
    (code : string) (bs be : option string) (inv : CalculatedInvoice) :
  calculate_body summary nt code bs be = Ok inv ->
  Forall (fun it => exists q, amount it = Some (quantize2 q)) (c_line_items inv) /\
  subtotal inv = sum_amounts (c_line_items inv) /\
  gst inv = quantize2 (subtotal inv * (10 # 100)) /\
  total inv = subtotal inv + gst inv /\
  (forall t, if_tariff nt = Some t ->
     exists cents supply rest,
       to_decimal (get_or "daily_supply_charge_cents" t (VNum 100)) = Ok cents /\
       c_line_items inv = supply :: rest /\
       rate supply = Some (cents / 100) /\
       amount supply =
         Some (quantize2 (cents / 100
                          * inject_Z (c_billing_period_end inv
                                      - c_billing_period_start inv + 1)))).
Proof.
  unfold calculate_body. intros Hc.
  bind_inv Hc. bind_inv Hc. bind_inv Hc. bind_inv Hc. bind_inv Hc. bind_inv Hc.
  apply quantize_ok in E3, E4. subst a3 a4.
  injection Hc as <-. cbn [c_line_items subtotal gst total c_billing_period_start
                           c_billing_period_end].
  assert (Hsupply : Forall (fun it => exists q, amount it = Some (quantize2 q)) a1).
  { destruct (if_tariff nt) as [t |]; [|injection E1 as <-; constructor].
    bind_inv E1. bind_inv E1. apply quantize_ok in E4. subst.
    injection E1 as <-. constructor; [|constructor]. now eexists. }
  assert (Husage : Forall (fun it => exists q, amount it = Some (quantize2 q)) a2).
  { destruct (if_tariff nt) as [t |].
    - destruct (truthy _).
      + bind_inv E2. bind_inv E2. bind_inv E2. bind_inv E2. injection E2 as <-.
        apply guarded_usage_line in E5, E6. subst.
        apply Forall_app. split.
        * destruct (Qltb 0 (peak_kwh summary)); constructor; [now eexists | constructor].
        * destruct (Qltb 0 (off_peak_kwh summary)); constructor; [now eexists | constructor].
      + bind_inv E2. bind_inv E2. apply usage_line_ok in E4. subst.
        injection E2 as <-. constructor; [now eexists | constructor].
    - bind_inv E2. apply usage_line_ok in E3. subst.
      injection E2 as <-. constructor; [now eexists | constructor]. }
  split.
  { apply Forall_app. split; [exact Hsupply|]. apply Forall_app. split; [exact Husage|].
    constructor; [now eexists | constructor]. }
  split; [reflexivity|]. split; [reflexivity|]. split; [reflexivity|].
  intros t Ht. rewrite Ht in E1. bind_inv E1. bind_inv E1.
  apply quantize_ok in E4. subst. injection E1 as <-.
  eexists. eexists. eexists. split; [reflexivity|]. split; [reflexivity|].
  split; reflexivity.
Qed.

Lemma find_period_rate_entries (periods : list value) (entries : list (string * Q))
    (name : string) :
  map period_entry periods = map Some entries ->
  find_period_rate periods name
    = Ok (option_map snd (List.find (name_matches name) entries)).
Proof.
  revert entries. induction periods as [| v periods IH]; intros entries Hm.
  - destruct entries; [reflexivity | discriminate Hm].
  - destruct entries as [| [n r] entries]; [discriminate Hm|].
    cbn [map] in Hm. injection Hm as Hv Hrest.
    destruct v as [| | | | period]; try discriminate Hv.
    cbn [period_entry] in Hv. cbn [find_period_rate List.find].
    unfold get_or, name_matches at 1. cbn [fst].
    destruct (dict_get "name" period) as [[| | s | |] |]; try discriminate Hv.
    destruct (dict_get "rate_cents_per_kwh" period) as [[| q | | |] |]; try discriminate Hv.
    injection Hv as -> ->. cbn [default from_option id].
    destruct (String.eqb (lower n) (lower name)); [reflexivity|].
    apply IH, Hrest.
Qed.

Lemma get_period_rate_entries (t : dict) (periods : list value)
    (entries : list (string * Q)) (name : string) :
  dict_get "time_periods" t = Some (VList periods) ->
  map period_entry periods = map Some entries ->
  _get_period_rate t name = Ok (rate_for entries name).
Proof.
  intros Ht Hm. unfold _get_period_rate, get_or. rewrite Ht.
  cbn [default from_option id iterate rbind].
  rewrite (find_period_rate_entries periods entries name Hm). cbn [rbind].
  unfold rate_for. now destruct (List.find _ _).
Qed.

(** The time-of-use branch of the body of [calculate].  When the tariff
    value it reads has, at its top level, a list of time periods, each with
    a name and a rate, the usage line items of the invoice it returns are:
    one for the peak bucket when its consumption is above zero, then one for
    the off-peak bucket when its consumption is above zero, each at the rate
    of the first period whose name is that of the bucket ("peak",
    "off_peak") up to case, and at the default rate of the bucket when there
    is no such period: 35 for peak, 18 for off-peak, 25 for shoulder. *)
Lemma tou_branch_usage_line_items (summary : ConsumptionSummary) (t : dict)
    (code bs be : string) (ps pe : Z) (periods : list value)
    (entries : list (string * Q)) (cents : Q) (inv : CalculatedInvoice) :
  dict_get "time_periods" t = Some (VList periods) ->
  periods <> [] ->
  map period_entry periods = map Some entries ->
  to_decimal (get_or "daily_supply_charge_cents" t (VNum 100)) = Ok cents ->
  bs <> ""%string -> be <> ""%string ->
  strptime_iso bs = Some ps -> strptime_iso be = Some pe ->
  calculate_body summary (Some t) code (Some bs) (Some be) = Ok inv ->
  List.filter is_usage (c_line_items inv) =
    (if Qltb 0 (peak_kwh summary)
     then [usage_item "Peak Energy Usage" (peak_kwh summary)
                      (rate_for entries "peak") code]
     else []) ++
    (if Qltb 0 (off_peak_kwh summary)
     then [usage_item "Off-Peak Energy Usage" (off_peak_kwh summary)
                      (rate_for entries "off_peak") code]
     else []) /\
  default_rate "peak" = 35 /\ default_rate "off_peak" = 18 /\
  default_rate "shoulder" = 25.
Proof.
  intros Ht Hne Hm Hc Hbs Hbe Hps Hpe.
  assert (Hif : if_tariff (Some t) = Some t).
  { destruct t as [| kv t]; [discriminate Ht | reflexivity]. }
  unfold calculate_body.
  assert (Nbs : nonempty (Some bs) = Some bs).
  { cbn. apply String.eqb_neq in Hbs. now rewrite Hbs. }
  assert (Nbe : nonempty (Some be) = Some be).
  { cbn. apply String.eqb_neq in Hbe. now rewrite Hbe. }
  rewrite Nbs, Nbe, Hps, Hpe. cbn [rbind fst snd].
  rewrite Hif, Hc. cbn [rbind].
  assert (Htr : truthy (get_or "time_periods" t VNone) = true).
  { unfold get_or. rewrite Ht. cbn [default from_option id truthy].
    destruct periods; [congruence | reflexivity]. }
  rewrite Htr.
  rewrite (get_period_rate_entries t periods entries "peak" Ht Hm).
  rewrite (get_period_rate_entries t periods entries "off_peak" Ht Hm).
  cbn [rbind]. intros H.
  inv_binds.
  split; [|repeat split].
  cbn [c_line_items app List.filter]. unfold is_usage at 1.
  cbn [get_charge_type charge_type default from_option id].
  change (String.eqb "supply" "usage") with false. cbv iota.
  rewrite List.filter_app, List.filter_app.
  destruct (Qltb 0 (peak_kwh summary)), (Qltb 0 (off_peak_kwh summary)); reflexivity.
Qed.

End Totals.

(** A bucket below zero is not zero, and has no line item: with -1 kWh at
    peak and 5 kWh off peak the only usage line item of the time-of-use
    branch is the off-peak one. *)
Lemma negative_bucket_has_no_line_item :
  ~ peak_kwh (summary_of_kwh (-1) 5) == 0 /\
  match calculate_body (summary_of_kwh (-1) 5) (Some capital_peak_tariff) "T1"
                       (Some "2024-01-01"%string) (Some "2024-01-30"%string) with
  | Ok inv =>
      map description (List.filter is_usage (c_line_items inv))
        = [Some "Off-Peak Energy Usage"%string]
  | Raise _ => False
  end.
Proof.
  split; [vm_compute; discriminate | vm_compute; reflexivity].
Qed.

(** C5 (a time-of-use tariff is billed at one flat rate).  EA010 is a
    time-of-use tariff whose periods give 35.64 cents for peak and 8.14 cents
    for off-peak; the file has 30 kWh at peak and 18 kWh off peak.  The
    fetcher returns the tariff wrapped under the key [network_tariff], so
    [calculate] finds no [time_periods] at the top level of the value it
    reads and takes the flat branch: the only usage line item is "Energy
    Usage", 48 kWh at 25 cents, 12.00, where one peak item (30 kWh at 35.64
    cents, 10.69) and one off-peak item (18 kWh at 8.14 cents, 1.47) are
    stated. *)
Theorem tou_tariff_billed_at_flat_rate :
  match get_tariff_by_code "2024-02-01" None "EA010" with
  | Some d =>
      dict_get "time_periods" d = None /\
      match dict_get "network_tariff" d with
      | Some (VDict t) =>
          dict_get "tariff_type" t = Some (VStr "tou") /\
          _get_period_rate t "peak" = Ok (3564 # 100) /\
          _get_period_rate t "off_peak" = Ok (814 # 100)
      | _ => False
      end
  | None => False
  end /\
  map (fun s => (Qred (peak_kwh s), Qred (off_peak_kwh s)))
      (get_consumption_summary (stored_after one_day_file)) = [(30, 18)] /\
  (Qred (quantize2 (30 * (3564 # 100) / 100)), Qred (quantize2 (18 * (814 # 100) / 100)))
    = (1069 # 100, 147 # 100) /\
  match calculate (stored_after one_day_file) "2024-02-01" "EA010"
                  (Some "2024-01-01"%string) (Some "2024-01-01"%string) with
  | Ok inv =>
      map (fun it => (description it, option_map Qred (quantity it),
                      option_map Qred (rate it), option_map Qred (amount it)))
          (List.filter is_usage (c_line_items inv))
      = [(Some "Energy Usage"%string, Some 48, Some (1 # 4), Some 12)]
  | Raise _ => False
  end.
Proof.
  split; [vm_compute; repeat split; reflexivity|].
  split; [vm_compute; reflexivity|].
  split; [vm_compute; reflexivity|].
  vm_compute. reflexivity.
Qed.

(** C3 (the supply charge is not the tariff's).  The fetcher returns the
    tariff wrapped under the key [network_tariff]; [calculate] reads
    [daily_supply_charge_cents] at the top level of that value, finds no such
    key and falls back on 100 cents.  For EA010 (98.37 cents a day) and
    thirty days the supply charge comes out as 30.00 where 0.9837 * 30 rounds
    to 29.51; the other figures are formed as stated: the subtotal 45.84 is
    the sum of the rounded amounts, the tax 4.58 and the total 50.42. *)
Theorem supply_charge_ignores_fetched_tariff :
  match get_tariff_by_code "2024-02-01" None "EA010" with
  | Some d =>
      dict_get "daily_supply_charge_cents" d = None /\
      match dict_get "network_tariff" d with
      | Some (VDict t) =>
          dict_get "daily_supply_charge_cents" t = Some (VNum (9837 # 100))
      | _ => False
      end
  | None => False
  end /\
  Qred (quantize2 ((9837 # 100) / 100 * 30)) = 2951 # 100 /\
  match calculate (stored_after one_day_file) "2024-02-01" "EA010"
                  (Some "2024-01-01"%string) (Some "2024-01-30"%string) with
  | Ok inv =>
      map (fun it => (description it, option_map Qred (rate it), option_map Qred (amount it)))
          (c_line_items inv)
      = [(Some "Daily Supply Charge"%string, Some 1, Some 30);
         (Some "Energy Usage"%string, Some (1 # 4), Some 12);
         (Some "Network Charges"%string, Some (2 # 25), Some (96 # 25))] /\
      (Qred (subtotal inv), Qred (gst inv), Qred (total inv))
      = (1146 # 25, 229 # 50, 2521 # 50)
  | Raise _ => False
  end.
Proof.
  split; [vm_compute; split; reflexivity|].
  split; [vm_compute; reflexivity|].
  vm_compute. split; reflexivity.
Qed.

(** ** Reconciliation rollup *)

Lemma overall_status_rule (significant minor missing : nat) (tp tol : Q) :
  ((0 < significant)%nat \/ 5 < Qabs tp ->
   overall_status_of significant minor missing tp tol = SIGNIFICANT) /\
  (~ ((0 < significant)%nat \/ 5 < Qabs tp) ->
   ((0 < minor)%nat \/ (0 < missing)%nat \/ tol < Qabs tp) ->
   overall_status_of significant minor missing tp tol = MINOR) /\
  (~ ((0 < significant)%nat \/ 5 < Qabs tp) ->
   ~ ((0 < minor)%nat \/ (0 < missing)%nat \/ tol < Qabs tp) ->
   overall_status_of significant minor missing tp tol = MATCH).
Proof.
  unfold overall_status_of.
  destruct (0 <? significant)%nat eqn:Es; [apply Nat.ltb_lt in Es | apply Nat.ltb_ge in Es];
  destruct (Qltb 5 (Qabs tp)) eqn:E5; [apply Qltb_true in E5 | apply Qltb_false in E5
                                       | apply Qltb_true in E5 | apply Qltb_false in E5];
  cbn [orb]; try (split; [reflexivity | split; intros Hn; exfalso; apply Hn; auto]).
  destruct (0 <? minor)%nat eqn:Em; [apply Nat.ltb_lt in Em | apply Nat.ltb_ge in Em];
  destruct (0 <? missing)%nat eqn:Ei; [apply Nat.ltb_lt in Ei | apply Nat.ltb_ge in Ei
                                       | apply Nat.ltb_lt in Ei | apply Nat.ltb_ge in Ei];
  destruct (Qltb tol (Qabs tp)) eqn:Et; [apply Qltb_true in Et | apply Qltb_false in Et
                                         | apply Qltb_true in Et | apply Qltb_false in Et
                                         | apply Qltb_true in Et | apply Qltb_false in Et
                                         | apply Qltb_true in Et | apply Qltb_false in Et];
  cbn [orb];
  (split; [intros [Hs | Hs]; exfalso; [lia | lra] |]);
  (split; [intros _ |]);
  try reflexivity; try (intros _ Hn; exfalso; apply Hn; auto; fail).
  all: intros [Hm | [Hm | Hm]]; exfalso; try lia; lra.
Qed.

Section Rollup.
Context {rt : PyRuntime}.

(** C8 (amended).  The counters of a summary count the records by status;
    the overall status is SIGNIFICANT when a record is SIGNIFICANT or the
    total percentage difference is above 5, otherwise MINOR when a record is
    MINOR, a record is missing or the total percentage is above the
    tolerance, otherwise MATCH; and the confidence score is the float
    quotient of the matched count by the record count, rounded to two
    decimals, and 0 without records. *)
Theorem reconcile_rollup (parsed : option ParsedInvoice) (data : option FileData)
    (today : string) (code : option string) (tol : Q) (s : ReconciliationSummary) :
  reconcile parsed data today code tol = Ok s ->
  let tp := pct_diff_of (total_difference s) (calculated_total s) in
  let records := rs_line_items s in
  total_difference s = invoiced_total s - calculated_total s /\
  matched_items s = count_status (fun st => status_eqb st MATCH) records /\
  minor_discrepancies s = count_status (fun st => status_eqb st MINOR) records /\
  significant_discrepancies s = count_status (fun st => status_eqb st SIGNIFICANT) records /\
  missing_items s = count_status is_missing records /\
  ((0 < significant_discrepancies s)%nat \/ 5 < Qabs tp ->
   overall_status s = SIGNIFICANT) /\
  (~ ((0 < significant_discrepancies s)%nat \/ 5 < Qabs tp) ->
   ((0 < minor_discrepancies s)%nat \/ (0 < missing_items s)%nat \/ tol < Qabs tp) ->
   overall_status s = MINOR) /\
  (~ ((0 < significant_discrepancies s)%nat \/ 5 < Qabs tp) ->
   ~ ((0 < minor_discrepancies s)%nat \/ (0 < missing_items s)%nat \/ tol < Qabs tp) ->
   overall_status s = MATCH) /\
  ((0 < length records)%nat ->
   confidence_score s
   = round2 (fl (inject_Z (Z.of_nat (matched_items s))
                 / inject_Z (Z.of_nat (length records))))) /\
  (length records = 0%nat -> confidence_score s == 0).
Proof.
  unfold reconcile. destruct parsed as [p |]; [|discriminate].
  intros Hr. bind_inv Hr. injection Hr as <-. cbv zeta.
  cbn [total_difference invoiced_total calculated_total matched_items
       minor_discrepancies significant_discrepancies missing_items overall_status
       confidence_score rs_line_items].
  set (records := _reconcile_line_items (p_line_items p) (c_line_items a) tol).
  repeat (split; [reflexivity|]).
  destruct (overall_status_rule
              (count_status (fun st => status_eqb st SIGNIFICANT) records)
              (count_status (fun st => status_eqb st MINOR) records)
              (count_status is_missing records)
              (pct_diff_of (p_total p - total a) (total a)) tol) as (R1 & R2 & R3).
  split; [exact R1|]. split; [exact R2|]. split; [exact R3|].
  unfold confidence_of. split.
  - intros Hpos. apply Nat.ltb_lt in Hpos. now rewrite Hpos.
  - intros Hz. rewrite Hz. reflexivity.
Qed.

End Rollup.

(** C8 fails as stated: with one matched record out of three the
    confidence score is 0.33, not one third. *)
Lemma confidence_score_is_rounded :
  match reconcile (Some three_item_invoice) (stored_after one_day_file)
                  "2024-02-01" None 1 with
  | Ok s =>
      matched_items s = 1%nat /\ length (rs_line_items s) = 3%nat /\
      Qred (confidence_score s) = 33 # 100 /\
      ~ confidence_score s == 1 # 3
  | Raise _ => False
  end.
Proof.
  vm_compute. repeat split; try reflexivity. discriminate.
Qed.

Lemma reconcile_rollup_witness :
  exists s,
    reconcile (Some three_item_invoice) (stored_after one_day_file)
              "2024-02-01" None 1 = Ok s /\
    let tp := pct_diff_of (total_difference s) (calculated_total s) in
    let records := rs_line_items s in
    total_difference s = invoiced_total s - calculated_total s /\
    matched_items s = count_status (fun st => status_eqb st MATCH) records /\
    minor_discrepancies s = count_status (fun st => status_eqb st MINOR) records /\
    significant_discrepancies s = count_status (fun st => status_eqb st SIGNIFICANT) records /\
    missing_items s = count_status is_missing records /\
    ((0 < significant_discrepancies s)%nat \/ 5 < Qabs tp ->
     overall_status s = SIGNIFICANT) /\
    (~ ((0 < significant_discrepancies s)%nat \/ 5 < Qabs tp) ->
     ((0 < minor_discrepancies s)%nat \/ (0 < missing_items s)%nat \/ 1 < Qabs tp) ->
     overall_status s = MINOR) /\
    (~ ((0 < significant_discrepancies s)%nat \/ 5 < Qabs tp) ->
     ~ ((0 < minor_discrepancies s)%nat \/ (0 < missing_items s)%nat \/ 1 < Qabs tp) ->
     overall_status s = MATCH) /\
    ((0 < length records)%nat ->
     confidence_score s
     = round2 (fl (inject_Z (Z.of_nat (matched_items s))
                   / inject_Z (Z.of_nat (length records))))) /\
    (length records = 0%nat -> confidence_score s == 0).
Proof.
  eexists. split.
  - vm_compute. reflexivity.
  - apply (reconcile_rollup (Some three_item_invoice) (stored_after one_day_file)
             "2024-02-01" None 1).
    vm_compute. reflexivity.
Defined.

(** One matched record of forty: the float nearest to 0.025 lies above it
    and the score is 0.03. *)
Lemma confidence_rounds_the_float : Qred (round2 (confidence_of 1 40)) = 3 # 100.
Proof. vm_compute. reflexivity. Qed.

(** * Further properties of the code *)

(** ** Matcher: the search for the best match *)

Lemma enumerate_from_snoc {A : Type} (l : list A) (x : A) (k : nat) :
  combine (seq k (length (l ++ [x]))) (l ++ [x])
  = combine (seq k (length l)) l ++ [((k + length l)%nat, x)].
Proof.
  revert k. induction l as [| a l IH]; intros k; cbn [app length seq combine].
  - now rewrite Nat.add_0_r.
  - rewrite IH. now rewrite Nat.add_succ_r.
Qed.

Lemma enumerate_snoc {A : Type} (l : list A) (x : A) :
  enumerate (l ++ [x]) = enumerate l ++ [(length l, x)].
Proof. unfold enumerate. now rewrite enumerate_from_snoc. Qed.

Lemma find_best_snoc (cm : gset nat) (a : Q) (bucket : list LineItem) (x : LineItem) :
  find_best cm a (bucket ++ [x])
  = best_step cm a (find_best cm a bucket) (length bucket, x).
Proof.
  unfold find_best. rewrite enumerate_snoc, fold_left_app. reflexivity.
Qed.

(** X1.  The inner loop of [_reconcile_line_items] returns the calculated
    item of the bucket that is not yet taken and whose amount is nearest to
    the invoiced amount, the first such on a tie; it returns nothing only
    when every position of the bucket is taken. *)
Theorem find_best_is_nearest_untaken (cm : gset nat) (a : Q) (bucket : list LineItem) :
  match find_best cm a bucket with
  | Some (j, c, d) =>
      bucket !! j = Some c /\ (j ∉ cm) /\ d = a - get_amount c /\
      forall j' c', bucket !! j' = Some c' -> j' ∉ cm ->
        Qabs d <= Qabs (a - get_amount c') /\
        ((j' < j)%nat -> Qabs d < Qabs (a - get_amount c'))
  | None => forall j c, bucket !! j = Some c -> j ∈ cm
  end.
Proof.
  induction bucket as [| x bucket IH] using rev_ind.
  - cbn. intros j c Hj. discriminate Hj.
  - rewrite find_best_snoc. unfold best_step.
    destruct (bool_decide (length bucket ∈ cm)) eqn:Ecm.
    + apply bool_decide_eq_true in Ecm.
      destruct (find_best cm a bucket) as [[[j c] d] |].
      * destruct IH as (Hj & Hn & Hd & Hmin).
        split; [now apply lookup_app_l_Some|]. split; [exact Hn|]. split; [exact Hd|].
        intros j' c' Hj' Hn'. apply lookup_app_Some in Hj'.
        destruct Hj' as [Hj' | [Hge Hj']]; [now apply Hmin|].
        destruct (j' - length bucket)%nat eqn:E; [|discriminate Hj'].
        assert (j' = length bucket) by lia. subst j'. contradiction.
      * intros j c Hj. apply lookup_app_Some in Hj.
        destruct Hj as [Hj | [Hge Hj]]; [now apply (IH j c)|].
        destruct (j - length bucket)%nat eqn:E; [|discriminate Hj].
        assert (j = length bucket) by lia. now subst j.
    + apply bool_decide_eq_false in Ecm.
      assert (Hx : (bucket ++ [x]) !! length bucket = Some x).
      { rewrite lookup_app_r by lia. now rewrite Nat.sub_diag. }
      destruct (find_best cm a bucket) as [[[j c] d] |].
      * destruct IH as (Hj & Hn & Hd & Hmin).
        pose proof (lookup_lt_Some _ _ _ Hj) as Hlt.
        destruct (Qltb (Qabs (a - get_amount x)) (Qabs d)) eqn:Elt.
        { apply Qltb_true in Elt.
          split; [exact Hx|]. split; [exact Ecm|]. split; [reflexivity|].
          intros j' c' Hj' Hn'. apply lookup_app_Some in Hj'.
          destruct Hj' as [Hj' | [Hge Hj']].
          - destruct (Hmin j' c' Hj' Hn') as [Hle _].
            generalize dependent (Qabs (a - get_amount x)).
            generalize dependent (Qabs (a - get_amount c')).
            generalize dependent (Qabs d). intros. split; [lra | intros _; lra].
          - destruct (j' - length bucket)%nat eqn:E; [|discriminate Hj'].
            injection Hj' as <-. split; [apply Qle_refl | intros Hlt'; lia]. }
        { apply Qltb_false in Elt.
          split; [now apply lookup_app_l_Some|]. split; [exact Hn|]. split; [exact Hd|].
          intros j' c' Hj' Hn'. apply lookup_app_Some in Hj'.
          destruct Hj' as [Hj' | [Hge Hj']]; [now apply Hmin|].
          destruct (j' - length bucket)%nat eqn:E; [|discriminate Hj'].
          injection Hj' as <-. split; [exact Elt | intros Hlt'; lia]. }
      * split; [exact Hx|]. split; [exact Ecm|]. split; [reflexivity|].
        intros j' c' Hj' Hn'. apply lookup_app_Some in Hj'.
        destruct Hj' as [Hj' | [Hge Hj']]; [exfalso; exact (Hn' (IH j' c' Hj'))|].
        destruct (j' - length bucket)%nat eqn:E; [|discriminate Hj'].
        injection Hj' as <-. split; [apply Qle_refl | intros Hlt'; lia].
Qed.

(** ** Matcher: where the records come from *)

Lemma bucket_append_ok (calc : list LineItem) (it : LineItem)
    (d : list (string * list LineItem)) :
  buckets_of calc d -> In it calc ->
  buckets_of calc (bucket_append (get_charge_type it) it d).
Proof.
  intros Hd Hin. induction Hd as [| [k items] d Hb Hd' IH]; cbn [bucket_append].
  - constructor; [|constructor]. cbn [fst snd]. constructor; [now split | constructor].
  - destruct (String.eqb k (get_charge_type it)) eqn:E.
    + apply String.eqb_eq in E. constructor; [|exact Hd']. cbn [fst snd] in *.
      apply Forall_app. split; [exact Hb|]. constructor; [now split | constructor].
    + constructor; [exact Hb | exact IH].
Qed.

Lemma build_calc_by_type_ok (calc : list LineItem) :
  buckets_of calc (build_calc_by_type calc).
Proof.
  unfold build_calc_by_type.
  assert (G : forall l d, (forall x, In x l -> In x calc) -> buckets_of calc d ->
              buckets_of calc
                (fold_left (fun d it => bucket_append (get_charge_type it) it d) l d)).
  { induction l as [| it l IH]; intros d Hl Hd; cbn [fold_left]; [exact Hd|].
    apply IH; [intros x Hx; apply Hl; now right|].
    apply bucket_append_ok; [exact Hd | apply Hl; now left]. }
  apply G; [auto | constructor].
Qed.

Lemma bucket_get_ok (calc : list LineItem) (d : list (string * list LineItem))
    (ct : string) :
  buckets_of calc d ->
  Forall (fun c => get_charge_type c = ct /\ In c calc) (bucket_get ct d).
Proof.
  induction 1 as [| [k items] d Hb _ IH]; cbn [bucket_get]; [constructor|].
  destruct (String.eqb k ct) eqn:E; [|exact IH].
  apply String.eqb_eq in E. subst k. exact Hb.
Qed.

Lemma find_best_in_bucket (cm : gset nat) (a : Q) (bucket : list LineItem) :
  forall j c d, find_best cm a bucket = Some (j, c, d) -> In c bucket.
Proof.
  induction bucket as [| x bucket IH] using rev_ind; [discriminate|].
  intros j c d. rewrite find_best_snoc. unfold best_step.
  destruct (bool_decide (length bucket ∈ cm)).
  { intros Hb. apply in_or_app. left. exact (IH j c d Hb). }
  destruct (find_best cm a bucket) as [[[j0 c0] d0] |].
  - destruct (Qltb _ _).
    + intros [= <- <- <-]. apply in_or_app. right. now left.
    + intros [= <- <- <-]. apply in_or_app. left. exact (IH j0 c0 d0 eq_refl).
  - intros [= <- <- <-]. apply in_or_app. right. now left.
Qed.

Lemma first_loop_origins (inv calc : list LineItem) (tol : Q)
    (l : list (nat * LineItem)) (st : MatchState) :
  (forall x, In x l -> In (snd x) inv) ->
  Forall (record_origin inv calc tol) (reconciled st) ->
  Forall (record_origin inv calc tol)
         (reconciled (fold_left (match_step (build_calc_by_type calc) tol) l st)).
Proof.
  revert st. induction l as [| [i it] l IH]; intros st Hl Hst; cbn [fold_left]; [exact Hst|].
  apply IH; [intros x Hx; apply Hl; now right|].
  assert (Hit : In it inv) by (apply (Hl (i, it)); now left).
  unfold match_step.
  pose proof (find_best_in_bucket (calculated_matched st) (get_amount it)
                (bucket_get (get_charge_type it) (build_calc_by_type calc))) as Hb.
  destruct (find_best _ _ _) as [[[j c] df] |]; cbn [reconciled]; apply Forall_app;
    (split; [exact Hst|]); (constructor; [|constructor]).
  - pose proof (bucket_get_ok calc _ (get_charge_type it) (build_calc_by_type_ok calc)) as Hg.
    rewrite List.Forall_forall in Hg.
    destruct (Hg c (Hb j c df eq_refl)) as [Hct Hc].
    left. exists it, c. repeat split; assumption.
  - right. left. now exists it.
Qed.

Lemma leftover_origins (inv calc : list LineItem) (tol : Q) (cm : gset nat)
    (d : list (string * list LineItem)) :
  buckets_of calc d ->
  Forall (record_origin inv calc tol) (flat_map (leftover_bucket cm) d).
Proof.
  induction 1 as [| [ct items] d Hb _ IH]; cbn [flat_map]; [constructor|].
  apply Forall_app. split; [|exact IH]. cbn [fst snd] in Hb.
  unfold leftover_bucket, enumerate. generalize 0%nat.
  induction Hb as [| c items [Hct Hc] _ IHb]; intros k; cbn; [constructor|].
  destruct (bool_decide (k ∈ cm)); cbn [app]; [apply IHb|].
  constructor; [|apply IHb]. right. right. exists c. split; [exact Hc|]. now rewrite Hct.
Qed.

Lemma all_record_origins (inv calc : list LineItem) (tol : Q) :
  Forall (record_origin inv calc tol) (_reconcile_line_items inv calc tol).
Proof.
  unfold _reconcile_line_items. cbv zeta. apply Forall_app. split.
  - apply first_loop_origins; [|constructor].
    intros x Hx. rewrite <- (map_snd_enumerate inv). now apply in_map.
  - apply leftover_origins, build_calc_by_type_ok.
Qed.

(** X2.  Every record of [_reconcile_line_items] is built from the inputs in
    one of three ways: from an invoiced item and a calculated item of the
    same charge type, from an invoiced item alone, or from a calculated item
    alone; items of different charge types are never paired. *)
Theorem records_come_from_the_items (inv calc : list LineItem) (tol : Q)
    (r : LineItemReconciliation) :
  In r (_reconcile_line_items inv calc tol) -> record_origin inv calc tol r.
Proof.
  intros Hin. pose proof (all_record_origins inv calc tol) as Hf.
  rewrite List.Forall_forall in Hf. exact (Hf r Hin).
Qed.

Lemma records_come_from_the_items_witness :
  record_origin [item "usage" 50] [item "usage" 48] 1
                (matched_record (item "usage" 50) (item "usage" 48) 1).
Proof.
  apply (records_come_from_the_items [item "usage" 50] [item "usage" 48] 1).
  vm_compute. left. reflexivity.
Defined.

(** X3.  In every record, matched or not, the amount difference is the
    invoiced amount less the calculated amount, an absent side counting as
    zero. *)
Theorem amount_difference_is_invoiced_less_calculated (inv calc : list LineItem)
    (tol : Q) (r : LineItemReconciliation) :
  In r (_reconcile_line_items inv calc tol) ->
  amount_difference r == invoiced_amount r - calculated_amount r.
Proof.
  intros Hin. pose proof (all_record_origins inv calc tol) as Hf.
  rewrite List.Forall_forall in Hf.
  destruct (Hf r Hin)
    as [(i & c & _ & _ & _ & ->) | [(i & _ & ->) | (c & _ & ->)]];
    cbn [amount_difference invoiced_amount calculated_amount matched_record
         missing_calculated_record missing_invoiced_record]; ring.
Qed.

Lemma amount_difference_is_invoiced_less_calculated_witness :
  let r := missing_calculated_record (item "network" 12) in
  amount_difference r == invoiced_amount r - calculated_amount r.
Proof.
  intro r.
  apply (amount_difference_is_invoiced_less_calculated [item "network" 12] [] 1 r).
  vm_compute. left. reflexivity.
Defined.

(** ** Matcher: how many records, and of which items *)

Lemma bucket_append_perm (ct : string) (it : LineItem) (d : list (string * list LineItem)) :
  Permutation (flat_map snd (bucket_append ct it d)) (it :: flat_map snd d).
Proof.
  induction d as [| [k items] d IH]; cbn [bucket_append flat_map snd]; [reflexivity|].
  destruct (String.eqb k ct); cbn [flat_map snd].
  - rewrite <- app_assoc. cbn [app]. symmetry. apply Permutation_middle.
  - rewrite IH. symmetry. apply Permutation_middle.
Qed.

Lemma build_calc_by_type_perm (calc : list LineItem) :
  Permutation (flat_map snd (build_calc_by_type calc)) calc.
Proof.
  unfold build_calc_by_type.
  assert (G : forall l d,
              Permutation
                (flat_map snd (fold_left (fun d it => bucket_append (get_charge_type it) it d) l d))
                (l ++ flat_map snd d)).
  { induction l as [| it l IH]; intros d; cbn [fold_left app]; [reflexivity|].
    rewrite IH, bucket_append_perm. symmetry. apply Permutation_middle. }
  rewrite G. cbn [flat_map]. now rewrite app_nil_r.
Qed.

Lemma leftover_bucket_filter (cm : gset nat) (ct : string) (items : list LineItem) :
  leftover_bucket cm (ct, items)
  = map (fun jc => missing_invoiced_record ct (snd jc))
        (List.filter (untaken cm) (enumerate items)).
Proof.
  unfold leftover_bucket. induction (enumerate items) as [| [j c] l IH]; [reflexivity|].
  cbn [flat_map List.filter]. unfold untaken at 1. cbn [fst snd].
  destruct (bool_decide (j ∈ cm)); cbn [negb app map]; now rewrite IH.
Qed.

Lemma filter_length_le {A : Type} (f : A -> bool) (l : list A) :
  (length (List.filter f l) <= length l)%nat.
Proof.
  induction l as [| x l IH]; [reflexivity|]. cbn [List.filter].
  destruct (f x); cbn [length]; lia.
Qed.

Lemma length_enumerate {A : Type} (l : list A) : length (enumerate l) = length l.
Proof.
  unfold enumerate. rewrite length_combine, length_seq. lia.
Qed.

Lemma leftover_length (cm : gset nat) (d : list (string * list LineItem)) :
  (length (flat_map (leftover_bucket cm) d) <= length (flat_map snd d))%nat.
Proof.
  induction d as [| [ct items] d IH]; [reflexivity|].
  cbn [flat_map snd]. rewrite !length_app, leftover_bucket_filter, length_map.
  pose proof (filter_length_le (untaken cm) (enumerate items)) as Hf.
  rewrite length_enumerate in Hf. lia.
Qed.

(** X4.  There is one record for each invoiced item, and at most one more
    for each calculated item. *)
Theorem record_count_bounds (inv calc : list LineItem) (tol : Q) :
  (length inv <= length (_reconcile_line_items inv calc tol)
   <= length inv + length calc)%nat.
Proof.
  unfold _reconcile_line_items. cbv zeta. rewrite length_app.
  pose proof (first_loop_records inv calc tol) as Hl.
  apply Forall2_length in Hl.
  set (st := fold_left _ _ _) in *.
  pose proof (leftover_length (calculated_matched st) (build_calc_by_type calc)) as Hle.
  rewrite (Permutation_length (build_calc_by_type_perm calc)) in Hle. lia.
Qed.

Lemma first_loop_without_buckets (tol : Q) (l : list (nat * LineItem)) (st : MatchState) :
  fold_left (match_step [] tol) l st
  = {| reconciled := reconciled st ++ map (fun x => missing_calculated_record (snd x)) l;
       invoiced_matched := invoiced_matched st;
       calculated_matched := calculated_matched st |}.
Proof.
  revert st. induction l as [| [i it] l IH]; intros st; cbn [fold_left map].
  - rewrite app_nil_r. now destruct st.
  - rewrite IH. cbn. now rewrite <- app_assoc.
Qed.

Lemma without_calculated_items (inv : list LineItem) (tol : Q) :
  _reconcile_line_items inv [] tol = map missing_calculated_record inv.
Proof.
  unfold _reconcile_line_items. cbv zeta.
  change (build_calc_by_type []) with (@nil (string * list LineItem)).
  rewrite first_loop_without_buckets. cbn [reconciled flat_map app].
  rewrite app_nil_r. rewrite <- (map_snd_enumerate inv) at 2. now rewrite map_map.
Qed.

(** X5.  Without calculated items every invoiced item is reported, in
    order, as MISSING_CALCULATED, with the invoiced amount as the
    difference. *)
Theorem no_calculated_items_all_missing (inv : list LineItem) (tol : Q) :
  _reconcile_line_items inv [] tol = map missing_calculated_record inv /\
  Forall (fun r => status r = MISSING_CALCULATED /\
                   amount_difference r = invoiced_amount r)
         (_reconcile_line_items inv [] tol).
Proof.
  pose proof (without_calculated_items inv tol) as E.
  split; [exact E|]. rewrite E. apply List.Forall_forall. intros r Hr.
  apply in_map_iff in Hr. destruct Hr as (i & <- & _). now split.
Qed.

Lemma leftover_views (calc : list LineItem) (cm : gset nat)
    (d : list (string * list LineItem)) :
  buckets_of calc d ->
  map calculated_view (flat_map (leftover_bucket cm) d)
  = map item_calculated_view
        (flat_map (fun b => map snd (List.filter (untaken cm) (enumerate (snd b)))) d).
Proof.
  induction 1 as [| [ct items] d Hb _ IH]; [reflexivity|].
  cbn [flat_map snd]. rewrite !map_app, IH. f_equal.
  rewrite leftover_bucket_filter, !map_map. cbn [fst snd] in Hb.
  apply map_ext_in. intros [j c] Hin. cbn [snd].
  apply List.filter_In in Hin. destruct Hin as [Hin _].
  assert (Hc : In c items).
  { rewrite <- (map_snd_enumerate items). now apply (in_map snd _ (j, c)). }
  rewrite List.Forall_forall in Hb. destruct (Hb c Hc) as [Hct _].
  unfold calculated_view, item_calculated_view. cbn. now rewrite Hct.
Qed.

Lemma filter_untaken_empty (l : list (nat * LineItem)) :
  List.filter (untaken ∅) l = l.
Proof.
  induction l as [| [j c] l IH]; [reflexivity|].
  cbn [List.filter]. unfold untaken at 1. cbn [fst].
  rewrite bool_decide_eq_false_2 by set_solver. cbn [negb]. now rewrite IH.
Qed.

(** X6.  Without invoiced items every calculated item is reported exactly
    once, as MISSING_INVOICED, the records being grouped by charge type. *)
Theorem no_invoiced_items_all_missing (calc : list LineItem) (tol : Q) :
  Forall (fun r => status r = MISSING_INVOICED) (_reconcile_line_items [] calc tol) /\
  Permutation (map calculated_view (_reconcile_line_items [] calc tol))
              (map item_calculated_view calc).
Proof.
  unfold _reconcile_line_items. cbv zeta. cbn [enumerate length seq combine fold_left
    reconciled calculated_matched app].
  split; [apply leftover_status|].
  rewrite (leftover_views calc ∅ _ (build_calc_by_type_ok calc)).
  apply Permutation_map.
  rewrite <- (build_calc_by_type_perm calc) at 2.
  assert (E : forall d : list (string * list LineItem),
            flat_map (fun b => map snd (List.filter (untaken ∅) (enumerate (snd b)))) d
            = flat_map snd d).
  { induction d as [| b d IH]; [reflexivity|]. cbn [flat_map].
    now rewrite filter_untaken_empty, map_snd_enumerate, IH. }
  now rewrite E.
Qed.

(** ** Matcher: calculated items of one charge type *)

Lemma fold_best_in (cm : gset nat) (a : Q) (E : list (nat * LineItem))
    (best : option (nat * LineItem * Q)) (j : nat) (c : LineItem) (d : Q) :
  fold_left (best_step cm a) E best = Some (j, c, d) ->
  best = Some (j, c, d) \/ (In (j, c) E /\ j ∉ cm).
Proof.
  revert best. induction E as [| [j0 c0] E IH]; intros best; cbn [fold_left]; [now left|].
  intros Hf. destruct (IH _ Hf) as [Hb | [Hin Hn]]; [|right; split; [now right | exact Hn]].
  unfold best_step in Hb.
  destruct (bool_decide (j0 ∈ cm)) eqn:Ecm; [now left|].
  apply bool_decide_eq_false in Ecm.
  destruct best as [[[j1 c1] d1] |].
  - destruct (Qltb _ _); [|now left].
    injection Hb as <- <- <-. right. split; [now left | exact Ecm].
  - injection Hb as <- <- <-. right. split; [now left | exact Ecm].
Qed.

Lemma find_best_untaken (cm : gset nat) (a : Q) (bucket : list LineItem)
    (j : nat) (c : LineItem) (d : Q) :
  find_best cm a bucket = Some (j, c, d) -> In (j, c) (enumerate bucket) /\ j ∉ cm.
Proof.
  intros Hf. destruct (fold_best_in cm a _ None j c d Hf) as [Hb | H]; [discriminate | exact H].
Qed.

Lemma untaken_add_ne (cm : gset nat) (j j0 : nat) (c0 : LineItem) :
  j0 <> j -> untaken ({[ j ]} ∪ cm) (j0, c0) = untaken cm (j0, c0).
Proof.
  intros Hne. unfold untaken. cbn [fst]. f_equal.
  destruct (bool_decide (j0 ∈ cm)) eqn:E1.
  - apply bool_decide_eq_true in E1. apply bool_decide_eq_true_2.
    now apply elem_of_union_r.
  - apply bool_decide_eq_false in E1. apply bool_decide_eq_false_2.
    intros Hin. apply elem_of_union in Hin. destruct Hin as [Hin | Hin]; [|exact (E1 Hin)].
    apply elem_of_singleton in Hin. exact (Hne Hin).
Qed.

Lemma untaken_add_eq (cm : gset nat) (j : nat) (c : LineItem) :
  untaken ({[ j ]} ∪ cm) (j, c) = false.
Proof.
  unfold untaken. cbn [fst]. rewrite bool_decide_eq_true_2; [reflexivity|].
  apply elem_of_union_l. now apply elem_of_singleton.
Qed.

Lemma filter_untaken_other (cm : gset nat) (j : nat) (E : list (nat * LineItem)) :
  ~ In j (map fst E) ->
  List.filter (untaken ({[ j ]} ∪ cm)) E = List.filter (untaken cm) E.
Proof.
  induction E as [| [j0 c0] E IH]; intros Hn; [reflexivity|].
  cbn [List.filter]. rewrite IH by (intros Hin; apply Hn; now right).
  assert (Hne : j0 <> j) by (intros ->; apply Hn; now left).
  now rewrite (untaken_add_ne cm j j0 c0 Hne).
Qed.

Lemma filter_untaken_take (cm : gset nat) (j : nat) (c : LineItem)
    (E : list (nat * LineItem)) :
  List.NoDup (map fst E) -> In (j, c) E -> j ∉ cm ->
  Permutation (List.filter (untaken cm) E)
              ((j, c) :: List.filter (untaken ({[ j ]} ∪ cm)) E).
Proof.
  induction E as [| [j0 c0] E IH]; intros Hnd Hin Hn; [destruct Hin|].
  cbn [map fst] in Hnd. apply List.NoDup_cons_iff in Hnd. destruct Hnd as [Hj0 Hnd].
  cbn [List.filter]. destruct Hin as [Heq | Hin].
  - injection Heq as -> ->. rewrite (filter_untaken_other cm j E Hj0).
    rewrite untaken_add_eq. unfold untaken. cbn [fst].
    rewrite (bool_decide_eq_false_2 (j ∈ cm)) by exact Hn.
    reflexivity.
  - assert (Hne : j0 <> j).
    { intros ->. apply Hj0. now apply (in_map fst _ (j, c)). }
    specialize (IH Hnd Hin Hn). rewrite (untaken_add_ne cm j j0 c0 Hne).
    destruct (untaken cm (j0, c0)); [|exact IH].
    rewrite IH. apply perm_swap.
Qed.

Lemma map_fst_enumerate {A : Type} (l : list A) :
  map fst (enumerate l) = seq 0 (length l).
Proof.
  unfold enumerate. generalize 0%nat. induction l as [| a l IH]; intros n; [reflexivity|].
  cbn. now rewrite IH.
Qed.

Lemma build_one_type (ct0 : string) (calc : list LineItem) :
  (forall c, In c calc -> get_charge_type c = ct0) ->
  build_calc_by_type calc = match calc with [] => [] | _ => [(ct0, calc)] end.
Proof.
  intros Hct. unfold build_calc_by_type.
  assert (G : forall l acc, (forall c, In c l -> get_charge_type c = ct0) ->
              fold_left (fun d it => bucket_append (get_charge_type it) it d) l [(ct0, acc)]
              = [(ct0, acc ++ l)]).
  { induction l as [| it l IH]; intros acc Hl; cbn [fold_left].
    - now rewrite app_nil_r.
    - cbn [bucket_append]. rewrite (Hl it) by now left. rewrite String.eqb_refl.
      rewrite IH by (intros c Hc; apply Hl; now right).
      now rewrite <- app_assoc. }
  destruct calc as [| it calc]; [reflexivity|].
  cbn [fold_left bucket_append]. rewrite (Hct it) by now left.
  rewrite G by (intros c Hc; apply Hct; now right). reflexivity.
Qed.

Lemma matched_record_has_calculated (i c : LineItem) (tol : Q) :
  has_calculated (matched_record i c tol) = true.
Proof.
  unfold has_calculated. cbn [status matched_record].
  destruct (classify_cases (pct_diff_of (get_amount i - get_amount c) (get_amount c)) tol)
    as [E | [E | E]]; now rewrite E.
Qed.

Lemma one_bucket_loop (ct0 : string) (calc : list LineItem) (tol : Q)
    (l : list (nat * LineItem)) (st : MatchState) :
  (forall c, In c calc -> get_charge_type c = ct0) ->
  Permutation
    (map calculated_view (List.filter has_calculated (reconciled st)) ++
     map (fun jc => item_calculated_view (snd jc))
         (List.filter (untaken (calculated_matched st)) (enumerate calc)))
    (map item_calculated_view calc) ->
  let st' := fold_left (match_step [(ct0, calc)] tol) l st in
  Permutation
    (map calculated_view (List.filter has_calculated (reconciled st')) ++
     map (fun jc => item_calculated_view (snd jc))
         (List.filter (untaken (calculated_matched st')) (enumerate calc)))
    (map item_calculated_view calc).
Proof.
  intros Hct. revert st. induction l as [| [i it] l IH]; intros st Hst; cbn [fold_left];
    [exact Hst|].
  apply IH. unfold match_step. cbn [bucket_get].
  destruct (find_best _ _ _) as [[[j c] df] |] eqn:Ef; cbn [reconciled calculated_matched].
  - destruct (String.eqb ct0 (get_charge_type it)) eqn:Et; [|discriminate Ef].
    apply String.eqb_eq in Et.
    destruct (find_best_untaken _ _ _ j c df Ef) as [Hin Hn].
    assert (Hc : In c calc).
    { rewrite <- (map_snd_enumerate calc). now apply (in_map snd _ (j, c)). }
    rewrite List.filter_app, map_app. cbn [List.filter].
    rewrite (matched_record_has_calculated it c tol).
    cbn [map]. rewrite <- Hst.
    rewrite (filter_untaken_take (calculated_matched st) j c (enumerate calc));
      [| rewrite map_fst_enumerate; apply List.seq_NoDup | exact Hin | exact Hn].
    cbn [map snd]. rewrite <- app_assoc. cbn [app].
    apply Permutation_app_head.
    replace (calculated_view (matched_record it c tol)) with (item_calculated_view c);
      [reflexivity|].
    unfold calculated_view, item_calculated_view. cbn. now rewrite <- Et, (Hct c Hc).
  - rewrite List.filter_app, map_app. cbn. rewrite app_nil_r. exact Hst.
Qed.

(** X7.  When all calculated items are of one charge type, every one of
    them is in exactly one record: paired with an invoiced item, or reported
    alone. *)
Theorem one_charge_type_keeps_every_calculated_item (ct0 : string)
    (inv calc : list LineItem) (tol : Q) :
  (forall c, In c calc -> get_charge_type c = ct0) ->
  Permutation
    (map calculated_view (List.filter has_calculated (_reconcile_line_items inv calc tol)))
    (map item_calculated_view calc).
Proof.
  intros Hct. destruct calc as [| c0 calc'].
  { rewrite without_calculated_items.
    induction inv as [| i inv IH]; [reflexivity | exact IH]. }
  pose proof (build_one_type ct0 (c0 :: calc') Hct) as Hb. cbv iota in Hb.
  generalize dependent (c0 :: calc'). intros calc Hct Hb.
  unfold _reconcile_line_items. cbv zeta. rewrite Hb.
  pose proof (one_bucket_loop ct0 calc tol (enumerate inv) (mkMatchState [] ∅ ∅) Hct) as Hl.
  cbv zeta in Hl. cbn [reconciled calculated_matched List.filter map app] in Hl.
  rewrite filter_untaken_empty in Hl.
  specialize (Hl ltac:(rewrite <- map_map, map_snd_enumerate; reflexivity)).
  set (st := fold_left _ _ _) in *.
  rewrite List.filter_app, map_app. cbn [flat_map]. rewrite app_nil_r.
  rewrite leftover_bucket_filter.
  assert (Hkeep : forall l : list (nat * LineItem),
            List.filter has_calculated
              (map (fun jc => missing_invoiced_record ct0 (snd jc)) l)
            = map (fun jc => missing_invoiced_record ct0 (snd jc)) l).
  { induction l as [| x l IHl]; [reflexivity|]. cbn. now rewrite IHl. }
  rewrite Hkeep, map_map. rewrite <- Hl. apply Permutation_app_head.
  apply Permutation_refl'. apply map_ext_in. intros [j c] Hin.
  apply List.filter_In in Hin. destruct Hin as [Hin _].
  assert (Hc : In c calc).
  { rewrite <- (map_snd_enumerate calc). now apply (in_map snd _ (j, c)). }
  unfold calculated_view, item_calculated_view. cbn. now rewrite (Hct c Hc).
Qed.

Lemma one_charge_type_keeps_every_calculated_item_witness :
  let inv := [item "usage" 50; item "supply" 5] in
  let calc := [item "usage" 48; item "usage" 52] in
  Permutation
    (map calculated_view (List.filter has_calculated (_reconcile_line_items inv calc 1)))
    (map item_calculated_view calc).
Proof.
  intros inv calc.
  apply (one_charge_type_keeps_every_calculated_item "usage" inv calc 1).
  intros c [<- | [<- | []]]; reflexivity.
Defined.

(** ** Reconciliation: what a summary guarantees *)

Lemma count_zero_none (p : DiscrepancyStatus -> bool) (rs : list LineItemReconciliation) :
  count_status p rs = 0%nat -> Forall (fun r => p (status r) = false) rs.
Proof.
  unfold count_status. induction rs as [| r rs IH]; intros Hc; [constructor|].
  cbn [List.filter] in Hc. destruct (p (status r)) eqn:E; [discriminate Hc|].
  constructor; [exact E | exact (IH Hc)].
Qed.

Lemma overall_match_counts (significant minor missing : nat) (tp tol : Q) :
  overall_status_of significant minor missing tp tol = MATCH ->
  significant = 0%nat /\ minor = 0%nat /\ missing = 0%nat /\
  Qabs tp <= 5 /\ Qabs tp <= tol.
Proof.
  unfold overall_status_of.
  destruct (0 <? significant)%nat eqn:Es; [discriminate|].
  destruct (Qltb 5 (Qabs tp)) eqn:E5; [discriminate|]. cbn [orb].
  destruct (0 <? minor)%nat eqn:Em; [discriminate|].
  destruct (0 <? missing)%nat eqn:Ei; [discriminate|].
  destruct (Qltb tol (Qabs tp)) eqn:Et; [discriminate|]. intros _.
  apply Nat.ltb_ge in Es, Em, Ei. apply Qltb_false in E5, Et.
  repeat split; try lia; assumption.
Qed.

Section SummaryGuarantees.
Context {rt : PyRuntime}.

(** X8.  In every summary the four counters add up to the number of
    records; and an overall status of MATCH means that every record is a
    MATCH, none being missing, and that the totals differ by no more than the
    tolerance and no more than 5 percent. *)
Theorem summary_counts_and_overall_match (parsed : option ParsedInvoice)
    (data : option FileData) (today : string) (code : option string) (tol : Q)
    (s : ReconciliationSummary) :
  reconcile parsed data today code tol = Ok s ->
  (matched_items s + minor_discrepancies s + significant_discrepancies s
   + missing_items s = length (rs_line_items s))%nat /\
  (overall_status s = MATCH ->
   Forall (fun r => status r = MATCH) (rs_line_items s) /\
   Qabs (pct_diff_of (total_difference s) (calculated_total s)) <= tol /\
   Qabs (pct_diff_of (total_difference s) (calculated_total s)) <= 5).
Proof.
  unfold reconcile. destruct parsed as [p |]; [|discriminate].
  intros Hr. bind_inv Hr. injection Hr as <-.
  cbn [matched_items minor_discrepancies significant_discrepancies missing_items
       rs_line_items overall_status total_difference calculated_total].
  set (records := _reconcile_line_items (p_line_items p) (c_line_items a) tol).
  split; [apply status_counts_partition|].
  intros Hm. apply overall_match_counts in Hm.
  destruct Hm as (Hs & Hmi & Hmiss & H5 & Ht).
  split; [|split; assumption].
  apply count_zero_none in Hs, Hmi, Hmiss.
  rewrite List.Forall_forall in *. intros r Hin.
  specialize (Hs r Hin). specialize (Hmi r Hin). specialize (Hmiss r Hin).
  unfold is_missing in Hmiss. destruct (status r); try reflexivity; discriminate.
Qed.

End SummaryGuarantees.

Lemma round_half_even_bounds (q : Q) (a b : Z) :
  inject_Z a <= q -> q <= inject_Z b ->
  (a <= round_half_even q <= b)%Z.
Proof.
  intros Ha Hb. pose proof (round_half_even_error q) as He.
  apply Qabs_Qle_condition in He. destruct He as [Hlo Hhi].
  split.
  - assert (H : inject_Z (a - 1) < inject_Z (round_half_even q)).
    { replace (a - 1)%Z with (a + -1)%Z by lia.
      rewrite inject_Z_plus. change (inject_Z (-1)) with (- (1)).
      generalize dependent (inject_Z (round_half_even q)).
      generalize dependent (inject_Z a). intros. lra. }
    rewrite <- Zlt_Qlt in H. lia.
  - assert (H : inject_Z (round_half_even q) < inject_Z (b + 1)).
    { rewrite inject_Z_plus. change (inject_Z 1) with 1.
      generalize dependent (inject_Z (round_half_even q)).
      generalize dependent (inject_Z b). intros. lra. }
    rewrite <- Zlt_Qlt in H. lia.
Qed.

Lemma round2_unit_interval (q : Q) : 0 <= q -> q <= 1 -> 0 <= round2 q /\ round2 q <= 1.
Proof.
  intros H0 H1. unfold round2.
  destruct (round_half_even_bounds (q * 100) 0 100) as [Hlo Hhi].
  { change (inject_Z 0) with 0. lra. }
  { change (inject_Z 100) with 100. lra. }
  rewrite Zle_Qle in Hlo, Hhi.
  change (inject_Z 0) with 0 in Hlo. change (inject_Z 100) with 100 in Hhi.
  generalize dependent (inject_Z (round_half_even (q * 100))). intros y Hlo Hhi.
  unfold Qdiv. change (/ 100) with (1 # 100). split; lra.
Qed.

Lemma ilog2_unit (q : Q) : 0 < q -> q <= 1 -> (ilog2 q <= 0)%Z.
Proof.
  destruct q as [n d]. unfold Qlt, Qle, ilog2. cbn [Qnum Qden]. intros Hpos Hle.
  assert (Hn : (0 < n)%Z) by lia.
  assert (Hnd : (n <= Z.pos d)%Z) by lia.
  pose proof (Z.log2_le_mono n (Z.pos d) Hnd) as Hl.
  destruct (Qle_bool _ _); lia.
Qed.

(** The float nearest to a number between 0 and 1 lies between 0 and 1. *)
Lemma fl_unit_interval (q : Q) : 0 <= q -> q <= 1 -> 0 <= fl q /\ fl q <= 1.
Proof.
  intros H0 H1. unfold fl.
  destruct (Qeq_bool q 0) eqn:Ez; [split; [apply Qle_refl | discriminate]|].
  assert (Hpos : 0 < q).
  { apply Qle_lt_or_eq in H0. destruct H0 as [H0 | H0]; [exact H0|].
    assert (Et : Qeq_bool q 0 = true) by (apply Qeq_bool_iff; now symmetry).
    congruence. }
  assert (Ha : Qabs q == q) by (apply Qabs_pos; exact H0).
  assert (Hb : Qle_bool 0 q = true) by (now apply Qle_bool_iff).
  rewrite Hb. cbv zeta.
  assert (Hl : (ilog2 (Qabs q) <= 0)%Z).
  { apply ilog2_unit; rewrite Ha; assumption. }
  set (e := Z.max (ilog2 (Qabs q) - 52) (-1074)).
  assert (He : (e < 0)%Z) by (unfold e; lia).
  unfold pow2. destruct (0 <=? e)%Z eqn:Ee; [apply Z.leb_le in Ee; lia|].
  set (K := (2 ^ (- e))%Z).
  assert (HK : (0 < K)%Z) by (unfold K; apply Z.pow_pos_nonneg; lia).
  assert (HKq : 0 < inject_Z K) by (change 0 with (inject_Z 0); now rewrite <- Zlt_Qlt).
  assert (Hx : Qabs q / / inject_Z K == q * inject_Z K).
  { rewrite Ha. field. intros Hc. rewrite Hc in HKq. now apply Qlt_irrefl in HKq. }
  destruct (round_half_even_bounds (Qabs q / / inject_Z K) 0 K) as [Hlo Hhi].
  { rewrite Hx. change (inject_Z 0) with 0. apply Qmult_le_0_compat; [exact H0|].
    now apply Qlt_le_weak. }
  { rewrite Hx. rewrite <- (Qmult_1_l (inject_Z K)) at 2.
    apply Qmult_le_compat_r; [exact H1 | now apply Qlt_le_weak]. }
  rewrite Qred_correct.
  rewrite Zle_Qle in Hlo, Hhi. change (inject_Z 0) with 0 in Hlo.
  set (m := inject_Z (round_half_even (Qabs q / / inject_Z K))) in *.
  split.
  - apply Qmult_le_0_compat; [exact Hlo|]. apply Qlt_le_weak, Qinv_lt_0_compat, HKq.
  - change (m / inject_Z K <= 1).
    apply Qle_shift_div_r; [exact HKq|]. now rewrite Qmult_1_l.
Qed.

Lemma confidence_of_unit_interval (matched total_items : nat) :
  (matched <= total_items)%nat ->
  0 <= confidence_of matched total_items /\ confidence_of matched total_items <= 1.
Proof.
  intros Hle. unfold confidence_of.
  destruct (0 <? total_items)%nat eqn:E; [|split; [apply Qle_refl | discriminate]].
  apply Nat.ltb_lt in E.
  assert (Ht : 0 < inject_Z (Z.of_nat total_items)).
  { change 0 with (inject_Z 0). rewrite <- Zlt_Qlt. lia. }
  assert (Hm : 0 <= inject_Z (Z.of_nat matched)).
  { change 0 with (inject_Z 0). rewrite <- Zle_Qle. lia. }
  assert (Hmt : inject_Z (Z.of_nat matched) <= inject_Z (Z.of_nat total_items)).
  { rewrite <- Zle_Qle. lia. }
  apply fl_unit_interval.
  - apply Qle_shift_div_l; [exact Ht|]. now rewrite Qmult_0_l.
  - apply Qle_shift_div_r; [exact Ht|]. now rewrite Qmult_1_l.
Qed.

Section ConfidenceRange.
Context {rt : PyRuntime}.

(** X9.  The confidence score of a summary lies between 0 and 1. *)
Theorem confidence_score_in_unit_interval (parsed : option ParsedInvoice)
    (data : option FileData) (today : string) (code : option string) (tol : Q)
    (s : ReconciliationSummary) :
  reconcile parsed data today code tol = Ok s ->
  0 <= confidence_score s /\ confidence_score s <= 1.
Proof.
  unfold reconcile. destruct parsed as [p |]; [|discriminate].
  intros Hr. bind_inv Hr. injection Hr as <-. cbn [confidence_score].
  set (records := _reconcile_line_items (p_line_items p) (c_line_items a) tol).
  destruct (confidence_of_unit_interval
              (count_status (fun st => status_eqb st MATCH) records) (length records))
    as [H0 H1].
  { unfold count_status. apply filter_length_le. }
  now apply round2_unit_interval.
Qed.

End ConfidenceRange.

Lemma summary_counts_and_overall_match_witness :
  exists s,
    reconcile (Some three_item_invoice) (stored_after one_day_file)
              "2024-02-01" None 1 = Ok s /\
    (matched_items s + minor_discrepancies s + significant_discrepancies s
     + missing_items s = length (rs_line_items s))%nat /\
    (overall_status s = MATCH ->
     Forall (fun r => status r = MATCH) (rs_line_items s) /\
     Qabs (pct_diff_of (total_difference s) (calculated_total s)) <= 1 /\
     Qabs (pct_diff_of (total_difference s) (calculated_total s)) <= 5).
Proof.
  eexists. split.
  - vm_compute. reflexivity.
  - apply (summary_counts_and_overall_match (Some three_item_invoice)
             (stored_after one_day_file) "2024-02-01" None 1).
    vm_compute. reflexivity.
Defined.

Lemma confidence_score_in_unit_interval_witness :
  exists s,
    reconcile (Some three_item_invoice) (stored_after one_day_file)
              "2024-02-01" None 1 = Ok s /\
    0 <= confidence_score s /\ confidence_score s <= 1.
Proof.
  eexists. split.
  - vm_compute. reflexivity.
  - apply (confidence_score_in_unit_interval (Some three_item_invoice)
             (stored_after one_day_file) "2024-02-01" None 1).
    vm_compute. reflexivity.
Defined.

(** ** Interval store: the readings of a day block *)

Section DayBlockReadings.
Context {rt : PyRuntime}.

Lemma window_readings_shape (d : Z) (u : string) (w : list string) (k : nat) :
  Forall (fun iv =>
            i_date iv = d /\ i_unit iv = u /\
            (Z.of_nat k + 1 <= i_interval iv <= Z.of_nat k + Z.of_nat (length w))%Z /\
            exists f, w !! (Z.to_nat (i_interval iv - 1) - k)%nat = Some f /\
                      float_of_str f = Some (i_value iv))
         (window_readings d u k w).
Proof.
  revert k. induction w as [| f w IH]; intros k; cbn [window_readings]; [constructor|].
  assert (Htail : Forall (fun iv =>
            i_date iv = d /\ i_unit iv = u /\
            (Z.of_nat k + 1 <= i_interval iv <= Z.of_nat k + Z.of_nat (length (f :: w)))%Z /\
            exists f0, (f :: w) !! (Z.to_nat (i_interval iv - 1) - k)%nat = Some f0 /\
                       float_of_str f0 = Some (i_value iv))
           (window_readings d u (S k) w)).
  { eapply Forall_impl; [apply (IH (S k))|]. cbn beta.
    intros iv (Hd & Hu & Hb & f0 & Hf0 & Hv). cbn [length].
    split; [exact Hd|]. split; [exact Hu|]. split; [lia|].
    exists f0. split; [|exact Hv].
    replace (Z.to_nat (i_interval iv - 1) - k)%nat
      with (S (Z.to_nat (i_interval iv - 1) - S k)) by lia.
    exact Hf0. }
  destruct (float_of_str f) as [v |] eqn:Ef; [|exact Htail].
  constructor; [|exact Htail]. cbn [i_date i_unit i_interval i_value length].
  split; [reflexivity|]. split; [reflexivity|]. split; [lia|].
  exists f. split; [|exact Ef].
  replace (Z.to_nat (Z.of_nat k + 1 - 1) - k)%nat with 0%nat by lia. reflexivity.
Qed.

Lemma window_readings_increasing (d : Z) (u : string) (w : list string) (k : nat) :
  StronglySorted Z.lt (map i_interval (window_readings d u k w)).
Proof.
  revert k. induction w as [| f w IH]; intros k; cbn [window_readings]; [constructor|].
  destruct (float_of_str f) as [v |]; [|apply IH].
  cbn [map i_interval]. constructor; [apply IH|].
  apply List.Forall_forall. intros i Hi. apply in_map_iff in Hi.
  destruct Hi as (iv & <- & Hin).
  pose proof (window_readings_shape d u w (S k)) as Hs.
  rewrite List.Forall_forall in Hs. destruct (Hs iv Hin) as (_ & _ & Hb & _). lia.
Qed.

(** X10.  Each reading of a day block carries the date of the block and the
    unit of the channel; its interval number [n] lies between 1 and
    1440 / interval_length and its value is the number read from field
    [n + 1] of the row; the readings come in increasing interval number. *)
Theorem day_block_reading_positions (fields : list string) (meter : Meter) (d : Z)
    (intervals : list Interval) (meter' : Meter) :
  (0 < interval_length meter)%Z ->
  strptime_Ymd (field_or fields 1 "") = Some d ->
  _parse_300_record fields meter = Ok (intervals, meter') ->
  Forall (fun iv =>
            i_date iv = d /\ i_unit iv = unit_of_measure meter /\
            (1 <= i_interval iv <= 1440 / interval_length meter)%Z /\
            exists f, fields !! Z.to_nat (i_interval iv + 1) = Some f /\
                      float_of_str f = Some (i_value iv))
         intervals /\
  StronglySorted Z.lt (map i_interval intervals).
Proof.
  intros Hpos Hd. rewrite (parse_300_ok fields meter d ltac:(lia) Hd). cbv zeta.
  intros [= <- _]. split; [|apply window_readings_increasing].
  eapply Forall_impl; [apply window_readings_shape|]. cbn beta.
  intros iv (Hdt & Hu & Hb & f & Hf & Hv).
  assert (Hq : (0 <= 1440 / interval_length meter)%Z) by (apply Z.div_pos; lia).
  assert (Hlen : (length (day_window (interval_length meter) fields)
                  <= Z.to_nat (1440 / interval_length meter))%nat).
  { unfold day_window. rewrite length_take. lia. }
  split; [exact Hdt|]. split; [exact Hu|]. split; [lia|].
  exists f. split; [|exact Hv].
  unfold day_window in Hf. apply lookup_take_Some in Hf. destruct Hf as [Hf _].
  rewrite lookup_drop in Hf.
  replace (Z.to_nat (i_interval iv + 1))
    with (2 + (Z.to_nat (i_interval iv - 1) - 0))%nat by lia.
  exact Hf.
Qed.

End DayBlockReadings.

Lemma day_block_reading_positions_witness :
  let fields := ["300"; "20240101"; "1.5"; "bad"; ""; "2.25"]%string in
  let result := window_readings 738886 "kWh" 0 (day_window 30 fields) in
  Forall (fun iv =>
            i_date iv = 738886%Z /\ i_unit iv = unit_of_measure sample_meter /\
            (1 <= i_interval iv <= 1440 / interval_length sample_meter)%Z /\
            exists f, fields !! Z.to_nat (i_interval iv + 1) = Some f /\
                      float_of_str f = Some (i_value iv))
         result /\
  StronglySorted Z.lt (map i_interval result).
Proof.
  intros fields result.
  apply (day_block_reading_positions fields sample_meter 738886 result
           (set_dates_total (Some 738886%Z) (Some 738886%Z)
              (add_values 0 result) sample_meter)).
  - reflexivity.
  - reflexivity.
  - vm_compute. reflexivity.
Defined.

(** ** Interval store: the date range of a channel *)

Lemma spans_step (sd ed : option Z) (days : list Z) (d : Z) :
  spans sd ed days -> spans (update_start d sd) (update_end d ed) (days ++ [d]).
Proof.
  destruct days as [| d0 days]; cbn [spans app].
  - intros [-> ->]. exists d, d. cbn [update_start update_end].
    split; [reflexivity|]. split; [reflexivity|]. split; [now left|]. split; [now left|].
    intros d' [<- | []]. lia.
  - intros (s & e & -> & -> & Hs & He & Hall). cbn [update_start update_end].
    change (d0 :: days ++ [d]) with ((d0 :: days) ++ [d]).
    exists (if (d <? s)%Z then d else s), (if (e <? d)%Z then d else e).
    split; [now destruct (d <? s)%Z|]. split; [now destruct (e <? d)%Z|].
    split.
    { destruct (d <? s)%Z; apply in_or_app; [right; now left | now left]. }
    split.
    { destruct (e <? d)%Z; apply in_or_app; [right; now left | now left]. }
    intros d' Hd'. apply in_app_or in Hd'.
    destruct (d <? s)%Z eqn:E1; [apply Z.ltb_lt in E1 | apply Z.ltb_ge in E1];
    (destruct (e <? d)%Z eqn:E2; [apply Z.ltb_lt in E2 | apply Z.ltb_ge in E2]);
    (destruct Hd' as [Hd' | [<- | []]]; [specialize (Hall d' Hd')|]); lia.
Qed.

Section DateRange.
Context {rt : PyRuntime}.

Lemma parse_300_dates (fields : list string) (m : Meter) (im : list Interval * Meter) :
  _parse_300_record fields m = Ok im ->
  match strptime_Ymd (field_or fields 1 "") with
  | None => snd im = m
  | Some d =>
      start_date (snd im) = update_start d (start_date m) /\
      end_date (snd im) = update_end d (end_date m)
  end.
Proof.
  unfold _parse_300_record.
  destruct (interval_length m =? 0)%Z; [discriminate|].
  destruct (strptime_Ymd (field_or fields 1 "")) as [d |].
  - rewrite reading_loop. cbv zeta. cbn [fst snd app]. intros [= <-]. now split.
  - now intros [= <-].
Qed.

Lemma day_rows_span (rows : list (list string)) (st st' : ParseState) (c : nat)
    (m : Meter) (seen : list Z) :
  current_meter st = Some c -> heap st !! c = Some m ->
  spans (start_date m) (end_date m) seen ->
  forallb is_day_row rows = true ->
  process_rows st rows = Ok st' ->
  exists m', current_meter st' = Some c /\ heap st' !! c = Some m' /\
             spans (start_date m') (end_date m')
                   (seen ++ omap (fun f => strptime_Ymd (field_or f 1 "")) rows).
Proof.
  revert st m seen. induction rows as [| f rows IH]; intros st m seen Hc Hm Hs Hall;
    cbn [process_rows].
  - intros [= <-]. exists m. rewrite app_nil_r. now repeat split.
  - cbn [forallb] in Hall. apply andb_true_iff in Hall. destruct Hall as [Hf Hall].
    unfold is_day_row in Hf. apply String.eqb_eq in Hf.
    unfold process_fields. rewrite Hf. cbn [String.eqb Ascii.eqb Bool.eqb andb].
    rewrite Hc, Hm.
    destruct (_parse_300_record f m) as [im | e] eqn:Ep; cbn [rbind]; [|discriminate].
    intros Hrest.
    pose proof (parse_300_dates f m im Ep) as Hd.
    pose proof (lookup_lt_Some _ _ _ Hm) as Hlt.
    assert (Hs1 : spans (start_date (snd im)) (end_date (snd im))
                    (seen ++ match strptime_Ymd (field_or f 1 "") with
                             | Some d => [d] | None => [] end)).
    { destruct (strptime_Ymd (field_or f 1 "")) as [d |].
      - destruct Hd as [-> ->]. now apply spans_step.
      - rewrite Hd, app_nil_r. exact Hs. }
    match type of Hrest with
    | process_rows ?st1 _ = _ =>
        assert (Hc1 : current_meter st1 = Some c) by reflexivity;
        assert (Hm1 : heap st1 !! c = Some (snd im))
          by (cbn [heap]; apply list_lookup_insert_eq; exact Hlt);
        destruct (IH st1 (snd im) _ Hc1 Hm1 Hs1 Hall Hrest) as (m' & Hc' & Hm' & Hs')
    end.
    exists m'. split; [exact Hc'|]. split; [exact Hm'|].
    cbn [omap list_omap]. fold (omap (fun f => strptime_Ymd (field_or f 1 "")) rows).
    destruct (strptime_Ymd (field_or f 1 "")) as [d |];
      rewrite <- app_assoc in Hs'; exact Hs'.
Qed.

(** X11.  After a channel row and the day blocks that follow it, the date
    range of the channel is that of the days whose date parsed: absent when
    there is none, and otherwise from the earliest to the latest of them. *)
Theorem channel_date_range (st st' : ParseState) (row : list string)
    (days : list (list string)) :
  is_channel_row row = true ->
  forallb is_day_row days = true ->
  process_rows st (row :: days) = Ok st' ->
  exists c m', current_meter st' = Some c /\ heap st' !! c = Some m' /\
               spans (start_date m') (end_date m')
                     (omap (fun f => strptime_Ymd (field_or f 1 "")) days).
Proof.
  intros Hrow Hdays. cbn [process_rows]. unfold process_fields at 1.
  unfold is_channel_row in Hrow. apply String.eqb_eq in Hrow. rewrite Hrow.
  cbn [String.eqb Ascii.eqb Bool.eqb andb].
  destruct (_parse_200_record row) as [m | e] eqn:Em; cbn [rbind]; [|discriminate].
  intros Hrest.
  assert (Hdates : start_date m = None /\ end_date m = None).
  { unfold _parse_200_record in Em. bind_inv Em. injection Em as <-. now split. }
  destruct Hdates as [Hsd Hed].
  match type of Hrest with
  | process_rows ?st1 _ = _ =>
      assert (Hc1 : current_meter st1 = Some (length (heap (finalize st))))
        by reflexivity;
      assert (Hm1 : heap st1 !! length (heap (finalize st)) = Some m)
        by (cbn [heap]; rewrite lookup_app_r by lia; now rewrite Nat.sub_diag);
      assert (Hs1 : spans (start_date m) (end_date m) [])
        by (rewrite Hsd, Hed; now split);
      destruct (day_rows_span days st1 st' _ m [] Hc1 Hm1 Hs1 Hdays Hrest)
        as (m' & Hc & Hm & Hs)
  end.
  eexists. exists m'. split; [exact Hc|]. split; [exact Hm | exact Hs].
Qed.

(** X12.  Rows that come before the first channel row leave no trace: the
    file is processed as if they were not there. *)
Theorem rows_before_first_channel_are_ignored (pre rest : list (list string)) :
  forallb (fun f => negb (is_channel_row f)) pre = true ->
  process_rows initial_state (pre ++ rest) = process_rows initial_state rest.
Proof.
  induction pre as [| f pre IH]; intros Hpre; [reflexivity|].
  cbn [forallb] in Hpre. apply andb_true_iff in Hpre. destruct Hpre as [Hf Hpre].
  cbn [app process_rows].
  assert (E : process_fields initial_state f = Ok initial_state).
  { unfold process_fields. unfold is_channel_row in Hf. apply negb_true_iff in Hf.
    rewrite Hf.
    destruct (String.eqb (field_or f 0 "") "100"); [reflexivity|].
    destruct (String.eqb (field_or f 0 "") "300"); [reflexivity|].
    destruct (String.eqb (field_or f 0 "") "400"); [reflexivity|].
    destruct (String.eqb (field_or f 0 "") "900"); reflexivity. }
  rewrite E. cbn [rbind]. exact (IH Hpre).
Qed.

(** X13.  A channel whose row is followed by neither another channel row
    nor a terminator is not in the list of meters: the list is the one of the
    file cut before that row and closed by a terminator. *)
Theorem channel_without_terminator_is_dropped (pre post : list (list string))
    (row : list string) (st : ParseState) :
  is_channel_row row = true ->
  forallb keeps_channel_open post = true ->
  process_rows initial_state (pre ++ row :: post) = Ok st ->
  exists st_cut,
    process_rows initial_state (pre ++ [["900"%string]]) = Ok st_cut /\
    fd_meters (file_data_of st) = fd_meters (file_data_of st_cut).
Proof.
  intros Hrow Hpost Hst.
  destruct (unterminated_channel_omitted pre post row st Hrow Hpost Hst)
    as (st_pre & Epre & Hm & _ & Hfd).
  exists (finalize st_pre). split; [|exact Hfd].
  rewrite process_rows_app, Epre. reflexivity.
Qed.

End DateRange.

Lemma channel_date_range_witness :
  exists st',
    process_rows initial_state (channel_row_e1 :: three_day_rows) = Ok st' /\
    exists c m', current_meter st' = Some c /\ heap st' !! c = Some m' /\
                 spans (start_date m') (end_date m')
                       (omap (fun f => strptime_Ymd (field_or f 1 "")) three_day_rows).
Proof.
  eexists. split.
  - vm_compute. reflexivity.
  - apply (channel_date_range initial_state _ channel_row_e1 three_day_rows).
    + reflexivity.
    + reflexivity.
    + vm_compute. reflexivity.
Defined.

Lemma rows_before_first_channel_are_ignored_witness :
  process_rows initial_state
    ([["100"; "NEM12"]; ["300"; "20240101"; "5.0"]; ["900"]]%string
     ++ channel_row_e1 :: three_day_rows)
  = process_rows initial_state (channel_row_e1 :: three_day_rows).
Proof.
  apply (rows_before_first_channel_are_ignored
           [["100"; "NEM12"]; ["300"; "20240101"; "5.0"]; ["900"]]%string
           (channel_row_e1 :: three_day_rows)).
  reflexivity.
Defined.

Lemma channel_without_terminator_is_dropped_witness :
  exists st,
    process_rows initial_state
      ((channel_row_e1 :: three_day_rows) ++ channel_row_b1 :: three_day_rows) = Ok st /\
    exists st_cut,
      process_rows initial_state
        ((channel_row_e1 :: three_day_rows) ++ [["900"%string]]) = Ok st_cut /\
      fd_meters (file_data_of st) = fd_meters (file_data_of st_cut).
Proof.
  eexists. split.
  - vm_compute. reflexivity.
  - apply (channel_without_terminator_is_dropped
             (channel_row_e1 :: three_day_rows) three_day_rows channel_row_b1).
    + reflexivity.
    + reflexivity.
    + vm_compute. reflexivity.
Defined.

(** ** Interval store: the peak window in interval numbers *)

(** X15.  For an interval length that divides the hour, the peak intervals
    of a weekday are those numbered from 420 / interval_length + 1 to
    1320 / interval_length (15 to 44 for half-hour data), and a weekend day
    has none. *)
Theorem peak_interval_numbers (d i il : Z) :
  (0 < il)%Z -> (60 mod il = 0)%Z ->
  (is_peak d i il = true <->
   (weekday d < 5 /\ 420 / il < i <= 1320 / il)%Z).
Proof.
  intros Hil Hdiv.
  assert (Hk : exists k, (0 < k /\ 60 = k * il)%Z).
  { exists (60 / il)%Z. split.
    - apply Z.div_str_pos. split; [exact Hil|].
      destruct (Z_le_gt_dec il 60) as [Hle | Hgt]; [exact Hle|].
      rewrite Z.mod_small in Hdiv by lia. discriminate Hdiv.
    - rewrite Z.mul_comm. apply Z.div_exact; [lia | exact Hdiv]. }
  destruct Hk as (k & Hk & E60).
  assert (E420 : (420 / il = 7 * k)%Z).
  { replace 420%Z with (7 * k * il)%Z by lia. apply Z.div_mul. lia. }
  assert (E1320 : (1320 / il = 22 * k)%Z).
  { replace 1320%Z with (22 * k * il)%Z by lia. apply Z.div_mul. lia. }
  assert (Eh : ((i - 1) * il / 60 = (i - 1) / k)%Z).
  { rewrite E60. apply Z.div_mul_cancel_r; lia. }
  unfold is_peak. rewrite !andb_true_iff, Z.ltb_lt, Z.leb_le, Z.ltb_lt.
  rewrite Eh, E420, E1320.
  pose proof (Z.div_mod (i - 1) k ltac:(lia)) as Hdm.
  pose proof (Z.mod_pos_bound (i - 1) k Hk) as Hr.
  assert (Hlo : (7 <= (i - 1) / k <-> 7 * k < i)%Z) by (split; nia).
  assert (Hhi : ((i - 1) / k < 22 <-> i <= 22 * k)%Z) by (split; nia).
  rewrite Hlo, Hhi. tauto.
Qed.

Lemma peak_interval_numbers_witness :
  is_peak 738886 15 30 = true <->
  (weekday 738886 < 5 /\ 420 / 30 < 15 <= 1320 / 30)%Z.
Proof.
  apply (peak_interval_numbers 738886 15 30).
  - reflexivity.
  - reflexivity.
Defined.

(** ** Invoice calculator: amounts, default rates, billing period *)

Lemma whole_cents_plus (a b : Q) : whole_cents a -> whole_cents b -> whole_cents (a + b).
Proof.
  intros [n Hn] [m Hm]. exists (n + m)%Z.
  rewrite Hn, Hm, inject_Z_plus. unfold Qdiv. ring.
Qed.

Lemma sum_amounts_whole_cents (items : list LineItem) :
  Forall (fun it => exists q, amount it = Some (quantize2 q)) items ->
  whole_cents (sum_amounts items).
Proof.
  unfold sum_amounts.
  assert (G : forall acc, whole_cents acc ->
            Forall (fun it => exists q, amount it = Some (quantize2 q)) items ->
            whole_cents (fold_left (fun acc it => acc + get_amount it) items acc)).
  { induction items as [| it items IH]; intros acc Hacc Hall; [exact Hacc|].
    inversion Hall as [| ? ? [q Hq] Hrest]; subst. cbn [fold_left].
    apply IH; [|exact Hrest].
    apply whole_cents_plus; [exact Hacc|].
    unfold get_amount. rewrite Hq. cbn. exists (quantize_cents q). reflexivity. }
  apply G. exists 0%Z. reflexivity.
Qed.

Section CalculatorFurther.
Context {rt : PyRuntime}.

(** X16.  Every sum of money of a calculated invoice is a whole number of
    cents: each line amount, the subtotal, the tax and the total; and the
    total is within half a cent of 110 % of the subtotal. *)
Theorem invoice_amounts_are_whole_cents (summary : ConsumptionSummary)
    (nt : option dict) (code : string) (bs be : option string)
    (inv : CalculatedInvoice) :
  calculate_body summary nt code bs be = Ok inv ->
  Forall (fun it => whole_cents (get_amount it)) (c_line_items inv) /\
  whole_cents (subtotal inv) /\ whole_cents (gst inv) /\ whole_cents (total inv) /\
  Qabs (total inv - (11 # 10) * subtotal inv) <= 1 # 200.
Proof.
  intros E.
  destruct (calculate_body_totals summary nt code bs be inv E)
    as (Hall & Hsub & Hgst & Htot & _).
  assert (Hs : whole_cents (subtotal inv)).
  { rewrite Hsub. apply sum_amounts_whole_cents, Hall. }
  assert (Hg : whole_cents (gst inv)).
  { rewrite Hgst. exists (quantize_cents (subtotal inv * (10 # 100))). reflexivity. }
  split.
  { eapply Forall_impl; [exact Hall|]. intros it [q Hq].
    unfold get_amount. rewrite Hq. exists (quantize_cents q). reflexivity. }
  split; [exact Hs|]. split; [exact Hg|]. split.
  { rewrite Htot. apply whole_cents_plus; assumption. }
  rewrite Htot, Hgst.
  pose proof (quantize2_error (subtotal inv * (10 # 100))) as Hq.
  assert (Heq : subtotal inv + quantize2 (subtotal inv * (10 # 100))
                - (11 # 10) * subtotal inv
                == quantize2 (subtotal inv * (10 # 100)) - subtotal inv * (10 # 100))
    by ring.
  rewrite Heq. exact Hq.
Qed.

(** The line items of every invoice that [calculate] returns. *)
Lemma calculate_line_items (data : option FileData) (today code : string)
    (bs be : option string) (inv : CalculatedInvoice) :
  calculate data today code bs be = Ok inv ->
  exists summary rest,
    get_consumption_summary data = summary :: rest /\
    c_nmi inv = s_nmi summary /\
    c_line_items inv =
      flat_lines summary code
        (match get_tariff_by_code today None code with
         | Some _ => [default_supply_item code (c_billing_period_start inv)
                                          (c_billing_period_end inv)]
         | None => []
         end).
Proof.
  unfold calculate. destruct (get_consumption_summary data) as [| s rest]; [discriminate|].
  intros E. exists s, rest. split; [reflexivity|].
  destruct (resolved_period s bs be) as [[[ps |] [pe |]] | e] eqn:Hres;
    try (unfold calculate_body in E; unfold resolved_period in Hres;
         rewrite Hres in E; cbn [rbind] in E; discriminate E).
  destruct (fetched_outcome s today code bs be ps pe Hres)
    as [Hr | (inv' & Hr & Hn & Hps & Hpe & Hl)]; rewrite Hr in E; [discriminate E|].
  injection E as <-. rewrite Hps, Hpe. split; [exact Hn | exact Hl].
Qed.


(** X18.  Called without a billing start or without a billing end,
    [calculate] bills the date range of the first channel of the file: it
    returns an invoice for that range, or raises the [InvalidOperation] of
    [quantize], and it returns whenever the total of that channel is at most
    10^20 kWh in absolute value; when the channel has no date (no day row of
    it was read) the call fails with a [TypeError]. *)
Theorem calculate_without_billing_dates (data : option FileData) (today code : string)
    (bs be : option string) (summary : ConsumptionSummary)
    (rest : list ConsumptionSummary) :
  get_consumption_summary data = summary :: rest ->
  nonempty bs = None \/ nonempty be = None ->
  match s_period_start summary, s_period_end summary with
  | Some ps, Some pe =>
      (calculate data today code bs be = Raise InvalidOperation \/
       exists inv, calculate data today code bs be = Ok inv /\
                   c_billing_period_start inv = ps /\ c_billing_period_end inv = pe) /\
      (moderate_kwh (total_kwh summary) -> date_ordinal ps -> date_ordinal pe ->
       exists inv, calculate data today code bs be = Ok inv /\
                   c_billing_period_start inv = ps /\ c_billing_period_end inv = pe)
  | _, _ => calculate data today code bs be = Raise TypeError
  end.
Proof.
  intros Hs Hb. unfold calculate. rewrite Hs.
  assert (Hp : resolved_period summary bs be
               = Ok (s_period_start summary, s_period_end summary)).
  { unfold resolved_period. destruct Hb as [-> | Hbe]; [reflexivity|].
    rewrite Hbe. destruct (nonempty bs); reflexivity. }
  destruct (s_period_start summary) as [ps |];
    [|unfold calculate_body; unfold resolved_period in Hp; rewrite Hp; reflexivity].
  destruct (s_period_end summary) as [pe |];
    [|unfold calculate_body; unfold resolved_period in Hp; rewrite Hp; reflexivity].
  destruct (fetched_outcome summary today code bs be ps pe Hp)
    as [Hr | (inv & Hr & _ & Hps & Hpe & _)].
  - split; [now left|]. intros Hk Dps Dpe.
    destruct (fetched_returns summary today code bs be ps pe Hp Hk Dps Dpe) as [inv Hi].
    rewrite Hi in Hr. discriminate Hr.
  - split; [right|intros _ _ _]; exists inv; (split; [exact Hr|]); split; assumption.
Qed.

End CalculatorFurther.

Lemma invoice_amounts_are_whole_cents_witness :
  exists inv,
    calculate_body dated_summary (Some capital_peak_tariff) "EA010"
                   (Some "2024-01-01"%string) (Some "2024-01-31"%string) = Ok inv /\
    Forall (fun it => whole_cents (get_amount it)) (c_line_items inv) /\
    whole_cents (subtotal inv) /\ whole_cents (gst inv) /\ whole_cents (total inv) /\
    Qabs (total inv - (11 # 10) * subtotal inv) <= 1 # 200.
Proof.
  eexists. split.
  - vm_compute. reflexivity.
  - apply (invoice_amounts_are_whole_cents (rt := ascii_runtime) dated_summary
             (Some capital_peak_tariff) "EA010"
             (Some "2024-01-01"%string) (Some "2024-01-31"%string)).
    vm_compute. reflexivity.
Defined.


Lemma calculate_without_billing_dates_witness :
  (exists inv,
     calculate (stored_after one_day_file) "2024-06-01" "EA010" None None = Ok inv /\
     c_billing_period_start inv = 738886%Z /\ c_billing_period_end inv = 738886%Z) /\
  calculate (stored_after no_day_file) "2024-06-01" "EA010" None None = Raise TypeError.
Proof.
  split.
  - refine (proj2 (calculate_without_billing_dates (rt := ascii_runtime)
             (stored_after one_day_file) "2024-06-01" "EA010" None None
             {| s_nmi := "1234567890"; s_period_start := Some 738886%Z;
                s_period_end := Some 738886%Z; total_kwh := 48;
                peak_kwh := 30; off_peak_kwh := 18 |} [] _ _) _ _ _).
    + vm_compute. reflexivity.
    + left. reflexivity.
    + vm_compute. discriminate.
    + unfold date_ordinal. lia.
    + unfold date_ordinal. lia.
  - refine (calculate_without_billing_dates (rt := ascii_runtime)
             (stored_after no_day_file) "2024-06-01" "EA010" None None
             {| s_nmi := "1234567890"; s_period_start := None;
                s_period_end := None; total_kwh := 0;
                peak_kwh := 0; off_peak_kwh := 0 |} [] _ _).
    + vm_compute. reflexivity.
    + left. reflexivity.
Defined.

(** ** Tariff fetcher *)

Lemma code_matches_true (code : string) (t : dict) :
  code_matches code t = true <-> dict_get "tariff_code" t = Some (VStr code).
Proof.
  unfold code_matches. split.
  - destruct (dict_get "tariff_code" t) as [[| | c | |] |]; try discriminate.
    intros E. apply String.eqb_eq in E. now subst.
  - intros ->. apply String.eqb_refl.
Qed.

Lemma search_providers_found (today : string) (ps : list NetworkProvider)
    (code : string) (d : dict) :
  search_providers today ps code = Some d ->
  exists p t, In p ps /\ In t (_sample_tariffs p) /\
              dict_get "tariff_code" t = Some (VStr code) /\
              d = tariff_response today p t.
Proof.
  induction ps as [| p ps IH]; [discriminate|]. cbn [search_providers].
  destruct (List.find (code_matches code) (_sample_tariffs p)) as [t |] eqn:Ef.
  - intros [= <-]. apply find_some in Ef. destruct Ef as [Hin Hc].
    exists p, t. split; [now left|]. split; [exact Hin|].
    split; [now apply code_matches_true | reflexivity].
  - intros E. destruct (IH E) as (p' & t & Hp & Ht).
    exists p', t. split; [now right | exact Ht].
Qed.

Lemma search_providers_none (today : string) (ps : list NetworkProvider) (code : string) :
  search_providers today ps code = None ->
  forall p t, In p ps -> In t (_sample_tariffs p) ->
    dict_get "tariff_code" t <> Some (VStr code).
Proof.
  induction ps as [| p ps IH]; intros E q t Hq Ht; [destruct Hq|].
  cbn [search_providers] in E.
  destruct (List.find (code_matches code) (_sample_tariffs p)) as [t' |] eqn:Ef;
    [discriminate E|].
  destruct Hq as [<- | Hq].
  - intros Hc. apply code_matches_true in Hc.
    pose proof (find_none _ _ Ef t Ht) as Hn. congruence.
  - exact (IH E q t Hq Ht).
Qed.

Lemma searched_providers (prov : option NetworkProvider) (p : NetworkProvider) :
  In p (match prov with Some q => [q] | None => all_providers end) <-> searched prov p.
Proof.
  unfold searched. destruct prov as [q |].
  - split.
    + intros [<- | []] q' [= <-]. reflexivity.
    + intros H. left. symmetry. now apply H.
  - split; [intros _ q' E; discriminate E|].
    intros _. destruct p; cbn; tauto.
Qed.

(** X19.  A tariff returned by [get_tariff_by_code] sits under the key
    'network_tariff' with the eight keys of a tariff, carries the code that
    was asked for and the name of a provider that was searched (the given
    one, or any when none is given) and that has a sample tariff of that
    code; nothing is returned only when no searched provider has a sample
    tariff of that code. *)
Theorem get_tariff_by_code_result (today : string) (prov : option NetworkProvider)
    (code : string) :
  match get_tariff_by_code today prov code with
  | Some d =>
      exists p nt,
        searched prov p /\
        (exists t, In t (_sample_tariffs p) /\
                   dict_get "tariff_code" t = Some (VStr code)) /\
        map fst d = ["network_tariff"; "last_updated"; "source_url"]%string /\
        dict_get "network_tariff" d = Some (VDict nt) /\
        map fst nt = network_tariff_keys /\
        dict_get "tariff_code" nt = Some (VStr code) /\
        dict_get "network_provider" nt = Some (VStr (provider_value p))
  | None =>
      forall p t, searched prov p -> In t (_sample_tariffs p) ->
        dict_get "tariff_code" t <> Some (VStr code)
  end.
Proof.
  unfold get_tariff_by_code.
  destruct (search_providers today _ code) as [d |] eqn:E.
  - destruct (search_providers_found _ _ _ _ E) as (p & t & Hp & Ht & Hc & ->).
    exists p. eexists. split; [now apply searched_providers|].
    split; [now exists t|].
    split; [reflexivity|]. split; [reflexivity|]. split; [reflexivity|].
    split; [|reflexivity].
    cbn. unfold get_or. rewrite Hc. reflexivity.
  - intros p t Hp Ht. apply (search_providers_none _ _ _ E p t); [|exact Ht].
    now apply searched_providers.
Qed.

(** X20.  Every tariff listed by [get_network_tariffs] for a provider
    carries that provider's name, the tariff type that was asked for when
    one was, no end date, and a code by which [get_tariff_by_code] finds,
    for the same provider, a tariff of the same name, type and daily supply
    charge; the listing has the supply charge at the top level of the dict,
    the lookup by code one level down. *)
Theorem listed_tariff_is_found_by_code (today : string) (p : NetworkProvider)
    (ty : option TariffType) (d : dict) :
  In d (get_network_tariffs p ty) ->
  dict_get "network_provider" d = Some (VStr (provider_value p)) /\
  (forall ty', ty = Some ty' ->
     dict_get "tariff_type" d = Some (VStr (tariff_type_value ty'))) /\
  dict_get "effective_to" d = Some VNone /\
  exists code r nt,
    dict_get "tariff_code" d = Some (VStr code) /\
    get_tariff_by_code today (Some p) code = Some r /\
    dict_get "network_tariff" r = Some (VDict nt) /\
    dict_get "daily_supply_charge_cents" r = None /\
    Forall (fun k => dict_get k nt = dict_get k d /\ dict_get k d <> None)
           ["tariff_name"; "tariff_type"; "daily_supply_charge_cents"]%string.
Proof.
  intros Hin.
  destruct p, ty as [[] |]; vm_compute in Hin;
    repeat (destruct Hin as [<- | Hin]); try (destruct Hin);
    (split; [reflexivity|]);
    (split; [intros ty' E; first [discriminate E | injection E as <-; reflexivity]|]);
    (split; [reflexivity|]);
    eexists; eexists; eexists;
    (split; [reflexivity|]); (split; [reflexivity|]); (split; [reflexivity|]);
    (split; [reflexivity|]);
    repeat constructor; discriminate.
Qed.

Lemma listed_tariff_is_found_by_code_witness :
  let d := tariff_data AUSGRID
             (flat_tariff "EA025" "Residential Flat Rate" "ausgrid" "2024-07-01"
                          (9837 # 100) (1845 # 100)) in
  dict_get "network_provider" d = Some (VStr (provider_value AUSGRID)) /\
  (forall ty', Some FLAT = Some ty' ->
     dict_get "tariff_type" d = Some (VStr (tariff_type_value ty'))) /\
  dict_get "effective_to" d = Some VNone /\
  exists code r nt,
    dict_get "tariff_code" d = Some (VStr code) /\
    get_tariff_by_code "2024-06-01" (Some AUSGRID) code = Some r /\
    dict_get "network_tariff" r = Some (VDict nt) /\
    dict_get "daily_supply_charge_cents" r = None /\
    Forall (fun k => dict_get k nt = dict_get k d /\ dict_get k d <> None)
           ["tariff_name"; "tariff_type"; "daily_supply_charge_cents"]%string.
Proof.
  intro d. apply (listed_tariff_is_found_by_code "2024-06-01" AUSGRID (Some FLAT) d).
  vm_compute. left. reflexivity.
Defined.

(** ** Reconciliation engine: recommendations *)

Lemma count_none_zero (p : DiscrepancyStatus -> bool) (rs : list LineItemReconciliation) :
  Forall (fun r => p (status r) = false) rs -> count_status p rs = 0%nat.
Proof.
  unfold count_status. induction 1 as [| r rs Hr _ IH]; [reflexivity|].
  cbn [List.filter]. rewrite Hr. exact IH.
Qed.

Lemma filter_nil_none {A : Type} (f : A -> bool) (l : list A) :
  List.filter f l = [] <-> Forall (fun x => f x = false) l.
Proof.
  induction l as [| x l IH]; [split; [constructor | reflexivity]|].
  cbn [List.filter]. destruct (f x) eqn:E.
  - split; [discriminate|]. intros H. inversion H; congruence.
  - rewrite IH. split; [now constructor | intros H; now inversion H].
Qed.

Lemma recommendations_cases (recs : list LineItemReconciliation) (diff pct : Q) :
  let out := _generate_recommendations recs diff pct in
  let quiet :=
    Qltb 5 (Qabs pct) = false /\
    count_status (fun s => status_eqb s MISSING_CALCULATED) recs = 0%nat /\
    count_status (fun s => status_eqb s MISSING_INVOICED) recs = 0%nat /\
    List.filter (fun r => String.eqb (r_charge_type r) "usage"
                          && status_eqb (status r) SIGNIFICANT) recs = [] in
  (quiet /\ out = [WithinTolerance]) \/
  (~ quiet /\ out <> [] /\ ~ In WithinTolerance out).
Proof.
  cbv zeta. unfold _generate_recommendations.
  destruct (Qltb 5 (Qabs pct)) eqn:E5.
  { right. split; [intros [H _]; discriminate H|].
    destruct (Qltb 0 diff);
      destruct (0 <? count_status _ recs)%nat;
      destruct (0 <? count_status _ recs)%nat;
      destruct (List.filter _ recs); cbn; split; try discriminate;
      intuition discriminate. }
  destruct (count_status (fun s => status_eqb s MISSING_CALCULATED) recs) as [| mc] eqn:Ec.
  2:{ right. split; [intros (_ & H & _); discriminate H|].
      destruct (0 <? count_status _ recs)%nat;
      destruct (List.filter _ recs); cbn; split; try discriminate;
      intuition discriminate. }
  destruct (count_status (fun s => status_eqb s MISSING_INVOICED) recs) as [| mi] eqn:Ei.
  2:{ right. split; [intros (_ & _ & H & _); discriminate H|].
      destruct (List.filter _ recs); cbn; split; try discriminate;
      intuition discriminate. }
  destruct (List.filter _ recs) as [| u us] eqn:Eu.
  - left. repeat split; reflexivity.
  - right. split; [intros (_ & _ & _ & H); discriminate H|].
    cbn; split; try discriminate; intuition discriminate.
Qed.

Lemma quiet_reconciliation (recs : list LineItemReconciliation) (pct : Q) :
  (Qltb 5 (Qabs pct) = false /\
   count_status (fun s => status_eqb s MISSING_CALCULATED) recs = 0%nat /\
   count_status (fun s => status_eqb s MISSING_INVOICED) recs = 0%nat /\
   List.filter (fun r => String.eqb (r_charge_type r) "usage"
                         && status_eqb (status r) SIGNIFICANT) recs = [])
  <->
  (Qabs pct <= 5 /\
   Forall (fun r => is_missing (status r) = false) recs /\
   Forall (fun r => ~ (r_charge_type r = "usage"%string /\ status r = SIGNIFICANT)) recs).
Proof.
  rewrite Qltb_false, filter_nil_none. split.
  - intros (H5 & Hc & Hi & Hu). split; [exact H5|]. split.
    + apply count_zero_none in Hc, Hi. rewrite List.Forall_forall in *.
      intros r Hr. specialize (Hc r Hr). specialize (Hi r Hr). cbn beta in Hc, Hi.
      unfold is_missing. now rewrite Hc, Hi.
    + eapply Forall_impl; [exact Hu|]. intros r Hf [Hct Hs]. cbn beta in Hf.
      rewrite Hct, Hs in Hf. discriminate Hf.
  - intros (H5 & Hm & Hu). split; [exact H5|]. split; [|split].
    + apply count_none_zero. eapply Forall_impl; [exact Hm|].
      intros r Hr. unfold is_missing in Hr. cbn beta.
      apply orb_false_iff in Hr. tauto.
    + apply count_none_zero. eapply Forall_impl; [exact Hm|].
      intros r Hr. unfold is_missing in Hr. cbn beta.
      apply orb_false_iff in Hr. tauto.
    + eapply Forall_impl; [exact Hu|]. intros r Hr. cbn beta.
      destruct (String.eqb (r_charge_type r) "usage") eqn:Ect; [|reflexivity].
      destruct (status r) eqn:Es; try reflexivity.
      exfalso. apply Hr. apply String.eqb_eq in Ect. split; [exact Ect | exact Es].
Qed.

(** X21.  [_generate_recommendations] never returns an empty list; the
    sentence that the invoice matches within tolerance is returned only on
    its own, and exactly when the totals differ by at most 5 percent, no
    record is missing on either side and no usage record is significant;
    minor and non-usage significant records do not prevent it. *)
Theorem recommendations_rule (recs : list LineItemReconciliation) (diff pct : Q) :
  let out := _generate_recommendations recs diff pct in
  out <> [] /\
  (In WithinTolerance out <-> out = [WithinTolerance]) /\
  (out = [WithinTolerance] <->
   Qabs pct <= 5 /\
   Forall (fun r => is_missing (status r) = false) recs /\
   Forall (fun r => ~ (r_charge_type r = "usage"%string /\ status r = SIGNIFICANT)) recs).
Proof.
  cbv zeta. rewrite <- quiet_reconciliation.
  destruct (recommendations_cases recs diff pct) as [[Hq Ho] | (Hq & Hne & Hni)];
    cbv zeta in *.
  - rewrite Ho. split; [discriminate|]. split; [|tauto].
    split; [reflexivity | intros _; now left].
  - split; [exact Hne|]. split.
    + split; [tauto|]. intros Ho. exfalso. apply Hni. rewrite Ho. now left.
    + split; [|tauto]. intros Ho. exfalso. apply Hni. rewrite Ho. now left.
Qed.

Section ReconcileRecommendations.
Context {rt : PyRuntime}.

(** X22.  A reconciliation whose overall status is MATCH recommends
    nothing but that the invoice matches within tolerance; and whenever that
    sentence is given the overall status is not SIGNIFICANT unless some
    record that is not a usage record is significant. *)
Theorem match_recommends_within_tolerance (parsed : option ParsedInvoice)
    (data : option FileData) (today : string) (code : option string) (tol : Q)
    (s : ReconciliationSummary) :
  reconcile parsed data today code tol = Ok s ->
  (overall_status s = MATCH -> recommendations s = [WithinTolerance]) /\
  (recommendations s = [WithinTolerance] -> overall_status s = SIGNIFICANT ->
   exists r, In r (rs_line_items s) /\ status r = SIGNIFICANT /\
             r_charge_type r <> "usage"%string).
Proof.
  unfold reconcile. destruct parsed as [p |]; [|discriminate].
  intros Hr. bind_inv Hr. injection Hr as <-.
  cbn [overall_status recommendations rs_line_items].
  set (records := _reconcile_line_items (p_line_items p) (c_line_items a) tol).
  set (diff := p_total p - total a).
  set (pct := pct_diff_of diff (total a)).
  destruct (recommendations_cases records diff pct) as [[Hq Ho] | (Hq & _ & Hni)];
    cbv zeta in *.
  - split; [intros _; exact Ho|]. intros _ Hsig.
    destruct Hq as (H5 & _ & _ & Hu).
    unfold overall_status_of in Hsig. rewrite H5, orb_false_r in Hsig.
    destruct (0 <? count_status (fun s => status_eqb s SIGNIFICANT) records)%nat eqn:Es.
    2:{ destruct (_ || _ || _); discriminate Hsig. }
    apply Nat.ltb_lt in Es. unfold count_status in Es.
    destruct (List.filter (fun r => status_eqb (status r) SIGNIFICANT) records)
      as [| r rs'] eqn:Ef; [cbn in Es; lia|].
    assert (Hin : In r (List.filter (fun r => status_eqb (status r) SIGNIFICANT) records))
      by (rewrite Ef; now left).
    apply filter_In in Hin. destruct Hin as [Hin Hst].
    exists r. split; [exact Hin|].
    assert (Hs : status r = SIGNIFICANT) by (destruct (status r); try discriminate; reflexivity).
    split; [exact Hs|]. intros Hct.
    apply filter_nil_none in Hu. rewrite List.Forall_forall in Hu.
    specialize (Hu r Hin). cbn beta in Hu. rewrite Hct, Hs in Hu. discriminate Hu.
  - split.
    + intros Hm. exfalso. apply Hq. apply overall_match_counts in Hm.
      destruct Hm as (Hs & _ & Hmiss & H5 & _).
      split; [now apply Qltb_false|].
      apply count_zero_none in Hmiss, Hs.
      split; [|split].
      * apply count_none_zero. eapply Forall_impl; [exact Hmiss|].
        intros r Hr. unfold is_missing in Hr. cbn beta.
        apply orb_false_iff in Hr. tauto.
      * apply count_none_zero. eapply Forall_impl; [exact Hmiss|].
        intros r Hr. unfold is_missing in Hr. cbn beta.
        apply orb_false_iff in Hr. tauto.
      * apply filter_nil_none. eapply Forall_impl; [exact Hs|].
        intros r Hr. cbn beta in *. rewrite Hr. apply andb_false_r.
    + intros Ho. exfalso. apply Hni. rewrite Ho. now left.
Qed.

End ReconcileRecommendations.

Lemma match_recommends_within_tolerance_witness :
  (exists s,
     reconcile (Some usage_only_invoice) (stored_after one_day_file)
               "2024-02-01" (Some "EA010"%string) 1 = Ok s /\
     overall_status s = MATCH /\ recommendations s = [WithinTolerance]) /\
  (exists s,
     reconcile (Some network_only_invoice) (stored_after one_day_file)
               "2024-02-01" (Some "EA010"%string) 1 = Ok s /\
     recommendations s = [WithinTolerance] /\ overall_status s = SIGNIFICANT /\
     exists r, In r (rs_line_items s) /\ status r = SIGNIFICANT /\
               r_charge_type r <> "usage"%string).
Proof.
  split.
  - eexists. split; [vm_compute; reflexivity|].
    split; [vm_compute; reflexivity|].
    apply (match_recommends_within_tolerance (rt := ascii_runtime)
             (Some usage_only_invoice) (stored_after one_day_file)
             "2024-02-01" (Some "EA010"%string) 1);
      vm_compute; reflexivity.
  - eexists. split; [vm_compute; reflexivity|].
    split; [vm_compute; reflexivity|].
    split; [vm_compute; reflexivity|].
    apply (match_recommends_within_tolerance (rt := ascii_runtime)
             (Some network_only_invoice) (stored_after one_day_file)
             "2024-02-01" (Some "EA010"%string) 1);
      vm_compute; reflexivity.
Defined.

(** ** Reconciliation engine: calculated items of distinct charge types *)

Lemma count_status_app (p : DiscrepancyStatus -> bool) (a b : list LineItemReconciliation) :
  count_status p (a ++ b) = (count_status p a + count_status p b)%nat.
Proof.
  unfold count_status. now rewrite List.filter_app, length_app.
Qed.

Lemma paired_count (rs : list LineItemReconciliation) :
  count_status is_paired rs
  = (count_status (fun s => status_eqb s MATCH) rs
     + count_status (fun s => status_eqb s MINOR) rs
     + count_status (fun s => status_eqb s SIGNIFICANT) rs)%nat.
Proof.
  unfold count_status. induction rs as [| r rs IH]; [reflexivity|].
  cbn [List.filter].
  destruct (status r);
    change (is_paired MATCH) with true; change (is_paired MINOR) with true;
    change (is_paired SIGNIFICANT) with true;
    change (is_paired MISSING_INVOICED) with false;
    change (is_paired MISSING_CALCULATED) with false;
    cbn [status_eqb length]; lia.
Qed.

Lemma bucket_append_fresh (ct : string) (it : LineItem) (pre : list LineItem) :
  ~ In ct (map get_charge_type pre) ->
  bucket_append ct it (map single_bucket pre) = map single_bucket pre ++ [(ct, [it])].
Proof.
  induction pre as [| c pre IH]; intros Hn; [reflexivity|].
  cbn [map bucket_append single_bucket app].
  destruct (String.eqb (get_charge_type c) ct) eqn:E.
  - apply String.eqb_eq in E. exfalso. apply Hn. now left.
  - change (map (fun c0 => (get_charge_type c0, [c0])) pre) with (map single_bucket pre).
    rewrite IH; [reflexivity|]. intros Hin. apply Hn. now right.
Qed.

Lemma build_distinct_types (calc : list LineItem) :
  NoDup (map get_charge_type calc) ->
  build_calc_by_type calc = map single_bucket calc.
Proof.
  unfold build_calc_by_type.
  assert (G : forall l pre, NoDup (map get_charge_type (pre ++ l)) ->
              fold_left (fun d it => bucket_append (get_charge_type it) it d) l
                        (map single_bucket pre)
              = map single_bucket (pre ++ l)).
  { induction l as [| it l IH]; intros pre Hnd; cbn [fold_left].
    - now rewrite app_nil_r.
    - rewrite bucket_append_fresh.
      + replace (map single_bucket pre ++ [(get_charge_type it, [it])])
          with (map single_bucket (pre ++ [it])) by (now rewrite map_app).
        rewrite IH; [now rewrite <- app_assoc|]. now rewrite <- app_assoc.
      + rewrite map_app in Hnd. cbn [map] in Hnd.
        apply NoDup_app in Hnd. destruct Hnd as (_ & Hnd & _).
        intros Hin. apply list_elem_of_In in Hin.
        apply (Hnd _ Hin). apply list_elem_of_In. now left. }
  intros Hnd. exact (G calc [] Hnd).
Qed.

Lemma single_buckets_short (calc : list LineItem) :
  Forall short_bucket (map single_bucket calc).
Proof.
  induction calc as [| c calc IH]; constructor; [|exact IH].
  unfold short_bucket. cbn. lia.
Qed.

Lemma bucket_get_short (d : list (string * list LineItem)) (ct : string) :
  Forall short_bucket d -> (length (bucket_get ct d) <= 1)%nat.
Proof.
  induction 1 as [| [k items] d Hb _ IH]; cbn [bucket_get]; [cbn; lia|].
  destruct (String.eqb k ct); [exact Hb | exact IH].
Qed.

Lemma find_best_short (cm : gset nat) (a : Q) (bucket : list LineItem)
    (j : nat) (c : LineItem) (df : Q) :
  (length bucket <= 1)%nat -> find_best cm a bucket = Some (j, c, df) ->
  j = 0%nat /\ 0%nat ∉ cm.
Proof.
  destruct bucket as [| x [| y bucket]]; cbn [length]; intros Hl; [discriminate| |lia].
  unfold find_best, enumerate. cbn [length seq combine fold_left best_step].
  destruct (bool_decide (0%nat ∈ cm)) eqn:E; [discriminate|].
  intros [= <- _ _]. split; [reflexivity|].
  apply bool_decide_eq_false in E. exact E.
Qed.

Lemma leftover_short (cm : gset nat) (d : list (string * list LineItem)) :
  Forall short_bucket d -> 0%nat ∈ cm -> flat_map (leftover_bucket cm) d = [].
Proof.
  intros Hd H0. induction Hd as [| [ct items] d Hb _ IH]; [reflexivity|].
  cbn [flat_map]. rewrite IH, app_nil_r.
  unfold short_bucket in Hb. cbn [snd] in Hb.
  destruct items as [| x [| y items]]; [reflexivity| |cbn in Hb; lia].
  unfold leftover_bucket, enumerate. cbn [length seq combine flat_map fst].
  now rewrite bool_decide_eq_true_2 by exact H0.
Qed.

Lemma leftover_all (d : list (string * list LineItem)) :
  length (flat_map (leftover_bucket ∅) d) = length (flat_map snd d).
Proof.
  induction d as [| [ct items] d IH]; [reflexivity|].
  cbn [flat_map snd]. rewrite !length_app, IH, leftover_bucket_filter, length_map.
  now rewrite filter_untaken_empty, length_enumerate.
Qed.

Lemma flat_single_buckets (calc : list LineItem) :
  flat_map snd (map single_bucket calc) = calc.
Proof.
  induction calc as [| c calc IH]; [reflexivity|]. cbn. now rewrite IH.
Qed.

Lemma pairing_loop (d : list (string * list LineItem)) (tol : Q)
    (l : list (nat * LineItem)) (st : MatchState) :
  Forall short_bucket d ->
  (count_status is_paired (reconciled st) = 0%nat /\ calculated_matched st = ∅) \/
  (count_status is_paired (reconciled st) = 1%nat /\ 0%nat ∈ calculated_matched st) ->
  let st' := fold_left (match_step d tol) l st in
  ((count_status is_paired (reconciled st') = 0%nat /\ calculated_matched st' = ∅) \/
   (count_status is_paired (reconciled st') = 1%nat /\ 0%nat ∈ calculated_matched st')) /\
  length (reconciled st') = (length (reconciled st) + length l)%nat.
Proof.
  intros Hd. cbv zeta. revert st.
  induction l as [| [i it] l IH]; intros st Hst; cbn [fold_left length].
  - split; [exact Hst | lia].
  - match goal with |- context [fold_left _ l ?s] => set (st1 := s) end.
    assert (H1 : ((count_status is_paired (reconciled st1) = 0%nat
                   /\ calculated_matched st1 = ∅) \/
                  (count_status is_paired (reconciled st1) = 1%nat
                   /\ 0%nat ∈ calculated_matched st1)) /\
                 length (reconciled st1) = S (length (reconciled st))).
    { unfold st1, match_step.
      destruct (find_best _ _ _) as [[[j c] df] |] eqn:Ef;
        cbn [reconciled calculated_matched]; rewrite count_status_app, length_app;
        cbn [length]; (split; [|lia]).
      - apply find_best_short in Ef; [|apply bucket_get_short, Hd].
        destruct Ef as [-> Hn0]. right.
        destruct Hst as [[Hc Hcm] | [_ H0]]; [|contradiction].
        split; [|apply elem_of_union_l, elem_of_singleton; reflexivity].
        rewrite Hc. unfold count_status. cbn [List.filter]. unfold is_paired.
        destruct (matched_record_has_invoiced it c tol) as [_ Hm]. rewrite Hm.
        reflexivity.
      - unfold count_status at 2 4. cbn. rewrite !Nat.add_0_r. exact Hst. }
    destruct H1 as [H1 Hlen]. destruct (IH st1 H1) as [H2 Hl2].
    split; [exact H2 | lia].
Qed.

Lemma distinct_types_records (inv calc : list LineItem) (tol : Q) :
  NoDup (map get_charge_type calc) ->
  let rs := _reconcile_line_items inv calc tol in
  (count_status is_paired rs = 0%nat /\ length rs = (length inv + length calc)%nat) \/
  (count_status is_paired rs = 1%nat /\ length rs = length inv).
Proof.
  intros Hnd. cbv zeta. unfold _reconcile_line_items. cbv zeta.
  rewrite (build_distinct_types calc Hnd).
  pose proof (single_buckets_short calc) as Hd.
  destruct (pairing_loop (map single_bucket calc) tol (enumerate inv)
              (mkMatchState [] ∅ ∅) Hd) as [Hp Hlen].
  { left. split; reflexivity. }
  cbv zeta in Hp, Hlen. cbn [reconciled length] in Hlen.
  rewrite length_enumerate in Hlen.
  rewrite count_status_app, length_app, Hlen.
  destruct Hp as [[Hc Hcm] | [Hc H0]].
  - left. rewrite Hcm, leftover_all, flat_single_buckets, Hc. split; [|reflexivity].
    apply count_none_zero. eapply Forall_impl; [apply leftover_status|].
    intros r Hr. cbn beta in Hr. now rewrite Hr.
  - right. rewrite (leftover_short _ _ Hd H0), Hc. split; [reflexivity | cbn; lia].
Qed.

(** X26.  When no two calculated items have the same charge type, at most
    one invoiced item is paired with a calculated item, whatever the charge
    types of the others: if one is paired there are exactly as many records
    as invoiced items, so that no other calculated item is reported; if none
    is, every invoiced and every calculated item is reported as missing. *)
Theorem distinct_charge_types_pair_at_most_once (inv calc : list LineItem) (tol : Q) :
  NoDup (map get_charge_type calc) ->
  let rs := _reconcile_line_items inv calc tol in
  (count_status is_paired rs <= 1)%nat /\
  (count_status is_paired rs = 1%nat -> length rs = length inv) /\
  (count_status is_paired rs = 0%nat -> length rs = (length inv + length calc)%nat).
Proof.
  intros Hnd. cbv zeta.
  destruct (distinct_types_records inv calc tol Hnd) as [[Hc Hl] | [Hc Hl]];
    cbv zeta in Hc, Hl; rewrite Hc; (split; [lia|]); split; intros E;
    first [exact Hl | discriminate E].
Qed.

Lemma distinct_charge_types_pair_at_most_once_witness :
  let inv := [item "usage" 10; item "supply" 5; item "network" 3] in
  let calc := [item "supply" 5; item "usage" 10; item "network" 3] in
  let rs := _reconcile_line_items inv calc 1 in
  (count_status is_paired rs <= 1)%nat /\
  (count_status is_paired rs = 1%nat -> length rs = length inv) /\
  (count_status is_paired rs = 0%nat -> length rs = (length inv + length calc)%nat).
Proof.
  intros inv calc.
  apply (distinct_charge_types_pair_at_most_once inv calc 1).
  apply (bool_decide_unpack _). vm_compute. exact I.
Defined.

Section ReconcilePairs.
Context {rt : PyRuntime}.

Lemma calculated_types_distinct (data : option FileData) (today code : string)
    (bs be : option string) (inv : CalculatedInvoice) :
  calculate data today code bs be = Ok inv ->
  NoDup (map get_charge_type (c_line_items inv)) /\
  (2 <= length (c_line_items inv))%nat.
Proof.
  intros E.
  destruct (calculate_line_items data today code bs be inv E)
    as (summary & rest & _ & _ & ->).
  unfold flat_lines.
  destruct (get_tariff_by_code today None code);
    cbn [map app get_charge_type charge_type usage_item default_supply_item
         default from_option id length];
    (split; [apply (bool_decide_unpack _); vm_compute; exact I | lia]).
Qed.

(** X27.  In every reconciliation at most one record pairs an invoiced
    line with a calculated one (the calculator produces one item per charge
    type, and the match keeps one set of bucket positions for all charge
    types); so the overall status is MATCH only when the invoice has exactly
    one line item. *)
Theorem reconciliation_pairs_at_most_one_item (parsed : option ParsedInvoice)
    (data : option FileData) (today : string) (code : option string) (tol : Q)
    (s : ReconciliationSummary) :
  reconcile parsed data today code tol = Ok s ->
  (matched_items s + minor_discrepancies s + significant_discrepancies s <= 1)%nat /\
  (overall_status s = MATCH ->
   length (rs_line_items s) = 1%nat /\
   forall p, parsed = Some p -> length (p_line_items p) = 1%nat).
Proof.
  unfold reconcile. destruct parsed as [p |]; [|discriminate].
  intros Hr. bind_inv Hr. injection Hr as <-.
  cbn [matched_items minor_discrepancies significant_discrepancies rs_line_items
       overall_status].
  destruct (calculated_types_distinct _ _ _ _ _ _ E) as [Hnd Hlen].
  set (records := _reconcile_line_items (p_line_items p) (c_line_items a) tol).
  pose proof (distinct_types_records (p_line_items p) (c_line_items a) tol Hnd) as Hd.
  cbv zeta in Hd. fold records in Hd.
  pose proof (paired_count records) as Hp.
  pose proof (status_counts_partition records) as Hpart.
  split; [destruct Hd as [[Hc _] | [Hc _]]; lia|].
  intros Hm. apply overall_match_counts in Hm.
  destruct Hm as (Hs & Hmi & Hmiss & _).
  destruct Hd as [[Hc Hl] | [Hc Hl]]; [lia|].
  split; [lia|]. intros p' [= <-]. lia.
Qed.

End ReconcilePairs.

Lemma reconciliation_pairs_at_most_one_item_witness :
  exists s,
    reconcile (Some three_item_invoice) (stored_after one_day_file)
              "2024-02-01" (Some "EA010"%string) 1 = Ok s /\
    (matched_items s + minor_discrepancies s + significant_discrepancies s <= 1)%nat /\
    (overall_status s = MATCH ->
     length (rs_line_items s) = 1%nat /\
     forall p, Some three_item_invoice = Some p -> length (p_line_items p) = 1%nat).
Proof.
  eexists. split.
  - vm_compute. reflexivity.
  - apply (reconciliation_pairs_at_most_one_item (rt := ascii_runtime)
             (Some three_item_invoice) (stored_after one_day_file)
             "2024-02-01" (Some "EA010"%string) 1).
    vm_compute. reflexivity.
Defined.

(** ** NEM12 service: interval counts *)

Section IntervalCounts.
Context {rt : PyRuntime}.

Lemma parse_300_count (fields : list string) (m : Meter) (im : list Interval * Meter) :
  _parse_300_record fields m = Ok im -> interval_count (snd im) = interval_count m.
Proof.
  unfold _parse_300_record.
  destruct (interval_length m =? 0)%Z; [discriminate|].
  destruct (strptime_Ymd (field_or fields 1 "")) as [d |].
  - rewrite reading_loop. cbv zeta. cbn [fst snd app].
    intros [= <-]. reflexivity.
  - intros [= <-]. reflexivity.
Qed.

(** After [finalize] every listed meter is counted, the current one too. *)
Lemma finalize_counts_all (st : ParseState) :
  counts_ok st ->
  forall r m, r ∈ meters (finalize st) -> heap (finalize st) !! r = Some m ->
              counted (interval_data (finalize st)) m.
Proof.
  intros [_ Hc] r m. unfold finalize.
  destruct (current_meter st) as [c |] eqn:Ec.
  2:{ intros Hr Hm. apply (Hc r m Hr); [try rewrite Ec; discriminate | exact Hm]. }
  destruct (heap st !! c) as [mc |] eqn:Em.
  2:{ intros Hr Hm. apply (Hc r m Hr); [|exact Hm].
      try rewrite Ec. intros [= ->]. congruence. }
  cbn [meters heap interval_data]. intros Hr Hm.
  apply list_lookup_insert_Some in Hm.
  destruct Hm as [(_ & <- & _) | (Hne & Hm)]; [reflexivity|].
  apply elem_of_app in Hr. destruct Hr as [Hr | Hr].
  - apply (Hc r m Hr); [|exact Hm]. try rewrite Ec. intros [= ->]. now apply Hne.
  - apply list_elem_of_singleton in Hr. subst r. now contradiction Hne.
Qed.

Lemma finalize_counts_ok (st : ParseState) : counts_ok st -> counts_ok (finalize st).
Proof.
  intros Hok. split.
  - destruct (finalize_shape st) as (Hl & Hcur & _). rewrite Hl, Hcur. apply Hok.
  - intros r m Hr _ Hm. exact (finalize_counts_all st Hok r m Hr Hm).
Qed.

Lemma process_fields_counts_ok (st st' : ParseState) (fields : list string)
    (rest : list (list string)) :
  sums_ok st (fields :: rest) -> refs_ok st -> counts_ok st ->
  process_fields st fields = Ok st' -> counts_ok st'.
Proof.
  intros Hs Hrefs Hok. unfold process_fields.
  destruct (String.eqb (field_or fields 0 "") "100"); [now intros [= <-]|].
  destruct (String.eqb (field_or fields 0 "") "200") eqn:H2.
  { destruct (_parse_200_record fields) as [m | e] eqn:Em; cbn [rbind]; [|discriminate].
    intros [= <-]. destruct (parse_200_nmi fields m Em) as [Hn _].
    apply (finalize_sums_ok st (fields :: rest)) in Hs. destruct Hs as [Hnd _].
    unfold channel_nmis in Hnd. cbn [List.filter map] in Hnd. rewrite H2 in Hnd.
    cbn [map] in Hnd. rewrite <- Hn in Hnd.
    destruct (finalize_shape st) as (_ & _ & Hf). specialize (Hf Hrefs).
    split; cbn [heap meters current_meter interval_data].
    - intros c [= <-]. rewrite length_app. cbn. lia.
    - intros r m0 Hr _ Hm0.
      assert (Hlt : (r < length (heap (finalize st)))%nat).
      { unfold refs_ok in Hf. rewrite List.Forall_forall in Hf.
        apply Hf. now apply list_elem_of_In. }
      rewrite lookup_app_l in Hm0 by exact Hlt.
      pose proof (finalize_counts_all st Hok r m0 Hr Hm0) as Hc.
      unfold counted in *. rewrite lookup_insert_ne; [exact Hc|].
      intros Heq. apply NoDup_app in Hnd. destruct Hnd as (_ & Hd & _).
      apply (Hd (nmi m0)).
      + apply list_elem_of_fmap_2. exact (list_elem_of_lookup_2 _ _ _ Hm0).
      + rewrite <- Heq. left. }
  assert (Hnd : NoDup (nmi <$> heap st)).
  { destruct Hs as [Hnd _]. apply NoDup_app in Hnd. now destruct Hnd. }
  destruct (String.eqb (field_or fields 0 "") "300").
  { destruct (current_meter st) as [c |] eqn:Ec; [|now intros [= <-]].
    destruct (heap st !! c) as [m |] eqn:E; [|now intros [= <-]].
    destruct (_parse_300_record fields m) as [im | e] eqn:Ep; cbn [rbind]; [|discriminate].
    intros [= <-]. destruct Hok as [Hcur Hc].
    split; cbn [heap meters current_meter interval_data].
    - intros c' Hc'. rewrite length_insert. apply Hcur. rewrite ?Ec. exact Hc'.
    - intros r m0 Hr Hne Hm0. rewrite ?Ec in Hc.
      apply list_lookup_insert_Some in Hm0.
      destruct Hm0 as [(-> & _) | (Hcr & Hm0)]; [now contradiction Hne|].
      pose proof (Hc r m0 Hr Hne Hm0) as Hcount.
      unfold counted in *. rewrite lookup_insert_ne; [exact Hcount|].
      intros Heq. apply Hcr.
      apply (NoDup_lookup (nmi <$> heap st) c r (nmi m) Hnd).
      + rewrite list_lookup_fmap, E. reflexivity.
      + rewrite list_lookup_fmap, Hm0, Heq. reflexivity. }
  destruct (String.eqb (field_or fields 0 "") "400"); [now intros [= <-]|].
  destruct (String.eqb (field_or fields 0 "") "900"); [|now intros [= <-]].
  intros [= <-]. now apply finalize_counts_ok.
Qed.

Lemma process_rows_counts_ok (rows : list (list string)) (st st' : ParseState) :
  sums_ok st rows -> refs_ok st -> counts_ok st ->
  process_rows st rows = Ok st' -> counts_ok st'.
Proof.
  revert st. induction rows as [| f rows IH]; intros st Hs Hr Hc; cbn [process_rows].
  - now intros [= <-].
  - destruct (process_fields st f) as [st1 | e] eqn:E; cbn [rbind]; [|discriminate].
    apply IH.
    + exact (process_fields_sums_ok st st1 f rows Hs E).
    + exact (process_fields_refs_ok st st1 f Hr E).
    + exact (process_fields_counts_ok st st1 f rows Hs Hr Hc E).
Qed.

(** X24.  For a file whose channel rows name pairwise distinct NMIs and
    whose last row is an end row (900), the interval count of every meter
    of the returned list is the number of readings stored under its NMI. *)
Theorem interval_counts_agree_with_readings (rows : list (list string))
    (last : list string) (st : ParseState) :
  NoDup (channel_nmis rows) -> is_end_row last = true ->
  process_rows initial_state (rows ++ [last]) = Ok st ->
  Forall (fun m => interval_count m
                   = Some (length (default [] (fd_intervals (file_data_of st) !! nmi m))))
         (fd_meters (file_data_of st)).
Proof.
  intros Hnd Hlast Hst. rewrite process_rows_app in Hst.
  destruct (process_rows initial_state rows) as [st1 | e] eqn:E1;
    cbn [rbind] in Hst; [|discriminate Hst].
  assert (H0 : sums_ok initial_state rows).
  { split; [exact Hnd|]. intros i m Hi. discriminate Hi. }
  assert (R0 : refs_ok initial_state) by constructor.
  assert (C0 : counts_ok initial_state).
  { split; [intros c Hc; discriminate Hc|]. intros r m Hr. inversion Hr. }
  pose proof (process_rows_counts_ok rows initial_state st1 H0 R0 C0 E1) as Hc1.
  assert (Est : st = finalize st1).
  { cbn [process_rows rbind] in Hst. unfold process_fields in Hst.
    unfold is_end_row in Hlast. apply String.eqb_eq in Hlast. rewrite Hlast in Hst.
    cbn in Hst. now injection Hst as <-. }
  subst st. unfold file_data_of. cbn [fd_meters fd_intervals].
  pose proof (finalize_counts_all st1 Hc1) as Hall.
  rewrite List.Forall_forall. intros m Hm.
  apply list_elem_of_In, list_elem_of_omap in Hm. destruct Hm as (r & Hr & Hm).
  exact (Hall r m Hr Hm).
Qed.

End IntervalCounts.

Lemma interval_counts_agree_with_readings_witness :
  let rows := (channel_row_e1 :: three_day_rows) ++ channel_row_b1 :: three_day_rows in
  exists st,
    process_rows initial_state (rows ++ [["900"%string]]) = Ok st /\
    Forall (fun m => interval_count m
                     = Some (length (default [] (fd_intervals (file_data_of st) !! nmi m))))
           (fd_meters (file_data_of st)).
Proof.
  intro rows. eexists. split.
  - vm_compute. reflexivity.
  - apply (interval_counts_agree_with_readings (rt := ascii_runtime) rows ["900"%string]).
    + apply (bool_decide_unpack _). vm_compute. exact I.
    + reflexivity.
    + vm_compute. reflexivity.
Defined.

(** ** Invoice parser: confidence *)

Lemma round_half_even_whole (q : Q) (z : Z) : q == inject_Z z -> round_half_even q = z.
Proof.
  intros Hq. unfold round_half_even.
  assert (Hf : Qfloor q = z) by (rewrite Hq; apply Qfloor_Z).
  rewrite Hf.
  assert (Hr : Qltb (q - inject_Z z) (1 # 2) = true).
  { apply Qltb_true. rewrite Hq. ring_simplify. reflexivity. }
  now rewrite Hr.
Qed.

Lemma round2_tenths (q : Q) (k : Z) : q == inject_Z k / 10 -> round2 q == inject_Z k / 10.
Proof.
  intros Hq. unfold round2.
  rewrite (round_half_even_whole (q * 100) (10 * k)).
  - rewrite inject_Z_mult. change (inject_Z 10) with 10. field.
  - rewrite Hq, inject_Z_mult. change (inject_Z 10) with 10. field.
Qed.

Lemma found_fields_bound (invoice_data : ParsedInvoice) :
  (found_fields invoice_data <= 5)%nat.
Proof.
  unfold found_fields.
  pose proof (filter_length_le (fun b : bool => b) (required_fields invoice_data)) as H.
  exact H.
Qed.

Lemma confidence_value (invoice_data : ParsedInvoice) :
  _calculate_confidence invoice_data
  == inject_Z (Z.min 10 (confidence_tenths invoice_data)) / 10.
Proof.
  unfold _calculate_confidence. cbv zeta. fold (found_fields invoice_data).
  apply round2_tenths. unfold confidence_tenths.
  pose proof (found_fields_bound invoice_data) as Hb.
  destruct (p_line_items invoice_data) as [| it items] eqn:Ei.
  - cbn [length]. rewrite Z.min_r by lia.
    replace (2 * Z.of_nat (found_fields invoice_data) + Z.of_nat 0)%Z
      with (2 * Z.of_nat (found_fields invoice_data))%Z by lia.
    rewrite inject_Z_mult. change (inject_Z 2) with 2. field.
  - set (n := length (it :: items)).
    set (f := found_fields invoice_data) in *.
    assert (Hsum : inject_Z (Z.of_nat f) / 5 + (1 # 10) * inject_Z (Z.of_nat n)
                   == inject_Z (2 * Z.of_nat f + Z.of_nat n) / 10).
    { rewrite inject_Z_plus, inject_Z_mult. change (inject_Z 2) with 2. field. }
    destruct (Qltb _ 1) eqn:El.
    + rewrite Hsum. apply Qltb_true in El. rewrite Hsum in El.
      assert (Hlt : (2 * Z.of_nat f + Z.of_nat n < 10)%Z).
      { apply Z.lt_nge. intros Hge. apply (Qlt_not_le _ _ El).
        apply Qle_shift_div_l; [reflexivity|].
        change (1 * 10) with (inject_Z 10). rewrite <- Zle_Qle. exact Hge. }
      rewrite Z.min_r by lia. reflexivity.
    + apply Qltb_false in El. rewrite Hsum in El.
      assert (Hge : (10 <= 2 * Z.of_nat f + Z.of_nat n)%Z).
      { apply Z.le_ngt. intros Hlt. apply (Qle_not_lt _ _ El).
        apply Qlt_shift_div_r; [reflexivity|].
        change (1 * 10) with (inject_Z 10). rewrite <- Zlt_Qlt. exact Hlt. }
      rewrite Z.min_l by lia. reflexivity.
Qed.

(** X23.  The confidence of an extraction is a whole number of tenths:
    two for each of the five required fields found and one for each line
    item, at most ten; rounding changes nothing.  It lies between 0 and 1,
    is 1 for any extraction with ten line items even when no required field
    was found, and the low-confidence warning is given exactly when fewer
    than seven tenths are reached. *)
Theorem extraction_confidence_in_tenths (invoice_data : ParsedInvoice) :
  _calculate_confidence invoice_data
    == inject_Z (Z.min 10 (confidence_tenths invoice_data)) / 10 /\
  0 <= _calculate_confidence invoice_data /\
  _calculate_confidence invoice_data <= 1 /\
  ((10 <= length (p_line_items invoice_data))%nat ->
   _calculate_confidence invoice_data == 1) /\
  (In LowConfidence (extraction_warnings invoice_data)
   <-> (confidence_tenths invoice_data < 7)%Z).
Proof.
  pose proof (confidence_value invoice_data) as Hv.
  assert (H0 : (0 <= confidence_tenths invoice_data)%Z) by (unfold confidence_tenths; lia).
  set (k := Z.min 10 (confidence_tenths invoice_data)) in *.
  assert (Hk : (0 <= k <= 10)%Z) by (unfold k; lia).
  assert (Hq : forall a b : Z, (a <= b)%Z -> inject_Z a / 10 <= inject_Z b / 10).
  { intros a b Hab. apply Qmult_le_compat_r; [|discriminate].
    rewrite <- Zle_Qle. exact Hab. }
  split; [exact Hv|]. split; [|split; [|split]].
  - rewrite Hv. apply Qle_trans with (inject_Z 0 / 10); [discriminate|].
    apply (Hq 0%Z k). lia.
  - rewrite Hv. apply Qle_trans with (inject_Z 10 / 10); [|discriminate].
    apply (Hq k 10%Z). lia.
  - intros Hn. rewrite Hv.
    assert (Ek : k = 10%Z) by (unfold k, confidence_tenths; lia).
    rewrite Ek. reflexivity.
  - unfold extraction_warnings. rewrite in_app_iff.
    assert (Hlow : Qltb (_calculate_confidence invoice_data) (7 # 10) = true
                   <-> (confidence_tenths invoice_data < 7)%Z).
    { rewrite Qltb_true, Hv. split.
      - intros Hlt. apply Z.lt_nge. intros Hge.
        apply (Qlt_not_le _ _ Hlt). apply (Hq 7%Z k). unfold k. lia.
      - intros Hlt. assert (Hk6 : (k <= 6)%Z) by (unfold k; lia).
        apply Qle_lt_trans with (inject_Z 6 / 10); [now apply Hq | reflexivity]. }
    split.
    + intros [Hin | Hin].
      * destruct (Qltb _ (7 # 10)); [now apply Hlow | destruct Hin].
      * destruct (nonempty (p_nmi invoice_data)); [destruct Hin|].
        destruct Hin as [Hin | []]; discriminate Hin.
    + intros Hlt. left. apply Hlow in Hlt. rewrite Hlt. now left.
Qed.

(** ** NEM12 service: interval data for charting *)

Section IntervalDataProperties.
Context {rt : PyRuntime}.

Lemma row_leb_total (a b : Interval * string) : row_leb a b = false -> row_leb b a = true.
Proof.
  unfold row_leb. rewrite (String.eqb_sym (date_str (fst b))).
  destruct (String.eqb (date_str (fst a)) (date_str (fst b))) eqn:E.
  - intros Hab. apply Z.leb_gt in Hab. apply Z.leb_le. lia.
  - unfold String.ltb.
    rewrite (String.compare_antisym (date_str (fst b)) (date_str (fst a))).
    destruct (String.compare (date_str (fst a)) (date_str (fst b))) eqn:Ec;
      cbn [CompOpp]; intros Hab.
    + apply String.compare_eq_iff in Ec. apply String.eqb_neq in E. contradiction.
    + discriminate Hab.
    + reflexivity.
Qed.

Lemma insert_row_perm (x : Interval * string) (l : list (Interval * string)) :
  Permutation (insert_row x l) (x :: l).
Proof.
  induction l as [| y l IH]; cbn [insert_row]; [reflexivity|].
  destruct (row_leb x y); [reflexivity|].
  rewrite IH. apply perm_swap.
Qed.

Lemma sorted_rows_perm (l : list (Interval * string)) : Permutation (sorted_rows l) l.
Proof.
  induction l as [| x l IH]; cbn [sorted_rows fold_right]; [reflexivity|].
  fold (sorted_rows l). rewrite insert_row_perm. now constructor.
Qed.

Lemma insert_row_sorted (x : Interval * string) (l : list (Interval * string)) :
  Sorted (fun a b => row_leb a b = true) l ->
  Sorted (fun a b => row_leb a b = true) (insert_row x l).
Proof.
  induction 1 as [| y l Hs IH Hd]; cbn [insert_row].
  - constructor; constructor.
  - destruct (row_leb x y) eqn:E.
    + constructor; [constructor; assumption | constructor; exact E].
    + constructor; [exact IH|].
      destruct l as [| z l]; cbn [insert_row].
      * constructor. now apply row_leb_total.
      * destruct (row_leb x z); constructor.
        -- now apply row_leb_total.
        -- now inversion Hd.
Qed.

Lemma sorted_rows_sorted (l : list (Interval * string)) :
  Sorted (fun a b => row_leb a b = true) (sorted_rows l).
Proof.
  induction l as [| x l IH]; cbn [sorted_rows fold_right]; [constructor|].
  now apply insert_row_sorted.
Qed.

Lemma filter_twice {A : Type} (f g : A -> bool) (l : list A) :
  List.filter g (List.filter f l) = List.filter (fun x => f x && g x) l.
Proof.
  induction l as [| x l IH]; [reflexivity|]. cbn [List.filter].
  destruct (f x); cbn [andb List.filter]; [|exact IH].
  destruct (g x); now rewrite IH.
Qed.

Lemma filter_all {A : Type} (l : list A) : List.filter (fun _ => true) l = l.
Proof.
  induction l as [| x l IH]; [reflexivity|]. cbn [List.filter]. now rewrite IH.
Qed.

Lemma dict_items_elem (keys : list string) (m : gmap string (list Interval))
    (entry : string * list Interval) :
  entry ∈ dict_items keys m <-> fst entry ∈ keys /\ m !! fst entry = Some (snd entry).
Proof.
  unfold dict_items. rewrite list_elem_of_omap. destruct entry as [k v]. cbn [fst snd].
  split.
  - intros (k' & Hin & Hk). destruct (m !! k') as [v' |] eqn:E; [|discriminate Hk].
    cbn in Hk. injection Hk as -> ->. now split.
  - intros [Hin Hk]. exists k. split; [exact Hin|]. now rewrite Hk.
Qed.

Lemma dict_items_cons (k : string) (ks : list string) (m : gmap string (list Interval)) :
  dict_items (k :: ks) m
  = match m !! k with
    | Some v => (k, v) :: dict_items ks m
    | None => dict_items ks m
    end.
Proof.
  unfold dict_items. cbn [omap list_omap]. destruct (m !! k); reflexivity.
Qed.

Lemma dict_items_NoDup (keys : list string) (m : gmap string (list Interval)) :
  NoDup keys -> NoDup (dict_items keys m).
Proof.
  induction 1 as [| k ks Hk _ IH]; [constructor|].
  rewrite dict_items_cons. destruct (m !! k) as [v |] eqn:E; [|exact IH].
  constructor; [|exact IH].
  intros Hin. apply Hk. apply dict_items_elem in Hin. exact (proj1 Hin).
Qed.

Lemma dict_items_perm (keys : list string) (m : gmap string (list Interval)) :
  NoDup keys -> list_to_set keys = dom m ->
  Permutation (dict_items keys m) (map_to_list m).
Proof.
  intros Hnd Hdom. apply NoDup_Permutation.
  - now apply dict_items_NoDup.
  - apply NoDup_map_to_list.
  - intros [k v]. rewrite dict_items_elem, elem_of_map_to_list. cbn [fst snd].
    split; [tauto|]. intros Hk. split; [|exact Hk].
    apply (elem_of_list_to_set (C := gset string)). rewrite Hdom.
    apply elem_of_dom. now exists v.
Qed.

Lemma named_entry_rows {R : Type} (g : string * list Interval -> list R)
    (keys : list string) (m : gmap string (list Interval)) (n : string) :
  NoDup keys ->
  flat_map (fun entry => if negb (String.eqb (fst entry) n) then [] else g entry)
           (dict_items keys m)
  = match m !! n with
    | Some v => if bool_decide (n ∈ keys) then g (n, v) else []
    | None => []
    end.
Proof.
  induction 1 as [| k ks Hk _ IH].
  - cbn. destruct (m !! n); reflexivity.
  - rewrite dict_items_cons. destruct (String.eqb k n) eqn:Ekn.
    + apply String.eqb_eq in Ekn. subst k.
      assert (Hrest : flat_map
                (fun entry => if negb (String.eqb (fst entry) n) then [] else g entry)
                (dict_items ks m) = []).
      { rewrite IH. destruct (m !! n); [|reflexivity].
        rewrite bool_decide_eq_false_2; [reflexivity | exact Hk]. }
      destruct (m !! n) as [v |] eqn:E; [|exact Hrest].
      cbn [flat_map fst]. rewrite String.eqb_refl. cbn [negb].
      rewrite Hrest, app_nil_r.
      rewrite bool_decide_eq_true_2; [reflexivity | now left].
    + assert (Hdec : bool_decide (n ∈ k :: ks) = bool_decide (n ∈ ks)).
      { apply bool_decide_ext. rewrite elem_of_cons. split; [|tauto].
        intros [-> | Hin]; [|exact Hin]. rewrite String.eqb_refl in Ekn. discriminate Ekn. }
      rewrite Hdec, <- IH.
      destruct (m !! k) as [v |]; [|reflexivity].
      cbn [flat_map fst]. rewrite Ekn. reflexivity.
Qed.

Lemma filtered_rows (start_date end_date : option string) (nmi : string)
    (intervals : list Interval) :
  map (fun i => (i, nmi))
      (let filtered :=
         match nonempty start_date with
         | Some s => List.filter (fun i => String.leb s (date_str i)) intervals
         | None => intervals
         end in
       match nonempty end_date with
       | Some e => List.filter (fun i => String.leb (date_str i) e) filtered
       | None => filtered
       end)
  = rows_in_range start_date end_date nmi intervals.
Proof.
  cbv zeta. unfold rows_in_range, in_date_range. f_equal.
  destruct (nonempty start_date) as [s |], (nonempty end_date) as [e |].
  - now rewrite filter_twice.
  - apply List.filter_ext. intros iv. now rewrite andb_true_r.
  - reflexivity.
  - cbn [andb]. now rewrite filter_all.
Qed.

(** X25.  [get_interval_data] returns the stored readings whose date is
    within the given bounds (compared as ISO strings; a bound that is absent
    or empty does not restrict), each exactly once and tagged with the NMI
    it is stored under, in ascending order of date and interval number:
    those of the NMI that is named, and those of every NMI when none is
    named ([None] or the empty string); for an unknown file it returns
    nothing.  [keys] is the order of the keys of the stored dict. *)
Theorem interval_data_sorted_and_complete (data : option FileData) (keys : list string)
    (nmi start_date end_date : option string) :
  dict_order keys data ->
  let out := get_interval_data data keys nmi start_date end_date in
  Sorted (fun a b => row_leb a b = true) out /\
  Permutation out
    match nonempty nmi with
    | Some n =>
        map (fun i => (i, n))
            (List.filter (in_date_range start_date end_date) (stored_readings data n))
    | None => all_stored_rows data start_date end_date
    end /\
  (data = None -> out = []).
Proof.
  intros Hk. cbv zeta. unfold get_interval_data, stored_readings, all_stored_rows.
  destruct data as [d |].
  2:{ split; [constructor|]. split; [|reflexivity]. destruct (nonempty nmi); reflexivity. }
  destruct Hk as [Hnd Hdom].
  split; [apply sorted_rows_sorted|]. split; [|discriminate].
  rewrite sorted_rows_perm. cbv zeta.
  destruct (nonempty nmi) as [n |].
  - erewrite flat_map_ext; [|intros entry; rewrite filtered_rows; reflexivity].
    rewrite (named_entry_rows
               (fun entry => rows_in_range start_date end_date (fst entry) (snd entry))
               keys (fd_intervals d) n Hnd).
    destruct (fd_intervals d !! n) as [v |] eqn:E; cbn [default]; [|reflexivity].
    rewrite bool_decide_eq_true_2; [reflexivity|].
    apply (elem_of_list_to_set (C := gset string)). rewrite Hdom.
    apply elem_of_dom. now exists v.
  - erewrite flat_map_ext; [|intros entry; rewrite filtered_rows; reflexivity].
    apply Permutation_flat_map. now apply dict_items_perm.
Qed.

End IntervalDataProperties.

Lemma interval_data_sorted_and_complete_witness :
  let out := get_interval_data (stored_after two_meter_file) ["NMI2"; "NMI1"]%string
                               None (Some "2024-01-02"%string) None in
  map (fun row => (date_str (fst row), i_interval (fst row), snd row)) out
    = [("2024-01-02", 1%Z, "NMI2"); ("2024-01-02", 1%Z, "NMI1");
       ("2024-01-02", 2%Z, "NMI2")]%string /\
  Sorted (fun a b => row_leb a b = true) out /\
  Permutation out
    (all_stored_rows (stored_after two_meter_file) (Some "2024-01-02"%string) None) /\
  (stored_after two_meter_file = None -> out = []).
Proof.
  split; [vm_compute; reflexivity|].
  apply (interval_data_sorted_and_complete (rt := ascii_runtime)
           (stored_after two_meter_file) ["NMI2"; "NMI1"]%string
           None (Some "2024-01-02"%string) None).
  split.
  - apply (bool_decide_unpack _). vm_compute. exact I.
  - apply (bool_decide_unpack _). vm_compute. exact I.
Defined.

(** ** NEM12 service: rows of other record types *)

Section OtherRows.
Context {rt : PyRuntime}.

Lemma other_row_step (st : ParseState) (fields : list string) :
  is_data_row fields = false -> process_fields st fields = Ok st.
Proof.
  unfold is_data_row, is_channel_row, is_day_row, is_end_row, process_fields.
  intros Hn. apply orb_false_iff in Hn. destruct Hn as [Hn H9].
  apply orb_false_iff in Hn. destruct Hn as [H2 H3].
  rewrite H2, H3, H9.
  destruct (String.eqb (field_or fields 0 "") "100"); [reflexivity|].
  destruct (String.eqb (field_or fields 0 "") "400"); reflexivity.
Qed.

(** X28.  Only channel (200), day (300) and end (900) rows count: header
    rows, event rows, blank lines and rows of any other type can be removed
    from a file, wherever they stand, without changing what is stored or
    whether an error is raised. *)
Theorem other_rows_are_ignored (rows : list (list string)) (st : ParseState) :
  process_rows st rows = process_rows st (List.filter is_data_row rows).
Proof.
  revert st. induction rows as [| f rows IH]; intros st; [reflexivity|].
  cbn [List.filter process_rows].
  destruct (is_data_row f) eqn:E.
  - cbn [process_rows]. destruct (process_fields st f) as [st1 | e]; cbn [rbind];
      [apply IH | reflexivity].
  - rewrite (other_row_step st f E). cbn [rbind]. apply IH.
Qed.

End OtherRows.
